(** * Secret Poll installer and production validator: a shallow embedding

    The two programs under study are [install.py] (class
    [SecretPollInstaller]) and [production_validator.py] (class
    [ProductionValidator]).  Both are sequential Python scripts that drive
    external tools.  They are embedded as follows.

    - Python strings are [string]; the text helpers of module [PyStr]
      follow [str.strip], [str.lower], [in], [str.split], [int].
    - The dictionary [self.config] is a [gmap string pyval].
    - A method is a computation in the monad [M]: it reads and updates the
      installer object, may raise a Python exception, and emits the events
      it causes (log entries, started commands, file-system effects).
    - Everything outside the process (commands, files, sockets, the
      operator at the keyboard) is answered by a [World]; its answers are
      indexed by a counter [tick] so that the same question can be
      answered differently as time passes.

    Conventions.  Colour codes, banners and other print-only decoration
    are not modelled.  The log is the sequence of [EvLog] events; the
    timestamp that [log] obtains from [date] is not modelled and [date] is
    taken to succeed.  In [run_command] the opening of the log file for
    appending and the start of the child process are one question to the
    world. *)

From Stdlib Require Import Ascii String ZArith.
From stdpp Require Import gmap strings list fin_maps pretty.

Open Scope string_scope.
Open Scope Z_scope.

(** ** Python string operations *)

Module PyStr.

Definition dq : string := String (Ascii.ascii_of_nat 34) "".
Definition nl : ascii := Ascii.ascii_of_nat 10.

(** [str.isspace] on one ASCII character. *)
Definition is_space (c : ascii) : bool :=
  let n := Ascii.nat_of_ascii c in
  ((9 <=? n)%nat && (n <=? 13)%nat) || ((28 <=? n)%nat && (n <=? 32)%nat).

Definition is_upper (c : ascii) : bool :=
  let n := Ascii.nat_of_ascii c in (65 <=? n)%nat && (n <=? 90)%nat.
Definition is_lower (c : ascii) : bool :=
  let n := Ascii.nat_of_ascii c in (97 <=? n)%nat && (n <=? 122)%nat.
Definition is_digit (c : ascii) : bool :=
  let n := Ascii.nat_of_ascii c in (48 <=? n)%nat && (n <=? 57)%nat.
Definition is_alnum (c : ascii) : bool := is_upper c || is_lower c || is_digit c.

Definition to_lower (c : ascii) : ascii :=
  if is_upper c then Ascii.ascii_of_nat (Ascii.nat_of_ascii c + 32) else c.
Definition to_upper (c : ascii) : ascii :=
  if is_lower c then Ascii.ascii_of_nat (Ascii.nat_of_ascii c - 32) else c.

Fixpoint lower (s : string) : string :=
  match s with
  | EmptyString => EmptyString
  | String c s' => String (to_lower c) (lower s')
  end.

(** [str.title]: the first letter of every run of letters in upper case,
    the others in lower case. *)
Fixpoint title_from (in_word : bool) (s : string) : string :=
  match s with
  | EmptyString => EmptyString
  | String c s' =>
      if is_upper c || is_lower c
      then String (if in_word then to_lower c else to_upper c) (title_from true s')
      else String c (title_from false s')
  end.
Definition title (s : string) : string := title_from false s.

Fixpoint lstrip (s : string) : string :=
  match s with
  | EmptyString => EmptyString
  | String c s' => if is_space c then lstrip s' else s
  end.

Fixpoint rstrip (s : string) : string :=
  match s with
  | EmptyString => EmptyString
  | String c s' =>
      match rstrip s' with
      | EmptyString => if is_space c then EmptyString else String c EmptyString
      | r => String c r
      end
  end.

Definition strip (s : string) : string := lstrip (rstrip s).

(** Truth value of a string: non-empty. *)
Definition nonempty (s : string) : bool :=
  match s with EmptyString => false | _ => true end.

Definition startswith (s pre : string) : bool := String.prefix pre s.

(** [pat in s]. *)
Fixpoint contains (pat s : string) : bool :=
  String.prefix pat s ||
  match s with
  | EmptyString => false
  | String _ s' => contains pat s'
  end.

(** Number of positions of [s] at which [pat] starts. *)
Fixpoint count_pos (pat s : string) : nat :=
  match s with
  | EmptyString => 0%nat
  | String _ s' => ((if String.prefix pat s then 1 else 0) + count_pos pat s')%nat
  end.

(** [s.count(pat)]: occurrences without overlap, scanning from the left.
    [skip] is the number of characters still covered by the last match. *)
Fixpoint count_from (pat s : string) (skip : nat) : nat :=
  match s with
  | EmptyString => 0%nat
  | String _ s' =>
      match skip with
      | S k => count_from pat s' k
      | O => if String.prefix pat s
             then S (count_from pat s' (String.length pat - 1))
             else count_from pat s' 0
      end
  end.
Definition count (s pat : string) : nat := count_from pat s 0.

(** [s.split(sep)] for a one-character separator. *)
Fixpoint split_char (sep : ascii) (s : string) : list string :=
  match s with
  | EmptyString => [EmptyString]
  | String c s' =>
      if Ascii.eqb c sep then EmptyString :: split_char sep s'
      else match split_char sep s' with
           | h :: t => String c h :: t
           | [] => [String c EmptyString]
           end
  end.

(** [f.readlines()]: the lines of a text, each with its final newline. *)
Fixpoint readlines (s : string) : list string :=
  match s with
  | EmptyString => []
  | String c s' =>
      if Ascii.eqb c nl then String c EmptyString :: readlines s'
      else match readlines s' with
           | h :: t => String c h :: t
           | [] => [String c EmptyString]
           end
  end.

(** [s.split()]: the maximal runs of non-space characters. The first
    component is the run that is still open at the head of [s]. *)
Fixpoint ws_tokens (s : string) : string * list string :=
  match s with
  | EmptyString => (EmptyString, [])
  | String c s' =>
      let '(h, t) := ws_tokens s' in
      if is_space c then (EmptyString, if nonempty h then h :: t else t)
      else (String c h, t)
  end.
Definition split_ws (s : string) : list string :=
  let '(h, t) := ws_tokens s in if nonempty h then h :: t else t.

(** [s[1:]]. *)
Definition tail (s : string) : string :=
  match s with EmptyString => EmptyString | String _ s' => s' end.

(** [int(s)]: surrounding space is dropped; then an optional sign and
    decimal digits, single underscores allowed between digits. *)
Fixpoint digits_value (s : string) (prev_digit : bool) (acc : Z) : option Z :=
  match s with
  | EmptyString => if prev_digit then Some acc else None
  | String c s' =>
      if is_digit c
      then digits_value s' true (10 * acc + (Z.of_nat (Ascii.nat_of_ascii c) - 48))
      else if Ascii.eqb c "_"%char && prev_digit then digits_value s' false acc
      else None
  end.
Definition parse_int (s : string) : option Z :=
  match strip s with
  | String "-"%char s' => Z.opp <$> digits_value s' false 0
  | String "+"%char s' => digits_value s' false 0
  | s' => digits_value s' false 0
  end.

(** [' '.join(l)]. *)
Definition join (sep : string) (l : list string) : string := String.concat sep l.

(** [l[-n:]] for [n > 0]. *)
Definition last_n {A} (n : nat) (l : list A) : list A :=
  drop (length l - n) l.

End PyStr.

(** ** Python exceptions and results *)

Module Py.

Import PyStr.

(** The exceptions that the scripts raise or meet.  [SystemExit] and
    [KeyboardInterrupt] derive from [BaseException] only; all the others
    derive from [Exception]. *)
Inductive exn :=
| SystemExit (code : Z)
| KeyboardInterrupt
| CalledProcessError (returncode : Z) (cmd : list string)
| FileNotFoundError (msg : string)
| OSError (msg : string)
| EOFError
| KeyError (key : string)
| ValueError (msg : string)
| IndexError
| PyException (msg : string).

Definition is_Exception (e : exn) : bool :=
  match e with
  | SystemExit _ | KeyboardInterrupt => false
  | _ => true
  end.

(** [repr] of a list of strings free of quotes and backslashes. *)
Definition repr_list (l : list string) : string :=
  "[" +:+ join ", " (map (fun a => "'" +:+ a +:+ "'") l) +:+ "]".

(** [str(e)]. *)
Definition exn_str (e : exn) : string :=
  match e with
  | SystemExit c => pretty c
  | KeyboardInterrupt => ""
  | CalledProcessError rc cmd =>
      "Command '" +:+ repr_list cmd +:+ "' returned non-zero exit status " +:+ pretty rc +:+ "."
  | FileNotFoundError m => m
  | OSError m => m
  | EOFError => "EOF when reading a line"
  | KeyError k => "'" +:+ k +:+ "'"
  | ValueError m => m
  | IndexError => "list index out of range"
  | PyException m => m
  end.

Inductive result (A : Type) :=
| Return (a : A)
| Raise (e : exn).
Arguments Return {A} a.
Arguments Raise {A} e.

End Py.

(** ** The installer: values, exceptions, events, world *)

Module Installer.

Import PyStr Py.

(** Values stored in [self.config]. *)
Inductive pyval :=
| VStr (s : string)
| VBool (b : bool).

Definition truthy (v : pyval) : bool :=
  match v with VStr s => nonempty s | VBool b => b end.

(** [str(v)], as an f-string renders it. *)
Definition py_str (v : pyval) : string :=
  match v with VStr s => s | VBool true => "True" | VBool false => "False" end.

(** [v == 'literal']. *)
Definition eq_str (v : pyval) (lit : string) : bool :=
  match v with VStr s => String.eqb s lit | VBool _ => false end.

Inductive level := INFO | SUCCESS | WARNING | ERROR | PROGRESS | STEP.

Inductive fs_op :=
| Write (path content : string)
| Makedirs (path : string)
| Copytree (src dst : string)
| Chdir (path : string)
| Remove (path : string)
| Symlink (src dst : string)
| Chmod (path : string) (mode : Z).

(** Outcome of starting a child process and waiting for it. *)
Inductive proc_outcome :=
| Exited (returncode : Z) (stdout : string)
| NotFound
| OtherOSError (msg : string)
| Interrupted.

(** What a run does that can be observed from outside: log entries, child
    processes with their outcome, effects on the file system, the dump of
    the recent log entries, pauses. *)
Inductive event :=
| EvLog (lv : level) (msg : string)
| EvRun (cmd : list string) (outcome : proc_outcome)
| EvFs (op : fs_op)
| EvRecentLog (lines : list string)
| EvSleep (seconds : Z).

Inductive read_outcome :=
| Content (text : string)
| ReadNotFound
| ReadError (msg : string).

(** One line typed by the operator, or Ctrl-C at the prompt. *)
Inductive input_line :=
| Line (s : string)
| CtrlC.

Record World := {
  w_subprocess : nat -> list string -> proc_outcome;
  w_read : nat -> string -> read_outcome;
  w_path_exists : nat -> string -> bool;
  (** [None]: the operation is done; [Some msg]: it raises [OSError]. *)
  w_fs : nat -> fs_op -> option string;
  w_geteuid : Z;
  (** [f_bavail] and [f_frsize] of [os.statvfs('/')]. *)
  w_statvfs : nat -> Z * Z;
  (** Whether [socket.inet_aton] accepts the text. *)
  w_inet_aton : string -> bool;
  (** [connect_ex]: the error code, or the message of the exception. *)
  w_connect_ex : nat -> string -> Z -> Z + string;
  (** [urlopen]: the status code, or the message of the exception. *)
  w_urlopen : nat -> string -> Z + string;
  w_gethostbyname : nat -> string -> string + string;
  w_token_hex : nat -> string;
  (** [Path(__file__).parent]. *)
  w_script_dir : string;
  (** Rendering of the quotient of two integers by [:.1f]. *)
  w_format_1f : Z -> Z -> string
}.

(** The installer object together with the run context (pending keyboard
    input and the time counter). *)
Record installer := {
  config : gmap string pyval;
  install_dir : string;
  log_file : string;
  service_name : string;
  total_steps : nat;
  current_step : nat;
  stdin : list input_line;
  tick : nat
}.

(** [SecretPollInstaller.__init__]. *)
Definition init (inp : list input_line) : installer :=
  {| config := ∅;
     install_dir := "/opt/secret-poll";
     log_file := "/var/log/secret-poll-install.log";
     service_name := "secret-poll";
     total_steps := 12;
     current_step := 0;
     stdin := inp;
     tick := 0 |}.

Definition with_config (f : gmap string pyval -> gmap string pyval) (s : installer) : installer :=
  {| config := f (config s); install_dir := install_dir s; log_file := log_file s;
     service_name := service_name s; total_steps := total_steps s;
     current_step := current_step s; stdin := stdin s; tick := tick s |}.

Definition with_install_dir (d : string) (s : installer) : installer :=
  {| config := config s; install_dir := d; log_file := log_file s;
     service_name := service_name s; total_steps := total_steps s;
     current_step := current_step s; stdin := stdin s; tick := tick s |}.

Definition with_current_step (n : nat) (s : installer) : installer :=
  {| config := config s; install_dir := install_dir s; log_file := log_file s;
     service_name := service_name s; total_steps := total_steps s;
     current_step := n; stdin := stdin s; tick := tick s |}.

Definition with_stdin (l : list input_line) (s : installer) : installer :=
  {| config := config s; install_dir := install_dir s; log_file := log_file s;
     service_name := service_name s; total_steps := total_steps s;
     current_step := current_step s; stdin := l; tick := tick s |}.

Definition bump (s : installer) : installer :=
  {| config := config s; install_dir := install_dir s; log_file := log_file s;
     service_name := service_name s; total_steps := total_steps s;
     current_step := current_step s; stdin := stdin s; tick := S (tick s) |}.

(** ** The monad of installer methods *)

Definition M (A : Type) : Type := installer -> result A * installer * list event.

Definition ret {A} (a : A) : M A := fun s => (Return a, s, []).

Definition raise {A} (e : exn) : M A := fun s => (Raise e, s, []).

Definition bind {A B} (m : M A) (k : A -> M B) : M B :=
  fun s =>
    match m s with
    | (Return a, s1, d1) =>
        match k a s1 with
        | (r, s2, d2) => (r, s2, (d1 ++ d2)%list)
        end
    | (Raise e, s1, d1) => (Raise e, s1, d1)
    end.

(** [try: body / except ...: handler]: the clause list [h] selects the
    handler of an exception, [None] when no clause matches. *)
Definition try_catch {A} (body : M A) (h : exn -> option (M A)) : M A :=
  fun s =>
    match body s with
    | (Return a, s1, d1) => (Return a, s1, d1)
    | (Raise e, s1, d1) =>
        match h e with
        | Some handler =>
            match handler s1 with
            | (r, s2, d2) => (r, s2, (d1 ++ d2)%list)
            end
        | None => (Raise e, s1, d1)
        end
    end.

(** [except:] *)
Definition try_bare {A} (body : M A) (handler : M A) : M A :=
  try_catch body (fun _ => Some handler).

(** [except Exception as e:] *)
Definition try_Exception {A} (body : M A) (handler : exn -> M A) : M A :=
  try_catch body (fun e => if is_Exception e then Some (handler e) else None).

Declare Scope inst_scope.
Delimit Scope inst_scope with inst.
Notation "x <- m ;; k" := (bind m (fun x => k))
  (at level 100, m at next level, k at level 200, right associativity) : inst_scope.
Notation "m ;; k" := (bind m (fun _ => k))
  (at level 100, k at level 200, right associativity) : inst_scope.
Open Scope inst_scope.

Definition get {A} (f : installer -> A) : M A := fun s => (Return (f s), s, []).
Definition modify (f : installer -> installer) : M unit := fun s => (Return tt, f s, []).
Definition emit (ev : event) : M unit := fun s => (Return tt, s, [ev]).

(** [sys.exit(code)]. *)
Definition sys_exit {A} (code : Z) : M A := raise (SystemExit code).

(** [for x in l: body x]. *)
Fixpoint for_each {A} (l : list A) (body : A -> M unit) : M unit :=
  match l with
  | [] => ret tt
  | x :: l' => body x ;; for_each l' body
  end.

Definition when (b : bool) (m : M unit) : M unit := if b then m else ret tt.

(** [self.config[key]]. *)
Definition get_config (key : string) : M pyval :=
  fun s =>
    match config s !! key with
    | Some v => (Return v, s, [])
    | None => (Raise (KeyError key), s, [])
    end.

(** [self.config[key] = v]. *)
Definition set_config (key : string) (v : pyval) : M unit :=
  modify (with_config (insert key v)).

(** [Path(a) / b]. *)
Definition path_join (a b : string) : string := a +:+ "/" +:+ b.

(** [domain_pattern]: dot-separated labels of 1 to 63 letters, digits and
    inner hyphens.  [$] also matches just before a final newline. *)
Definition label_ok (l : string) : bool :=
  let cs := String.list_ascii_of_string l in
  match cs with
  | [] => false
  | c :: _ =>
      is_alnum c && is_alnum (List.last cs c) &&
      forallb (fun x => is_alnum x || Ascii.eqb x "-"%char) cs &&
      (length cs <=? 63)%nat
  end.

Definition chomp (s : string) : string :=
  match List.rev (String.list_ascii_of_string s) with
  | c :: r => if Ascii.eqb c nl then String.string_of_list_ascii (List.rev r) else s
  | [] => s
  end.

Definition domain_pattern_match (value : string) : bool :=
  forallb label_ok (split_char "."%char (chomp value)).

Definition mem_str (x : string) (l : list string) : bool := existsb (String.eqb x) l.

(** The prompt loops [while True: x = input(...).strip(); ...; break]:
    lines are read until one is accepted. *)
Fixpoint read_until {A} (accept : string -> option A) (inp : list input_line)
    : result A * list input_line :=
  match inp with
  | [] => (Raise EOFError, [])
  | CtrlC :: rest => (Raise KeyboardInterrupt, rest)
  | Line l :: rest =>
      match accept l with
      | Some a => (Return a, rest)
      | None => read_until accept rest
      end
  end.

Definition input_loop {A} (accept : string -> option A) : M A :=
  fun s => let '(r, rest) := read_until accept (stdin s) in (r, with_stdin rest s, []).

Section WithWorld.

Variable W : World.

(** A question to the world; time advances. *)
Definition ask {A} (q : World -> nat -> A) : M A :=
  fun s => (Return (q W (tick s)), bump s, []).

(** [input(prompt).strip()] is split in two: this is [input]. *)
Definition input : M string :=
  fun s =>
    match stdin s with
    | [] => (Raise EOFError, s, [])
    | Line l :: rest => (Return l, with_stdin rest s, [])
    | CtrlC :: rest => (Raise KeyboardInterrupt, with_stdin rest s, [])
    end.

(** [subprocess.run(cmd, ..., check=check)]: return code and standard
    output of the child. *)
Definition subprocess_run (cmd : list string) (check : bool) : M (Z * string) :=
  o <- ask (fun w t => w_subprocess w t cmd) ;;
  emit (EvRun cmd o) ;;
  match o with
  | Exited rc out =>
      if check && negb (rc =? 0) then raise (CalledProcessError rc cmd)
      else ret (rc, out)
  | NotFound =>
      raise (FileNotFoundError
               ("[Errno 2] No such file or directory: '" +:+ hd "" cmd +:+ "'"))
  | OtherOSError m => raise (OSError m)
  | Interrupted => raise KeyboardInterrupt
  end.

(** An operation on the file system that returns nothing. *)
Definition fs (op : fs_op) : M unit :=
  o <- ask (fun w t => w_fs w t op) ;;
  match o with
  | None => emit (EvFs op)
  | Some m => raise (OSError m)
  end.

(** [with open(path, 'w') as f: f.write(content)]. *)
Definition write_file (path content : string) : M unit := fs (Write path content).

(** [open(path).read()]. *)
Definition read_file (path : string) : M string :=
  o <- ask (fun w t => w_read w t path) ;;
  match o with
  | Content text => ret text
  | ReadNotFound =>
      raise (FileNotFoundError
               ("[Errno 2] No such file or directory: '" +:+ path +:+ "'"))
  | ReadError m => raise (OSError m)
  end.

Definition path_exists (path : string) : M bool :=
  ask (fun w t => w_path_exists w t path).

Definition sleep (seconds : Z) : M unit := emit (EvSleep seconds).

(** [log]: one entry on the console and in the log file. *)
Definition log (message : string) (lv : level) : M unit :=
  emit (EvLog lv message).

Definition progress (step_description : string) : M unit :=
  modify (fun s => with_current_step (S (current_step s)) s) ;;
  cur <- get current_step ;;
  tot <- get total_steps ;;
  log ("Step " +:+ pretty cur +:+ "/" +:+ pretty tot +:+ ": " +:+ step_description) PROGRESS.

(** The block of [run_command] that shows the recent log entries; any
    failure to read the log file is swallowed. *)
Definition show_recent_log : M unit :=
  path <- get log_file ;;
  o <- ask (fun w t => w_read w t path) ;;
  match o with
  | Content text => emit (EvRecentLog (map rstrip (last_n 10 (readlines text))))
  | _ => ret tt
  end.

Definition run_command (cmd : list string) (description : string)
    (capture_output ignore_errors : bool) : M string :=
  try_catch
    (when (nonempty description) (log description INFO) ;;
     r <- subprocess_run cmd true ;;
     ret (if capture_output then snd r else ""))
    (fun e =>
       match e with
       | CalledProcessError returncode _ => Some (
           let error_msg :=
             if nonempty description then description +:+ " failed"
             else "Command failed: " +:+ join " " cmd in
           log error_msg (if negb ignore_errors then ERROR else WARNING) ;;
           log ("Exit code: " +:+ pretty returncode)
               (if negb ignore_errors then ERROR else WARNING) ;;
           if ignore_errors
           then log "Continuing despite error (ignore_errors=True)" WARNING ;; ret ""
           else show_recent_log ;; sys_exit 1)
       | FileNotFoundError _ => Some (
           log ("Command not found: " +:+ hd "" cmd)
               (if negb ignore_errors then ERROR else WARNING) ;;
           if ignore_errors then ret "" else sys_exit 1)
       | _ => None
       end).

(** [run_command(cmd)] and [run_command(cmd, description)]. *)
Definition run (cmd : list string) : M string := run_command cmd "" false false.
Definition run_d (cmd : list string) (description : string) : M string :=
  run_command cmd description false false.
Definition run_ignore (cmd : list string) : M string := run_command cmd "" false true.

(** ** Configuration collection *)

Definition is_ip_address (value : string) : bool := w_inet_aton W value.

Definition validate_domain_or_ip (value : string) : bool :=
  if is_ip_address value then true else domain_pattern_match value.

Definition show_configuration_summary : M unit :=
  get_config "domain" ;;
  get_config "enable_ssl" ;;
  en <- get_config "enable_ssl" ;;
  (if truthy en then get_config "ssl_email" ;; ret tt else ret tt) ;;
  get_config "web_server" ;;
  get_config "environment" ;;
  l <- input ;;
  let confirm := lower (strip l) in
  if String.eqb confirm "n"
  then log "Installation cancelled by user" INFO ;; sys_exit 0
  else ret tt.

Definition accept_domain (l : string) : option string :=
  let domain := strip l in
  if nonempty domain && validate_domain_or_ip domain then Some domain else None.

Definition accept_email (l : string) : option string :=
  let email := strip l in
  if nonempty email && contains "@" email then Some email else None.

Definition accept_choice (l : string) : option string :=
  let choice := strip l in
  let choice := if nonempty choice then choice else "1" in
  if mem_str choice ["1"; "2"; "3"] then Some choice else None.

Definition web_servers (choice : string) : string :=
  if String.eqb choice "1" then "nginx"
  else if String.eqb choice "2" then "apache"
  else "standalone".

Definition collect_configuration : M unit :=
  log "Starting configuration setup" STEP ;;
  domain <- input_loop accept_domain ;;
  set_config "domain" (VStr domain) ;;
  set_config "is_ip" (VBool (is_ip_address domain)) ;;
  is_ip <- get_config "is_ip" ;;
  (if negb (truthy is_ip) then
     l <- input ;;
     let ssl_choice := lower (strip l) in
     set_config "enable_ssl" (VBool (negb (String.eqb ssl_choice "n"))) ;;
     en <- get_config "enable_ssl" ;;
     if truthy en then
       email <- input_loop accept_email ;;
       set_config "ssl_email" (VStr email)
     else ret tt
   else set_config "enable_ssl" (VBool false)) ;;
  choice <- input_loop accept_choice ;;
  set_config "web_server" (VStr (web_servers choice)) ;;
  l <- input ;;
  let env_choice := lower (strip l) in
  set_config "environment"
    (VStr (if mem_str env_choice ["production"; "staging"] then env_choice else "production")) ;;
  l <- input ;;
  let dir := strip l in
  (if nonempty dir then modify (with_install_dir dir) else ret tt) ;;
  show_configuration_summary.

(** ** Environment checks and cleanup *)

Definition check_root : M unit :=
  euid <- get (fun _ => w_geteuid W) ;;
  if negb (euid =? 0) then
    log "This script must be run as root" ERROR ;;
    log "Please run: sudo python3 install.py" INFO ;;
    sys_exit 1
  else ret tt.

Definition check_system_requirements : M unit :=
  log "Checking system requirements" STEP ;;
  try_catch
    (os_info <- read_file "/etc/os-release" ;;
     if contains "ubuntu" (lower os_info) || contains "debian" (lower os_info)
     then log "Supported OS detected" SUCCESS
     else log "OS may not be fully supported, but continuing" WARNING)
    (fun e =>
       match e with
       | FileNotFoundError _ =>
           Some (log "Cannot determine OS, continuing with installation" WARNING)
       | _ => None
       end) ;;
  st <- ask w_statvfs ;;
  let available := fst st * snd st in
  (if available <? 2 * 1024 ^ 3 then
     log ("Low disk space: " +:+ w_format_1f W available (1024 ^ 3) +:+ "GB available") ERROR ;;
     sys_exit 1
   else ret tt) ;;
  try_bare
    (text <- read_file "/proc/meminfo" ;;
     match List.find (fun line => startswith line "MemAvailable:") (readlines text) with
     | Some line =>
         match split_ws line with
         | _ :: tok :: _ =>
             match parse_int tok with
             | Some mem_kb =>
                 if mem_kb <? 1024 ^ 2
                 then log ("Low memory: " +:+ w_format_1f W mem_kb (1024 ^ 2) +:+ "GB available") WARNING
                 else ret tt
             | None => raise (ValueError tok)
             end
         | _ => raise IndexError
         end
     | None => ret tt
     end)
    (ret tt) ;;
  log "System requirements check completed" SUCCESS.

Definition cleanup_vps : M unit :=
  progress "Cleaning VPS environment to prevent conflicts" ;;
  for_each ["apache2"; "nginx"; "httpd"; "lighttpd"] (fun service =>
    try_bare
      (r <- subprocess_run ["systemctl"; "is-active"; service] false ;;
       if String.eqb (strip (snd r)) "active" then
         log ("Stopping conflicting service: " +:+ service) INFO ;;
         run_ignore ["systemctl"; "stop"; service] ;;
         run_ignore ["systemctl"; "disable"; service] ;;
         ret tt
       else ret tt)
      (ret tt)) ;;
  log "Cleaning package cache" INFO ;;
  run_ignore ["apt-get"; "clean"] ;;
  run_ignore ["apt-get"; "autoremove"; "-y"] ;;
  dir <- get install_dir ;;
  ex <- path_exists dir ;;
  (if ex then
     log ("Removing existing installation at " +:+ dir) WARNING ;;
     run_ignore ["rm"; "-rf"; dir] ;;
     ret tt
   else ret tt) ;;
  for_each [80; 443; 8001] (fun port =>
    try_bare
      (r <- subprocess_run ["lsof"; "-ti"; ":" +:+ pretty port] false ;;
       if nonempty (strip (snd r)) then
         for_each (split_char nl (strip (snd r))) (fun pid =>
           if nonempty pid then
             log ("Killing process on port " +:+ pretty port +:+ " (PID: " +:+ pid +:+ ")") WARNING ;;
             run_ignore ["kill"; "-9"; pid] ;;
             ret tt
           else ret tt)
       else ret tt)
      (ret tt)) ;;
  log "VPS cleanup completed" SUCCESS.

(** ** MongoDB *)

Definition gpg_commands : list (list string) :=
  [ ["bash"; "-c"; "cat /tmp/mongodb.asc | gpg --dearmor --batch --yes -o /usr/share/keyrings/mongodb-server-7.0.gpg"];
    ["bash"; "-c"; "gpg --dearmor --batch --yes < /tmp/mongodb.asc > /usr/share/keyrings/mongodb-server-7.0.gpg"];
    ["gpg"; "--dearmor"; "--batch"; "--yes"; "--output"; "/usr/share/keyrings/mongodb-server-7.0.gpg"; "/tmp/mongodb.asc"] ].

(** The loop over the GPG command variations; the result is
    [gpg_success]. *)
Fixpoint gpg_loop (cmds : list (list string)) : M bool :=
  match cmds with
  | [] => ret false
  | cmd :: rest => try_bare (run cmd ;; ret true) (gpg_loop rest)
  end.

(** The loop of [verify_mongodb_installation] over the service names; the
    result is [mongodb_running]. *)
Fixpoint mongodb_service_loop (services : list string) : M bool :=
  match services with
  | [] => ret false
  | service :: rest =>
      found <- try_bare
        (r <- subprocess_run ["systemctl"; "is-active"; service] false ;;
         if String.eqb (strip (snd r)) "active" then
           log ("MongoDB is running as " +:+ service +:+ " service") SUCCESS ;;
           ret true
         else ret false)
        (ret false) ;;
      if found then ret true else mongodb_service_loop rest
  end.

Definition verify_mongodb_installation : M unit :=
  log "Verifying MongoDB installation" INFO ;;
  sleep 3 ;;
  mongodb_running <- mongodb_service_loop ["mongod"; "mongodb"] ;;
  mongodb_running <-
    (if negb mongodb_running then
       try_Exception
         (o <- ask (fun w t => w_connect_ex w t "localhost" 27017) ;;
          match o with
          | inl code =>
              if code =? 0 then
                log "MongoDB is responding on port 27017" SUCCESS ;; ret true
              else
                log "MongoDB is not responding on port 27017" WARNING ;; ret false
          | inr m => raise (OSError m)
          end)
         (fun e =>
            log ("Could not verify MongoDB connection: " +:+ exn_str e) WARNING ;;
            ret false)
     else ret mongodb_running) ;;
  if negb mongodb_running then
    log "MongoDB verification failed - manual intervention may be required" WARNING
  else ret tt.

(** Method 1: the official MongoDB repository (the body of the first
    [try]). *)
Definition mongodb_official : M unit :=
  log "Attempting MongoDB installation via official repository" INFO ;;
  run ["curl"; "-fsSL"; "https://www.mongodb.org/static/pgp/server-7.0.asc";
       "-o"; "/tmp/mongodb.asc"] ;;
  gpg_success <- gpg_loop gpg_commands ;;
  (if negb gpg_success then raise (PyException "All GPG methods failed") else ret tt) ;;
  out <- run_command ["lsb_release"; "-cs"] "" true false ;;
  let distro := strip out in
  let repo_line :=
    "deb [ arch=amd64,arm64 signed-by=/usr/share/keyrings/mongodb-server-7.0.gpg ] https://repo.mongodb.org/apt/ubuntu "
    +:+ distro +:+ "/mongodb-org/7.0 multiverse" in
  write_file "/etc/apt/sources.list.d/mongodb-org-7.0.list" (repo_line +:+ String nl "") ;;
  run ["apt-get"; "update"] ;;
  run_d ["apt-get"; "install"; "-y"; "mongodb-org"] "Installing MongoDB from official repository" ;;
  run ["systemctl"; "enable"; "mongod"] ;;
  run ["systemctl"; "start"; "mongod"] ;;
  log "MongoDB installed successfully from official repository" SUCCESS.

(** Method 2: the Ubuntu repositories. *)
Definition mongodb_ubuntu : M unit :=
  log "Attempting MongoDB installation via Ubuntu repositories" INFO ;;
  run_d ["apt-get"; "install"; "-y"; "mongodb"] "Installing MongoDB from Ubuntu repos" ;;
  try_Exception
    (r <- subprocess_run ["systemctl"; "list-unit-files"] true ;;
     let mongodb_service :=
       if contains "mongod.service" (snd r) then Some "mongod"
       else if contains "mongodb.service" (snd r) then Some "mongodb"
       else None in
     match mongodb_service with
     | Some svc =>
         run ["systemctl"; "enable"; svc] ;;
         run ["systemctl"; "start"; svc] ;;
         log ("MongoDB started as " +:+ svc +:+ " service") SUCCESS
     | None => log "MongoDB installed but service not found" WARNING
     end)
    (fun service_error =>
       log ("Service setup failed: " +:+ exn_str service_error) WARNING) ;;
  log "MongoDB installed successfully from Ubuntu repositories" SUCCESS.

(** Method 3: the snap package. *)
Definition mongodb_snap : M unit :=
  log "Attempting MongoDB installation via snap" INFO ;;
  run_d ["snap"; "install"; "mongodb"] "Installing MongoDB via snap" ;;
  log "MongoDB installed successfully via snap" SUCCESS.

Definition install_mongodb : M unit :=
  log "Installing MongoDB" INFO ;;
  mongodb_installed <-
    try_Exception (mongodb_official ;; ret true)
      (fun e => log ("Official MongoDB installation failed: " +:+ exn_str e) WARNING ;;
                ret false) ;;
  mongodb_installed <-
    (if negb mongodb_installed then
       try_Exception (mongodb_ubuntu ;; ret true)
         (fun e => log ("Ubuntu repository MongoDB installation failed: " +:+ exn_str e) WARNING ;;
                   ret false)
     else ret mongodb_installed) ;;
  mongodb_installed <-
    (if negb mongodb_installed then
       try_Exception (mongodb_snap ;; ret true)
         (fun e => log ("Snap MongoDB installation failed: " +:+ exn_str e) WARNING ;;
                   ret false)
     else ret mongodb_installed) ;;
  if negb mongodb_installed then
    log "All MongoDB installation methods failed" ERROR ;;
    log "MongoDB will need to be installed manually" WARNING ;;
    log "The application can still be installed, but you'll need to:" INFO ;;
    log "1. Install MongoDB manually" INFO ;;
    log "2. Ensure it's running on localhost:27017" INFO
  else verify_mongodb_installation.

(** ** System dependencies *)

(** [int(node_version.split('.')[0][1:])]. *)
Definition node_major (node_version : string) : M Z :=
  let tok := tail (hd "" (split_char "." node_version)) in
  match parse_int tok with
  | Some z => ret z
  | None => raise (ValueError ("invalid literal for int() with base 10: '" +:+ tok +:+ "'"))
  end.

Definition install_system_dependencies : M unit :=
  progress "Installing system dependencies and preparing environment" ;;
  run_d ["apt-get"; "update"] "Updating package list" ;;
  run_d (["apt-get"; "install"; "-y"] ++
         ["curl"; "wget"; "git"; "unzip"; "software-properties-common";
          "apt-transport-https"; "ca-certificates"; "gnupg"; "lsb-release";
          "lsof"; "htop"; "nano"; "vim"])%list "Installing basic packages" ;;
  run_d (["apt-get"; "install"; "-y"] ++
         ["python3"; "python3-pip"; "python3-venv"; "python3-dev"; "build-essential"])%list
        "Installing Python" ;;
  log "Installing Node.js 20 (LTS)" INFO ;;
  try_Exception
    (run ["curl"; "-fsSL"; "https://deb.nodesource.com/setup_20.x"; "-o"; "/tmp/nodejs_setup.sh"] ;;
     run ["bash"; "/tmp/nodejs_setup.sh"] ;;
     run_d ["apt-get"; "install"; "-y"; "nodejs"] "Installing Node.js 20" ;;
     r <- subprocess_run ["node"; "--version"] false ;;
     let node_version := strip (snd r) in
     if startswith node_version "v20." then
       log ("Node.js 20 installed successfully: " +:+ node_version) SUCCESS
     else
       log ("Warning: Expected Node.js 20, got " +:+ node_version) WARNING)
    (fun e =>
       log "NodeSource failed, trying Ubuntu repository" WARNING ;;
       try_Exception
         (run_d ["apt-get"; "install"; "-y"; "nodejs"; "npm"] "Installing Node.js from Ubuntu repos" ;;
          r <- subprocess_run ["node"; "--version"] false ;;
          let node_version := strip (snd r) in
          major_version <- node_major node_version ;;
          if 18 <=? major_version then
            log ("Node.js " +:+ node_version +:+ " is compatible with React 19") SUCCESS
          else
            log ("Node.js " +:+ node_version +:+ " may not be compatible with React 19") WARNING)
         (fun fallback_error =>
            log ("Node.js installation failed: " +:+ exn_str fallback_error) ERROR ;;
            raise fallback_error)) ;;
  install_mongodb ;;
  ws <- get_config "web_server" ;;
  (if eq_str ws "nginx" then
     run_d ["apt-get"; "install"; "-y"; "nginx"] "Installing Nginx" ;; ret tt
   else
     ws <- get_config "web_server" ;;
     if eq_str ws "apache" then
       run_d ["apt-get"; "install"; "-y"; "apache2"] "Installing Apache" ;; ret tt
     else ret tt) ;;
  log "System dependencies installed successfully" SUCCESS.

(** ** Application set-up and generated files *)

Definition generate_secret_key : M string :=
  try_bare
    (r <- subprocess_run ["openssl"; "rand"; "-hex"; "32"] true ;;
     ret (strip (snd r)))
    (ask w_token_hex).

Definition backend_env (environment cors_origins secret_key : string) : string :=
  "# Secret Poll Backend Configuration
MONGO_URL=mongodb://localhost:27017/secret_poll
PORT=8001
ENVIRONMENT=" +:+ environment +:+ "
CORS_ORIGINS=" +:+ cors_origins +:+ "
SECRET_KEY=" +:+ secret_key +:+ "

# Generated on $(date)
".

Definition create_backend_config : M unit :=
  dir <- get install_dir ;;
  let backend_env_path := path_join (path_join dir "backend") ".env" in
  d <- get_config "domain" ;;
  let cors_origins := "http://" +:+ py_str d in
  en <- get_config "enable_ssl" ;;
  cors_origins <-
    (if truthy en then
       d <- get_config "domain" ;;
       ret (cors_origins +:+ ",https://" +:+ py_str d)
     else ret cors_origins) ;;
  environment <- get_config "environment" ;;
  secret_key <- generate_secret_key ;;
  write_file backend_env_path (backend_env (py_str environment) cors_origins secret_key) ;;
  log "Backend configuration created" SUCCESS.

(** The value of [backend_url] in [create_frontend_config]. *)
Definition frontend_backend_url : M string :=
  d <- get_config "domain" ;;
  let backend_url := "http://" +:+ py_str d +:+ ":8001" in
  ws <- get_config "web_server" ;;
  if negb (eq_str ws "standalone") then
    en <- get_config "enable_ssl" ;;
    d <- get_config "domain" ;;
    ret ("http" +:+ (if truthy en then "s" else "") +:+ "://" +:+ py_str d)
  else ret backend_url.

Definition frontend_env (backend_url environment : string) : string :=
  "# Secret Poll Frontend Configuration
REACT_APP_BACKEND_URL=" +:+ backend_url +:+ "
GENERATE_SOURCEMAP=false
NODE_ENV=" +:+ environment +:+ "

# Generated on $(date)
".

Definition create_frontend_config : M unit :=
  dir <- get install_dir ;;
  let frontend_env_path := path_join (path_join dir "frontend") ".env" in
  backend_url <- frontend_backend_url ;;
  environment <- get_config "environment" ;;
  write_file frontend_env_path (frontend_env backend_url (py_str environment)) ;;
  log "Frontend configuration created" SUCCESS.

Definition setup_backend : M unit :=
  log "Setting up backend" INFO ;;
  dir <- get install_dir ;;
  let backend_dir := path_join dir "backend" in
  fs (Chdir backend_dir) ;;
  run_d ["python3"; "-m"; "venv"; "venv"] "Creating Python virtual environment" ;;
  let pip_path := path_join (path_join (path_join backend_dir "venv") "bin") "pip" in
  run [pip_path; "install"; "--upgrade"; "pip"] ;;
  run_d [pip_path; "install"; "-r"; "requirements.txt"] "Installing Python packages" ;;
  create_backend_config.

Definition setup_frontend : M unit :=
  log "Setting up frontend" INFO ;;
  dir <- get install_dir ;;
  let frontend_dir := path_join dir "frontend" in
  fs (Chdir frontend_dir) ;;
  try_Exception
    (r <- subprocess_run ["node"; "--version"] false ;;
     let node_version := strip (snd r) in
     major_version <- node_major node_version ;;
     if 18 <=? major_version then
       log ("Node.js " +:+ node_version +:+ " is compatible with React 19") SUCCESS
     else
       log ("Warning: Node.js " +:+ node_version +:+ " may not be compatible with React 19") WARNING ;;
       log "React 19 requires Node.js 18.17.0 or higher" INFO)
    (fun e => log ("Could not verify Node.js version: " +:+ exn_str e) WARNING) ;;
  has_yarn <- path_exists (path_join frontend_dir "yarn.lock") ;;
  (if has_yarn then
     run ["npm"; "install"; "-g"; "yarn"] ;;
     run_d ["yarn"; "install"] "Installing frontend dependencies" ;;
     run_d ["yarn"; "build"] "Building frontend application" ;;
     ret tt
   else
     run_d ["npm"; "install"] "Installing frontend dependencies" ;;
     run_d ["npm"; "run"; "build"] "Building frontend application" ;;
     ret tt) ;;
  built <- path_exists (path_join (path_join frontend_dir "build") "index.html") ;;
  (if built then log "Frontend build completed successfully" SUCCESS
   else
     log "Frontend build may have failed" ERROR ;;
     raise (PyException "Frontend build verification failed")) ;;
  create_frontend_config.

Definition setup_application : M unit :=
  progress "Setting up Secret Poll application files" ;;
  dir <- get install_dir ;;
  fs (Makedirs dir) ;;
  let current_dir := w_script_dir W in
  let backend_src := path_join current_dir "backend" in
  ex <- path_exists backend_src ;;
  (if ex then fs (Copytree backend_src (path_join dir "backend")) else ret tt) ;;
  let frontend_src := path_join current_dir "frontend" in
  ex <- path_exists frontend_src ;;
  (if ex then fs (Copytree frontend_src (path_join dir "frontend")) else ret tt) ;;
  setup_backend ;;
  setup_frontend ;;
  log "Application setup completed" SUCCESS.

(** ** Reverse-proxy configuration *)

Definition nginx_http_head (domain : string) : string :=
  "# Secret Poll Nginx Configuration
server {
    listen 80;
    server_name " +:+ domain +:+ ";".

Definition nginx_ssl_part (domain : string) : string :=
  "
    
    # Redirect HTTP to HTTPS
    return 301 https://$server_name$request_uri;
}

server {
    listen 443 ssl http2;
    server_name " +:+ domain +:+ ";
    
    # SSL Configuration
    ssl_certificate /etc/letsencrypt/live/" +:+ domain +:+ "/fullchain.pem;
    ssl_certificate_key /etc/letsencrypt/live/" +:+ domain +:+ "/privkey.pem;
    
    # Security headers
    add_header Strict-Transport-Security " +:+ dq +:+ "max-age=31536000; includeSubDomains" +:+ dq +:+ " always;".

Definition nginx_common_part (install_dir : string) : string :=
  "
    
    # Security headers
    add_header X-Frame-Options DENY;
    add_header X-Content-Type-Options nosniff;
    add_header X-XSS-Protection " +:+ dq +:+ "1; mode=block" +:+ dq +:+ ";
    add_header Referrer-Policy strict-origin-when-cross-origin;
    
    # Frontend
    location / {
        root " +:+ install_dir +:+ "/frontend/build;
        index index.html;
        try_files $uri $uri/ /index.html;
    }
    
    # API routes
    location /api/ {
        proxy_pass http://localhost:8001;
        proxy_set_header Host $host;
        proxy_set_header X-Real-IP $remote_addr;
        proxy_set_header X-Forwarded-For $proxy_add_x_forwarded_for;
        proxy_set_header X-Forwarded-Proto $scheme;
        
        # WebSocket support
        proxy_http_version 1.1;
        proxy_set_header Upgrade $http_upgrade;
        proxy_set_header Connection " +:+ dq +:+ "upgrade" +:+ dq +:+ ";
        proxy_read_timeout 86400;
        proxy_send_timeout 86400;
    }
    
    # Static assets caching
    location ~* \.(js|css|png|jpg|jpeg|gif|ico|svg|woff|woff2)$ {
        expires 1y;
        add_header Cache-Control " +:+ dq +:+ "public, immutable" +:+ dq +:+ ";
        access_log off;
    }
}
".

(** [generate_nginx_config] reads the installer object and nothing else. *)
Definition generate_nginx_config (s : installer) : result string :=
  match config s !! "domain" with
  | None => Raise (KeyError "domain")
  | Some d =>
      let domain := py_str d in
      let config := nginx_http_head domain in
      match Installer.config s !! "enable_ssl" with
      | None => Raise (KeyError "enable_ssl")
      | Some en =>
          let config := if truthy en then config +:+ nginx_ssl_part domain else config in
          Return (config +:+ nginx_common_part (install_dir s))
      end
  end.

Definition apache_http_part (domain install_dir service_name : string) : string :=
  "# Secret Poll Apache Configuration
<VirtualHost *:80>
    ServerName " +:+ domain +:+ "
    DocumentRoot " +:+ install_dir +:+ "/frontend/build
    
    # Security headers
    Header always set X-Frame-Options DENY
    Header always set X-Content-Type-Options nosniff
    Header always set X-XSS-Protection " +:+ dq +:+ "1; mode=block" +:+ dq +:+ "
    
    # API proxy
    ProxyPreserveHost On
    ProxyPass /api/ http://localhost:8001/api/
    ProxyPassReverse /api/ http://localhost:8001/api/
    
    # WebSocket support
    ProxyPass /api/ws/ ws://localhost:8001/api/ws/
    ProxyPassReverse /api/ws/ ws://localhost:8001/api/ws/
    
    # Frontend routing
    <Directory " +:+ install_dir +:+ "/frontend/build>
        Options Indexes FollowSymLinks
        AllowOverride All
        Require all granted
        
        RewriteEngine On
        RewriteBase /
        RewriteRule ^index\.html$ - [L]
        RewriteCond %{REQUEST_FILENAME} !-f
        RewriteCond %{REQUEST_FILENAME} !-d
        RewriteRule . /index.html [L]
    </Directory>
    
    # Static files caching
    <FilesMatch " +:+ dq +:+ "\.(js|css|png|jpg|jpeg|gif|ico|svg|woff|woff2)$" +:+ dq +:+ ">
        ExpiresActive On
        ExpiresDefault " +:+ dq +:+ "access plus 1 year" +:+ dq +:+ "
    </FilesMatch>
    
    ErrorLog ${APACHE_LOG_DIR}/" +:+ service_name +:+ "_error.log
    CustomLog ${APACHE_LOG_DIR}/" +:+ service_name +:+ "_access.log combined
</VirtualHost>".

Definition apache_ssl_part (domain install_dir service_name : string) : string :=
  "

<VirtualHost *:443>
    ServerName " +:+ domain +:+ "
    DocumentRoot " +:+ install_dir +:+ "/frontend/build
    
    # SSL Configuration
    SSLEngine on
    SSLCertificateFile /etc/letsencrypt/live/" +:+ domain +:+ "/fullchain.pem
    SSLCertificateKeyFile /etc/letsencrypt/live/" +:+ domain +:+ "/privkey.pem
    
    # Security headers
    Header always set Strict-Transport-Security " +:+ dq +:+ "max-age=31536000; includeSubDomains" +:+ dq +:+ "
    Header always set X-Frame-Options DENY
    Header always set X-Content-Type-Options nosniff
    Header always set X-XSS-Protection " +:+ dq +:+ "1; mode=block" +:+ dq +:+ "
    
    # API proxy
    ProxyPreserveHost On
    ProxyPass /api/ http://localhost:8001/api/
    ProxyPassReverse /api/ http://localhost:8001/api/
    
    # WebSocket support
    ProxyPass /api/ws/ ws://localhost:8001/api/ws/
    ProxyPassReverse /api/ws/ ws://localhost:8001/api/ws/
    
    # Frontend routing
    <Directory " +:+ install_dir +:+ "/frontend/build>
        Options Indexes FollowSymLinks
        AllowOverride All
        Require all granted
        
        RewriteEngine On
        RewriteBase /
        RewriteRule ^index\.html$ - [L]
        RewriteCond %{REQUEST_FILENAME} !-f
        RewriteCond %{REQUEST_FILENAME} !-d
        RewriteRule . /index.html [L]
    </Directory>
    
    ErrorLog ${APACHE_LOG_DIR}/" +:+ service_name +:+ "_ssl_error.log
    CustomLog ${APACHE_LOG_DIR}/" +:+ service_name +:+ "_ssl_access.log combined
</VirtualHost>".

Definition generate_apache_config (s : installer) : result string :=
  match config s !! "domain" with
  | None => Raise (KeyError "domain")
  | Some d =>
      let domain := py_str d in
      let config := apache_http_part domain (install_dir s) (service_name s) in
      match Installer.config s !! "enable_ssl" with
      | None => Raise (KeyError "enable_ssl")
      | Some en =>
          Return (if truthy en
                  then config +:+ apache_ssl_part domain (install_dir s) (service_name s)
                  else config)
      end
  end.

(** A method that only reads the installer object. *)
Definition pure_method {A} (f : installer -> result A) : M A :=
  fun s => (f s, s, []).

Definition configure_nginx : M unit :=
  config_content <- pure_method generate_nginx_config ;;
  svc <- get service_name ;;
  let config_path := "/etc/nginx/sites-available/" +:+ svc in
  write_file config_path config_content ;;
  let enabled_path := "/etc/nginx/sites-enabled/" +:+ svc in
  ex <- path_exists enabled_path ;;
  (if ex then fs (Remove enabled_path) else ret tt) ;;
  fs (Symlink config_path enabled_path) ;;
  run_d ["nginx"; "-t"] "Testing Nginx configuration" ;;
  run_d ["systemctl"; "reload"; "nginx"] "Reloading Nginx" ;;
  log "Nginx configured successfully" SUCCESS.

Definition configure_apache : M unit :=
  for_each ["rewrite"; "proxy"; "proxy_http"; "proxy_wstunnel"; "headers"]
    (fun module => run ["a2enmod"; module] ;; ret tt) ;;
  config_content <- pure_method generate_apache_config ;;
  svc <- get service_name ;;
  let config_path := "/etc/apache2/sites-available/" +:+ svc +:+ ".conf" in
  write_file config_path config_content ;;
  run ["a2ensite"; svc +:+ ".conf"] ;;
  run ["systemctl"; "reload"; "apache2"] ;;
  log "Apache configured successfully" SUCCESS.

Definition configure_web_server : M unit :=
  ws <- get_config "web_server" ;;
  if eq_str ws "standalone" then
    log "Skipping web server configuration (standalone mode)" INFO
  else
    ws <- get_config "web_server" ;;
    log ("Configuring " +:+ title (py_str ws)) STEP ;;
    ws <- get_config "web_server" ;;
    if eq_str ws "nginx" then configure_nginx
    else
      ws <- get_config "web_server" ;;
      if eq_str ws "apache" then configure_apache else ret tt.

(** ** Certificates *)

Definition verify_domain_dns : M unit :=
  d <- get_config "domain" ;;
  let domain := py_str d in
  log ("Verifying DNS resolution for " +:+ domain) INFO ;;
  try_Exception
    (o <- ask (fun w t => w_gethostbyname w t domain) ;;
     match o with
     | inl ip => log ("Domain " +:+ domain +:+ " resolves to " +:+ ip) SUCCESS
     | inr m => raise (OSError m)
     end)
    (fun e =>
       log ("DNS resolution failed for " +:+ domain +:+ ": " +:+ exn_str e) WARNING ;;
       log "SSL certificate generation may fail if domain doesn't point to this server" WARNING).

Definition verify_ssl_certificate : M unit :=
  d <- get_config "domain" ;;
  let cert_path := "/etc/letsencrypt/live/" +:+ py_str d +:+ "/fullchain.pem" in
  ex <- path_exists cert_path ;;
  if ex then
    try_Exception
      (r <- subprocess_run ["openssl"; "x509"; "-in"; cert_path; "-noout"; "-dates"] true ;;
       log "SSL certificate details:" INFO ;;
       for_each (split_char nl (strip (snd r))) (fun line => log ("  " +:+ line) INFO))
      (fun e => log ("Could not verify certificate details: " +:+ exn_str e) WARNING)
  else log "SSL certificate file not found" ERROR.

Definition renewal_script (web_server : string) : string :=
  "#!/bin/bash
certbot renew --quiet
systemctl reload " +:+ web_server +:+ "
".

Definition setup_ssl_renewal : M unit :=
  ws <- get_config "web_server" ;;
  write_file "/etc/cron.daily/certbot-renewal" (renewal_script (py_str ws)) ;;
  fs (Chmod "/etc/cron.daily/certbot-renewal" 493) ;;
  log "SSL auto-renewal configured" SUCCESS.

Definition setup_ssl : M unit :=
  en <- get_config "enable_ssl" ;;
  if negb (truthy en) then ret tt
  else
    progress "Setting up SSL certificates with Let's Encrypt" ;;
    run_d ["apt-get"; "install"; "-y"; "certbot"] "Installing Certbot" ;;
    ws <- get_config "web_server" ;;
    (if eq_str ws "nginx" then
       run ["apt-get"; "install"; "-y"; "python3-certbot-nginx"] ;; ret tt
     else
       ws <- get_config "web_server" ;;
       if eq_str ws "apache" then
         run ["apt-get"; "install"; "-y"; "python3-certbot-apache"] ;; ret tt
       else ret tt) ;;
    verify_domain_dns ;;
    domain <- get_config "domain" ;;
    email <- get_config "ssl_email" ;;
    dir <- get install_dir ;;
    let webroot_path := dir +:+ "/frontend/build" in
    fs (Makedirs webroot_path) ;;
    write_file (webroot_path +:+ "/index.html")
      "<html><body><h1>Secret Poll Setup</h1></body></html>" ;;
    let certbot_cmd :=
      ["certbot"; "certonly"; "--webroot"; "-w"; webroot_path;
       "-d"; py_str domain; "--email"; py_str email;
       "--agree-tos"; "--non-interactive"; "--expand"] in
    obtained <-
      try_Exception
        (run_d certbot_cmd "Obtaining SSL certificate" ;;
         log "SSL certificate obtained successfully" SUCCESS ;;
         ret true)
        (fun e =>
           log ("SSL certificate generation failed: " +:+ exn_str e) WARNING ;;
           log "HTTPS will be disabled. You can run 'certbot certonly' manually later." INFO ;;
           set_config "enable_ssl" (VBool false) ;;
           ret false) ;;
    if negb obtained then ret tt
    else
      setup_ssl_renewal ;;
      verify_ssl_certificate ;;
      log "SSL certificates configured successfully" SUCCESS.

(** ** Service, firewall, tools *)

Definition service_content (install_dir : string) : string :=
  "[Unit]
Description=Secret Poll Application
After=network.target mongodb.service
Requires=mongodb.service

[Service]
Type=simple
User=www-data
Group=www-data
WorkingDirectory=" +:+ install_dir +:+ "/backend
Environment=PATH=" +:+ install_dir +:+ "/backend/venv/bin
ExecStart=" +:+ install_dir +:+ "/backend/venv/bin/python server.py
Restart=always
RestartSec=3
StandardOutput=journal
StandardError=journal

[Install]
WantedBy=multi-user.target
".

Definition create_systemd_service : M unit :=
  log "Creating systemd service" STEP ;;
  dir <- get install_dir ;;
  svc <- get service_name ;;
  write_file ("/etc/systemd/system/" +:+ svc +:+ ".service") (service_content dir) ;;
  run ["chown"; "-R"; "www-data:www-data"; dir] ;;
  run ["systemctl"; "daemon-reload"] ;;
  run ["systemctl"; "enable"; svc] ;;
  run ["systemctl"; "start"; svc] ;;
  log "Systemd service created and started" SUCCESS.

Definition status_script (service_name web_server : string) : string :=
  "#!/bin/bash
echo " +:+ dq +:+ "Secret Poll Status" +:+ dq +:+ "
echo " +:+ dq +:+ "==================" +:+ dq +:+ "
echo
systemctl status " +:+ service_name +:+ " --no-pager
echo
systemctl status mongodb --no-pager
echo
systemctl status " +:+ web_server +:+ " --no-pager
echo
echo " +:+ dq +:+ "Application Health:" +:+ dq +:+ "
curl -s http://localhost:8001/api/health || echo " +:+ dq +:+ "Backend not responding" +:+ dq +:+ "
".

Definition logs_script (service_name : string) : string :=
  "#!/bin/bash
if [ " +:+ dq +:+ "$1" +:+ dq +:+ " = " +:+ dq +:+ "follow" +:+ dq +:+ " ]; then
    journalctl -u " +:+ service_name +:+ " -f
else
    journalctl -u " +:+ service_name +:+ " --no-pager
fi
".

Definition restart_script (service_name web_server : string) : string :=
  "#!/bin/bash
systemctl restart " +:+ service_name +:+ "
systemctl restart " +:+ web_server +:+ "
echo " +:+ dq +:+ "Services restarted" +:+ dq +:+ "
".

Definition create_management_tools : M unit :=
  log "Creating management tools" STEP ;;
  dir <- get install_dir ;;
  svc <- get service_name ;;
  ws <- get_config "web_server" ;;
  write_file (dir +:+ "/status.sh") (status_script svc (py_str ws)) ;;
  write_file (dir +:+ "/logs.sh") (logs_script svc) ;;
  ws <- get_config "web_server" ;;
  write_file (dir +:+ "/restart.sh") (restart_script svc (py_str ws)) ;;
  for_each ["status.sh"; "logs.sh"; "restart.sh"]
    (fun script => fs (Chmod (dir +:+ "/" +:+ script) 493)) ;;
  log "Management tools created" SUCCESS.

Definition setup_firewall : M unit :=
  try_Exception
    (run_d ["apt-get"; "install"; "-y"; "ufw"] "Installing UFW firewall" ;;
     run_ignore ["ufw"; "--force"; "reset"] ;;
     run ["ufw"; "default"; "deny"; "incoming"] ;;
     run ["ufw"; "default"; "allow"; "outgoing"] ;;
     run ["ufw"; "allow"; "ssh"] ;;
     run ["ufw"; "allow"; "22/tcp"] ;;
     run ["ufw"; "allow"; "80/tcp"] ;;
     en <- get_config "enable_ssl" ;;
     (if truthy en then run ["ufw"; "allow"; "443/tcp"] ;; ret tt else ret tt) ;;
     run_d ["ufw"; "--force"; "enable"] "Enabling firewall" ;;
     log "Firewall configured successfully" SUCCESS)
    (fun e =>
       log ("Firewall setup failed: " +:+ exn_str e) WARNING ;;
       log "Continuing without firewall - configure manually later" INFO).

(** ** Verification and finalisation *)

(** The class defines [verify_installation] twice; the second definition
    replaces the first, and it is the one embedded here. *)
Definition verify_installation : M unit :=
  log "Running installation verification tests" INFO ;;
  dir <- get install_dir ;;
  svc <- get service_name ;;
  for_each [dir +:+ "/backend/server.py";
            dir +:+ "/frontend/build/index.html";
            "/etc/systemd/system/" +:+ svc +:+ ".service"]
    (fun file_path =>
       ex <- path_exists file_path ;;
       if ex then log ("✓ " +:+ file_path +:+ " exists") SUCCESS
       else log ("✗ " +:+ file_path +:+ " missing") ERROR) ;;
  try_Exception
    (let backend_python := dir +:+ "/backend/venv/bin/python" in
     subprocess_run
       [backend_python; "-c";
        "import fastapi, pymongo, reportlab; print(" +:+ dq +:+ "All dependencies OK" +:+ dq +:+ ")"]
       true ;;
     log "✓ Python dependencies verified" SUCCESS)
    (fun e => log ("✗ Python dependencies issue: " +:+ exn_str e) ERROR) ;;
  try_Exception
    (fs (Chdir (dir +:+ "/frontend")) ;;
     ex <- path_exists "build/index.html" ;;
     if ex then log "✓ Frontend build verified" SUCCESS
     else log "✗ Frontend build missing" ERROR)
    (fun e => log ("Frontend build issue: " +:+ exn_str e) WARNING).

Definition test_service_health : M unit :=
  log "Testing service health" INFO ;;
  try_Exception
    (o <- ask (fun w t => w_urlopen w t "http://localhost:8001/api/health") ;;
     match o with
     | inl code =>
         if code =? 200 then log "✓ Backend health check passed" SUCCESS
         else log "✗ Backend health check failed" ERROR
     | inr m => raise (OSError m)
     end)
    (fun e => log ("✗ Backend not responding: " +:+ exn_str e) ERROR) ;;
  ws <- get_config "web_server" ;;
  if negb (eq_str ws "standalone") then
    try_Exception
      (o <- ask (fun w t => w_urlopen w t "http://localhost/") ;;
       match o with
       | inl code =>
           if (code =? 200) || (code =? 404) then log "✓ Web server responding" SUCCESS
           else log "✗ Web server not responding" ERROR
       | inr m => raise (OSError m)
       end)
      (fun e => log ("Web server test: " +:+ exn_str e) WARNING)
  else ret tt.

Definition finalize_installation : M unit :=
  dir <- get install_dir ;;
  run ["chown"; "-R"; "www-data:www-data"; dir] ;;
  svc <- get service_name ;;
  ws <- get_config "web_server" ;;
  services_to_start <-
    (if negb (eq_str ws "standalone") then
       ws <- get_config "web_server" ;;
       ret [svc; py_str ws]
     else ret [svc]) ;;
  for_each services_to_start (fun service =>
    try_Exception
      (run ["systemctl"; "enable"; service] ;;
       run ["systemctl"; "start"; service] ;;
       log ("✓ " +:+ service +:+ " service started") SUCCESS)
      (fun e => log ("✗ Failed to start " +:+ service +:+ ": " +:+ exn_str e) ERROR)) ;;
  sleep 3 ;;
  test_service_health.

(** Only the accesses to the configuration are kept of this method, which
    otherwise prints. *)
Definition show_installation_summary : M unit :=
  get_config "enable_ssl" ;;
  get_config "domain" ;;
  en <- get_config "enable_ssl" ;;
  en <- get_config "enable_ssl" ;;
  (if negb (truthy en) then get_config "domain" ;; ret tt else ret tt).

(** ** The run *)

(** Steps 4 to 12 of [run_installation]: everything after
    [collect_configuration]. *)
Definition post_collection : M unit :=
  install_system_dependencies ;;
  setup_application ;;
  progress "Configuring web server" ;;
  configure_web_server ;;
  en <- get_config "enable_ssl" ;;
  (if truthy en then setup_ssl else progress "Skipping SSL setup (HTTP only)") ;;
  progress "Creating system service" ;;
  create_systemd_service ;;
  progress "Configuring firewall and security" ;;
  setup_firewall ;;
  progress "Creating management and monitoring tools" ;;
  create_management_tools ;;
  progress "Verifying installation and testing services" ;;
  verify_installation ;;
  progress "Starting services and finalizing setup" ;;
  finalize_installation ;;
  show_installation_summary.

(** Steps 1 to 3, up to the call of [collect_configuration]. *)
Definition pre_collection : M unit :=
  progress "Checking system requirements and permissions" ;;
  check_root ;;
  check_system_requirements ;;
  cleanup_vps ;;
  progress "Collecting installation configuration".

(** The [try] block of [run_installation]. *)
Definition run_installation_body : M unit :=
  pre_collection ;;
  collect_configuration ;;
  post_collection.

Definition run_installation : M unit :=
  try_catch run_installation_body
    (fun e =>
       match e with
       | KeyboardInterrupt =>
           Some (log "Installation cancelled by user" WARNING ;; sys_exit 1)
       | _ =>
           if is_Exception e then
             Some (log ("Installation failed: " +:+ exn_str e) ERROR ;;
                   log "Check the log file for detailed error information" INFO ;;
                   sys_exit 1)
           else None
       end).

(** [main]: a fresh installer object runs the installation. *)
Definition main (inp : list input_line) : result unit * installer * list event :=
  run_installation (init inp).

(** The exit status of the process: [sys.exit(code)] gives [code], an
    exception that nothing catches gives 1 (130 for Ctrl-C), and falling
    off the end gives 0. *)
Definition exit_code {A} (r : result A) : Z :=
  match r with
  | Return _ => 0
  | Raise (SystemExit code) => code
  | Raise KeyboardInterrupt => 130
  | Raise _ => 1
  end.

End WithWorld.

End Installer.

(** ** The production validator *)

Module Validator.

Import PyStr Py.

(** The validator object, with the time counter of the run. *)
Record validator := {
  issues : list string;
  warnings : list string;
  successes : list string;
  tick : nat
}.

(** [ProductionValidator.__init__]. *)
Definition init : validator :=
  {| issues := []; warnings := []; successes := []; tick := 0 |}.

Inductive run_outcome :=
| Completed (returncode : Z) (stdout stderr : string)
| RunNotFound
| RunOSError (msg : string)
| RunInterrupted.

Inductive read_outcome :=
| Content (text : string)
| ReadNotFound
| ReadError (msg : string).

(** [json.load] of [package.json]: a parse error, or the three objects
    that the validator looks into (taken to map strings to strings). *)
Inductive json_outcome :=
| JsonError (msg : string)
| PackageData (dependencies devDependencies scripts : gmap string string).

Record World := {
  w_exists : nat -> string -> bool;
  w_run : nat -> list string -> run_outcome;
  w_read : nat -> string -> read_outcome;
  w_package_json : nat -> json_outcome;
  w_statvfs : nat -> (Z * Z) + string;
  w_urlopen : nat -> string -> Z + string;
  w_connect_ex : nat -> Z -> Z + string;
  w_geteuid : Z;
  (** [sys.executable]. *)
  w_executable : string;
  w_format_1f : Z -> Z -> string
}.

Definition V (A : Type) : Type := validator -> result A * validator.

Definition ret {A} (a : A) : V A := fun v => (Return a, v).
Definition raise {A} (e : exn) : V A := fun v => (Raise e, v).

Definition bind {A B} (m : V A) (k : A -> V B) : V B :=
  fun v =>
    match m v with
    | (Return a, v1) => k a v1
    | (Raise e, v1) => (Raise e, v1)
    end.

Definition try_catch {A} (body : V A) (h : exn -> option (V A)) : V A :=
  fun v =>
    match body v with
    | (Return a, v1) => (Return a, v1)
    | (Raise e, v1) =>
        match h e with
        | Some handler => handler v1
        | None => (Raise e, v1)
        end
    end.

Declare Scope val_scope.
Delimit Scope val_scope with val.
Notation "x <- m ;; k" := (bind m (fun x => k))
  (at level 100, m at next level, k at level 200, right associativity) : val_scope.
Notation "m ;; k" := (bind m (fun _ => k))
  (at level 100, k at level 200, right associativity) : val_scope.
Open Scope val_scope.

Fixpoint for_each {A} (l : list A) (body : A -> V unit) : V unit :=
  match l with
  | [] => ret tt
  | x :: l' => body x ;; for_each l' body
  end.

Definition log_issue (message : string) : V unit :=
  fun v => (Return tt,
            {| issues := issues v ++ [message]; warnings := warnings v;
               successes := successes v; tick := tick v |}).

Definition log_warning (message : string) : V unit :=
  fun v => (Return tt,
            {| issues := issues v; warnings := warnings v ++ [message];
               successes := successes v; tick := tick v |}).

Definition log_success (message : string) : V unit :=
  fun v => (Return tt,
            {| issues := issues v; warnings := warnings v;
               successes := successes v ++ [message]; tick := tick v |}).

(** [except FileNotFoundError: nf / except Exception as e: other e]. *)
Definition try_nf_exc {A} (body : V A) (nf : V A) (other : exn -> V A) : V A :=
  try_catch body
    (fun e =>
       match e with
       | FileNotFoundError _ => Some nf
       | _ => if is_Exception e then Some (other e) else None
       end).

(** [except Exception as e:] *)
Definition try_Exception {A} (body : V A) (handler : exn -> V A) : V A :=
  try_catch body (fun e => if is_Exception e then Some (handler e) else None).

(** [int(s)]. *)
Definition int (s : string) : V Z :=
  match parse_int s with
  | Some z => ret z
  | None => raise (ValueError ("invalid literal for int() with base 10: '" +:+ s +:+ "'"))
  end.

(** [l[i]]. *)
Definition index (l : list string) (i : nat) : V string :=
  match l !! i with
  | Some x => ret x
  | None => raise IndexError
  end.

(** The leading digits of [s] and what follows them. *)
Fixpoint span_digits (s : string) : string * string :=
  match s with
  | EmptyString => (EmptyString, EmptyString)
  | String c s' =>
      if is_digit c then let '(d, r) := span_digits s' in (String c d, r)
      else (EmptyString, s)
  end.

(** [re.match(r'v(\d+)\.(\d+)\.(\d+)', s)]: groups 1 and 2. *)
Definition match_version (s : string) : option (string * string) :=
  match s with
  | String c s1 =>
      if Ascii.eqb c "v"%char then
        let '(g1, r1) := span_digits s1 in
        match r1 with
        | String c1 s2 =>
            let '(g2, r2) := span_digits s2 in
            match r2 with
            | String c2 s3 =>
                let '(g3, _) := span_digits s3 in
                if nonempty g1 && Ascii.eqb c1 "."%char && nonempty g2 &&
                   Ascii.eqb c2 "."%char && nonempty g3
                then Some (g1, g2) else None
            | EmptyString => None
            end
        | EmptyString => None
        end
      else None
  | EmptyString => None
  end.

Section WithWorld.

Variable W : World.

Definition ask {A} (q : World -> nat -> A) : V A :=
  fun v => (Return (q W (tick v)),
            {| issues := issues v; warnings := warnings v;
               successes := successes v; tick := S (tick v) |}).

Definition path_exists (path : string) : V bool := ask (fun w t => w_exists w t path).

(** [subprocess.run(cmd, capture_output=True, text=True)]. *)
Definition subprocess_run (cmd : list string) : V (Z * string * string) :=
  o <- ask (fun w t => w_run w t cmd) ;;
  match o with
  | Completed rc out err => ret (rc, out, err)
  | RunNotFound =>
      raise (FileNotFoundError
               ("[Errno 2] No such file or directory: '" +:+ hd "" cmd +:+ "'"))
  | RunOSError m => raise (OSError m)
  | RunInterrupted => raise KeyboardInterrupt
  end.

Definition read_file (path : string) : V string :=
  o <- ask (fun w t => w_read w t path) ;;
  match o with
  | Content text => ret text
  | ReadNotFound =>
      raise (FileNotFoundError
               ("[Errno 2] No such file or directory: '" +:+ path +:+ "'"))
  | ReadError m => raise (OSError m)
  end.

Definition validate_install_script : V unit :=
  let script_path := "/app/install.py" in
  ex <- path_exists script_path ;;
  if negb ex then log_issue "install.py not found"
  else
    try_Exception
      (r <- subprocess_run [w_executable W; "-m"; "py_compile"; script_path] ;;
       let '(rc, _, err) := r in
       if rc =? 0 then log_success "Python syntax is valid"
       else log_issue ("Python syntax error: " +:+ err))
      (fun e => log_issue ("Could not validate syntax: " +:+ exn_str e)) ;;
    content <- read_file script_path ;;
    (if contains "try:" content && contains "except Exception as" content
     then log_success "Error handling present"
     else log_warning "Limited error handling detected") ;;
    (if contains "fallback" (lower content)
     then log_success "Fallback mechanisms implemented"
     else log_warning "No fallback mechanisms detected") ;;
    (if contains "self.log(" content
     then log_success "Logging system implemented"
     else log_issue "No logging system found") ;;
    (if contains "NodeSource failed" content
     then log_success "Node.js fallback mechanism present"
     else log_warning "Node.js installation may not be robust") ;;
    let mongodb_methods := count content "mongodb" in
    if (3 <=? mongodb_methods)%nat
    then log_success "Multiple MongoDB installation methods"
    else log_warning "Limited MongoDB installation options".

Definition validate_backend_dependencies : V unit :=
  let requirements_path := "/app/backend/requirements.txt" in
  ex <- path_exists requirements_path ;;
  if negb ex then log_issue "backend/requirements.txt not found"
  else
    requirements <- read_file requirements_path ;;
    for_each ["fastapi"; "uvicorn"; "pymongo"; "websockets"; "reportlab"] (fun dep =>
      if contains dep (lower requirements)
      then log_success (dep +:+ " dependency present")
      else log_issue ("Missing critical dependency: " +:+ dep)) ;;
    (if contains "==" requirements
     then log_success "Version pinning detected"
     else log_warning "No version pinning - may cause compatibility issues") ;;
    try_Exception
      (r <- subprocess_run [w_executable W; "--version"] ;;
       let '(_, out, _) := r in
       let python_version := strip out in
       if contains "Python 3." python_version then
         number <- index (split_ws python_version) 1 ;;
         match take 2 (split_char "."%char number) with
         | [major; minor] =>
             ma <- int major ;;
             if 3 <=? ma then
               mi <- int minor ;;
               if 8 <=? mi
               then log_success ("Python version compatible: " +:+ python_version)
               else log_issue ("Python version too old: " +:+ python_version)
             else log_issue ("Python version too old: " +:+ python_version)
         | _ => raise (ValueError "not enough values to unpack (expected 2, got 1)")
         end
       else log_issue "Could not determine Python version")
      (fun e => log_warning ("Could not check Python version: " +:+ exn_str e)).

Definition validate_frontend_dependencies : V unit :=
  let package_json_path := "/app/frontend/package.json" in
  ex <- path_exists package_json_path ;;
  if negb ex then log_issue "frontend/package.json not found"
  else
    o <- ask w_package_json ;;
    match o with
    | JsonError m => log_issue ("Could not parse package.json: " +:+ m)
    | PackageData dependencies dev_dependencies scripts =>
        (** [{**dependencies, **dev_dependencies}]: the right one wins. *)
        let all_deps := dev_dependencies ∪ dependencies in
        for_each ["react"; "react-dom"; "react-scripts"] (fun dep =>
          match all_deps !! dep with
          | Some ver => log_success (dep +:+ " dependency present: " +:+ ver)
          | None => log_issue ("Missing critical dependency: " +:+ dep)
          end) ;;
        match dependencies !! "react" with
        | Some react_version =>
            if contains "^18" react_version || contains "^17" react_version
            then log_success ("React version compatible: " +:+ react_version)
            else log_warning ("React version may be outdated: " +:+ react_version)
        | None => ret tt
        end ;;
        (if bool_decide (is_Some (scripts !! "build"))
         then log_success "Build script present"
         else log_issue "No build script found") ;;
        (if bool_decide (is_Some (scripts !! "start"))
         then log_success "Start script present"
         else log_warning "No start script found")
    end.

Definition validate_node_compatibility : V unit :=
  try_nf_exc
    (r <- subprocess_run ["node"; "--version"] ;;
     let '(rc, out, _) := r in
     if rc =? 0 then
       let node_version := strip out in
       match match_version node_version with
       | Some (g1, g2) =>
           major <- int g1 ;;
           minor <- int g2 ;;
           if major =? 20 then log_success ("Node.js 20 (optimal): " +:+ node_version)
           else if 18 <=? major then
             if (major =? 18) && (17 <=? minor)
             then log_success ("Node.js version compatible with React 19: " +:+ node_version)
             else if 18 <? major
             then log_success ("Node.js version compatible: " +:+ node_version)
             else log_warning ("Node.js 18.17+ required for React 19, got: " +:+ node_version)
           else log_issue ("Node.js version too old for React 19: " +:+ node_version
                           +:+ " (need 18.17+)")
       | None => log_warning ("Could not parse Node.js version: " +:+ node_version)
       end
     else log_issue "Node.js not found or not working")
    (log_issue "Node.js not installed")
    (fun e => log_warning ("Could not check Node.js: " +:+ exn_str e)) ;;
  try_nf_exc
    (r <- subprocess_run ["npm"; "--version"] ;;
     let '(rc, out, _) := r in
     if rc =? 0 then
       let npm_version := strip out in
       npm_major <- int (hd "" (split_char "."%char npm_version)) ;;
       if 8 <=? npm_major
       then log_success ("npm version compatible: " +:+ npm_version)
       else log_warning ("npm version may be outdated: " +:+ npm_version +:+ " (recommended: 8+)")
     else log_issue "npm not working")
    (log_issue "npm not installed")
    (fun e => log_warning ("Could not check npm: " +:+ exn_str e)) ;;
  try_nf_exc
    (r <- subprocess_run ["yarn"; "--version"] ;;
     let '(rc, out, _) := r in
     if rc =? 0 then log_success ("yarn available: " +:+ strip out)
     else log_warning "yarn not available (npm will be used)")
    (log_warning "yarn not installed (npm will be used)")
    (fun e => log_warning ("Could not check yarn: " +:+ exn_str e)).

Definition validate_system_compatibility : V unit :=
  try_Exception
    (text <- read_file "/etc/os-release" ;;
     let os_info := lower text in
     if contains "ubuntu" os_info then log_success "Ubuntu detected - fully supported"
     else if contains "debian" os_info then log_success "Debian detected - fully supported"
     else if contains "centos" os_info || contains "rhel" os_info
     then log_warning "CentOS/RHEL detected - may need adjustments"
     else log_warning "OS not specifically tested")
    (fun e => log_warning ("Could not determine OS: " +:+ exn_str e)) ;;
  try_Exception
    (text <- read_file "/proc/meminfo" ;;
     match List.find (fun line => startswith line "MemTotal:") (readlines text) with
     | Some line =>
         tok <- index (split_ws line) 1 ;;
         mem_kb <- int tok ;;
         let mem_gb := w_format_1f W mem_kb (1024 ^ 2) in
         if 2 * 1024 ^ 2 <=? mem_kb
         then log_success ("Memory sufficient: " +:+ mem_gb +:+ "GB")
         else if 1024 ^ 2 <=? mem_kb
         then log_warning ("Memory adequate: " +:+ mem_gb +:+ "GB")
         else log_issue ("Memory insufficient: " +:+ mem_gb +:+ "GB")
     | None => ret tt
     end)
    (fun e => log_warning ("Could not check memory: " +:+ exn_str e)) ;;
  try_Exception
    (o <- ask w_statvfs ;;
     match o with
     | inl (f_bavail, f_frsize) =>
         let available := f_bavail * f_frsize in
         let available_gb := w_format_1f W available (1024 ^ 3) in
         if 10 * 1024 ^ 3 <=? available
         then log_success ("Disk space sufficient: " +:+ available_gb +:+ "GB")
         else if 5 * 1024 ^ 3 <=? available
         then log_warning ("Disk space adequate: " +:+ available_gb +:+ "GB")
         else log_issue ("Disk space insufficient: " +:+ available_gb +:+ "GB")
     | inr m => raise (OSError m)
     end)
    (fun e => log_warning ("Could not check disk space: " +:+ exn_str e)) ;;
  try_nf_exc
    (r <- subprocess_run ["systemctl"; "--version"] ;;
     let '(rc, _, _) := r in
     if rc =? 0 then log_success "systemd available"
     else log_issue "systemd not available")
    (log_issue "systemd not found")
    (fun e => log_warning ("Could not check systemd: " +:+ exn_str e)).

Definition validate_network_requirements : V unit :=
  for_each ["https://deb.nodesource.com"; "https://www.mongodb.org";
            "https://registry.npmjs.org"; "https://pypi.org"] (fun url =>
    try_Exception
      (o <- ask (fun w t => w_urlopen w t url) ;;
       match o with
       | inl code =>
           if code =? 200 then log_success ("Can reach " +:+ url)
           else log_warning ("Issue connecting to " +:+ url)
       | inr m => raise (OSError m)
       end)
      (fun e => log_warning ("Cannot reach " +:+ url +:+ ": " +:+ exn_str e))) ;;
  for_each [80; 443; 8001; 27017] (fun port =>
    try_Exception
      (o <- ask (fun w t => w_connect_ex w t port) ;;
       match o with
       | inl result =>
           if negb (result =? 0) then log_success ("Port " +:+ pretty port +:+ " available")
           else log_warning ("Port " +:+ pretty port +:+ " already in use")
       | inr m => raise (OSError m)
       end)
      (fun e => log_warning ("Could not check port " +:+ pretty port +:+ ": " +:+ exn_str e))).

Definition validate_security_requirements : V unit :=
  (if w_geteuid W =? 0
   then log_warning "Running validation as root (installer needs root, but app shouldn't run as root)"
   else log_success "Not running as root") ;;
  try_nf_exc
    (r <- subprocess_run ["ufw"; "status"] ;;
     let '(rc, out, _) := r in
     if rc =? 0 then
       if contains "Status: active" out then log_success "UFW firewall active"
       else log_warning "UFW firewall not active"
     else log_warning "UFW not available")
    (log_warning "UFW not installed")
    (fun e => log_warning ("Could not check firewall: " +:+ exn_str e)) ;;
  try_nf_exc
    (r <- subprocess_run ["openssl"; "version"] ;;
     let '(rc, _, _) := r in
     if rc =? 0 then log_success "OpenSSL available"
     else log_issue "OpenSSL not working")
    (log_issue "OpenSSL not installed")
    (fun e => log_warning ("Could not check OpenSSL: " +:+ exn_str e)).

Definition validate_application_files : V unit :=
  for_each ["/app/backend/server.py"; "/app/backend/requirements.txt";
            "/app/frontend/package.json"; "/app/frontend/src/App.js";
            "/app/install.py"] (fun file_path =>
    ex <- path_exists file_path ;;
    if ex then log_success (file_path +:+ " exists")
    else log_issue (file_path +:+ " missing")) ;;
  try_Exception
    (server_content <- read_file "/app/backend/server.py" ;;
     for_each ["FastAPI"; "WebSocket"; "MongoDB"; "health"] (fun component =>
       if contains (lower component) (lower server_content)
       then log_success ("Backend has " +:+ component +:+ " support")
       else log_warning ("Backend missing " +:+ component +:+ " support")))
    (fun e => log_warning ("Could not validate backend: " +:+ exn_str e)).

(** The readiness line that the summary prints. *)
Definition readiness_status (v : validator) : string :=
  if (length (issues v) =? 0)%nat then
    if (length (warnings v) =? 0)%nat then "🎉 PERFECT - PRODUCTION READY"
    else if (length (warnings v) <=? 3)%nat then "✅ GOOD - PRODUCTION READY (minor warnings)"
    else "⚠️ ACCEPTABLE - Review warnings before production"
  else if (length (issues v) <=? 2)%nat
  then "⚠️ NEEDS ATTENTION - Address issues before production"
  else "❌ NOT READY - Critical issues must be resolved".

(** The eight validations in the order in which they run. *)
Definition all_validations : V unit :=
  validate_install_script ;;
  validate_system_compatibility ;;
  validate_node_compatibility ;;
  validate_backend_dependencies ;;
  validate_frontend_dependencies ;;
  validate_network_requirements ;;
  validate_security_requirements ;;
  validate_application_files.

Definition run_comprehensive_validation : V bool :=
  all_validations ;;
  fun v => (Return (length (issues v) =? 0)%nat, v).

(** [main]: a fresh validator runs the validation and hands on its
    verdict. *)
Definition main : result bool * validator :=
  (ready <- run_comprehensive_validation ;; ret ready) init.

(** The [__main__] block: [sys.exit(0 if success else 1)]; an exception
    that nothing catches ends the process with status 1 (130 for
    Ctrl-C). *)
Definition exit_status (r : result bool) : Z :=
  match r with
  | Return success => if success then 0 else 1
  | Raise (SystemExit code) => code
  | Raise KeyboardInterrupt => 130
  | Raise _ => 1
  end.

Definition script_exit_status : Z := exit_status (fst main).

End WithWorld.

(** [m] never removes a recorded issue. *)
Definition keeps_issues {A} (m : V A) : Prop :=
  forall v, issues v `prefix_of` issues (snd (m v)).

(** Two validators that differ at most in their warnings and successes. *)
Definition same_issues (v1 v2 : validator) : Prop :=
  issues v1 = issues v2 /\ tick v1 = tick v2.

(** What [m] returns or raises, and the issues that it leaves, do not
    depend on the warnings and successes recorded so far. *)
Definition issues_only {A} (m : V A) : Prop :=
  forall v1 v2, same_issues v1 v2 ->
    fst (m v1) = fst (m v2) /\ same_issues (snd (m v1)) (snd (m v2)).

(** [m] never raises [SystemExit]. *)
Definition no_exit {A} (m : V A) : Prop :=
  forall v c, fst (m v) <> Raise (SystemExit c).

Definition fine {A} (m : V A) : Prop :=
  keeps_issues m /\ issues_only m /\ no_exit m.

Definition with_warnings (ws : list string) (v : validator) : validator :=
  {| issues := issues v; warnings := ws; successes := successes v; tick := tick v |}.

End Validator.

(** * Specification vocabulary *)

Module Spec.

Import PyStr Py Installer.

(** The three components of what a method does from a state. *)
Definition res {A} (x : result A * installer * list event) : result A := fst (fst x).
Definition st {A} (x : result A * installer * list event) : installer := snd (fst x).
Definition out {A} (x : result A * installer * list event) : list event := snd x.

(** [sound R E D m]: from every state, [m] ends in a state related to the
    first one by [R], raises only exceptions in [E], and emits events
    accepted by [D]. *)
Definition sound (R : installer -> installer -> Prop) (E : exn -> Prop)
    (D : list event -> Prop) {A} (m : M A) : Prop :=
  forall s, R s (st (m s)) /\ (forall e, res (m s) = Raise e -> E e) /\ D (out (m s)).

(** What the generic proof rules need of [R], [E] and [D]. *)
Record Good (R : installer -> installer -> Prop) (E : exn -> Prop)
    (D : list event -> Prop) : Prop := {
  good_refl : forall s, R s s;
  good_trans : forall s1 s2 s3, R s1 s2 -> R s2 s3 -> R s1 s3;
  good_bump : forall s, R s (bump s);
  good_stdin : forall s l, R s (with_stdin l s);
  good_step : forall s n, R s (with_current_step n s);
  good_exc : forall e, is_Exception e = true -> E e;
  good_kbd : E KeyboardInterrupt;
  good_exit1 : E (SystemExit 1);
  good_nil : D [];
  good_app : forall d1 d2, D d1 -> D d2 -> D (d1 ++ d2)%list
}.

(** Frames on the installer object.  [same_settings]: the configuration
    and the installation directory are untouched.  [ssl_may_drop]: they
    are untouched except that [enable_ssl] may have been set to false. *)
Definition same_settings (s s' : installer) : Prop :=
  config s' = config s /\ install_dir s' = install_dir s.

Definition ssl_may_drop (s s' : installer) : Prop :=
  install_dir s' = install_dir s /\
  (config s' = config s \/ config s' = <["enable_ssl" := VBool false]> (config s)).

Definition any_state (s s' : installer) : Prop := True.
Definition any_exn (e : exn) : Prop := True.
Definition any_events (d : list event) : Prop := True.

(** Exceptions other than a successful exit. *)
Definition not_exit0 (e : exn) : Prop := e <> SystemExit 0.

(** ** The configuration invariants *)

Definition enable_ssl_on (c : gmap string pyval) : Prop :=
  c !! "enable_ssl" = Some (VBool true).

Definition ssl_email_ok (c : gmap string pyval) : Prop :=
  exists e, c !! "ssl_email" = Some (VStr e) /\ e <> "" /\ contains "@" e = true.

(** [enable_ssl] implies a usable [ssl_email]; [is_ip] implies no SSL. *)
Definition config_inv (c : gmap string pyval) : Prop :=
  (enable_ssl_on c -> ssl_email_ok c) /\
  (c !! "is_ip" = Some (VBool true) -> c !! "enable_ssl" = Some (VBool false)).

(** The invariant as the data model words it: moreover [ssl_email] is set
    only if [enable_ssl] is true. *)
Definition config_inv_strict (c : gmap string pyval) : Prop :=
  (enable_ssl_on c <-> is_Some (c !! "ssl_email")) /\ config_inv c.

(** ** Steps in sequence *)

Fixpoint seq_steps (l : list (M unit)) : M unit :=
  match l with
  | [] => ret tt
  | m :: l' => m ;; seq_steps l'
  end.

(** The steps of [post_collection], one entry per numbered step of
    [run_installation] (the last entry is the closing summary). *)
Definition post_steps (W : World) : list (M unit) :=
  [ install_system_dependencies W;
    setup_application W;
    (progress "Configuring web server" ;; configure_web_server W);
    (en <- get_config "enable_ssl" ;;
     if truthy en then setup_ssl W else progress "Skipping SSL setup (HTTP only)");
    (progress "Creating system service" ;; create_systemd_service W);
    (progress "Configuring firewall and security" ;; setup_firewall W);
    (progress "Creating management and monitoring tools" ;; create_management_tools W);
    (progress "Verifying installation and testing services" ;; verify_installation W);
    (progress "Starting services and finalizing setup" ;; finalize_installation W);
    show_installation_summary ].

(** ** Reading the event trace *)

(** The child processes of a trace, in order, with their outcomes. *)
Definition runs (d : list event) : list (list string * proc_outcome) :=
  omap (fun ev => match ev with EvRun cmd o => Some (cmd, o) | _ => None end) d.

Definition succeeded (o : proc_outcome) : bool :=
  match o with Exited rc _ => rc =? 0 | _ => false end.

Definition log_entries (d : list event) : list (level * string) :=
  omap (fun ev => match ev with EvLog lv msg => Some (lv, msg) | _ => None end) d.

Definition recent_log_dumps (d : list event) : list (list string) :=
  omap (fun ev => match ev with EvRecentLog l => Some l | _ => None end) d.

Definition writes (d : list event) : list (string * string) :=
  omap (fun ev => match ev with EvFs (Write p c) => Some (p, c) | _ => None end) d.

Definition fs_effects (d : list event) : list fs_op :=
  omap (fun ev => match ev with EvFs op => Some op | _ => None end) d.

(** The milestones of [install_mongodb] in the log: a method is attempted,
    a method reports success, a method is reported as failed, the final
    check reports that all methods failed. *)
Inductive mark :=
| Attempt (method : nat)
| Succeeded (method : nat)
| Failed (method : nat)
| Exhausted.

Definition mark_of (ev : event) : option mark :=
  match ev with
  | EvLog INFO msg =>
      if String.eqb msg "Attempting MongoDB installation via official repository" then Some (Attempt 1)
      else if String.eqb msg "Attempting MongoDB installation via Ubuntu repositories" then Some (Attempt 2)
      else if String.eqb msg "Attempting MongoDB installation via snap" then Some (Attempt 3)
      else None
  | EvLog SUCCESS msg =>
      if String.eqb msg "MongoDB installed successfully from official repository" then Some (Succeeded 1)
      else if String.eqb msg "MongoDB installed successfully from Ubuntu repositories" then Some (Succeeded 2)
      else if String.eqb msg "MongoDB installed successfully via snap" then Some (Succeeded 3)
      else None
  | EvLog WARNING msg =>
      if String.prefix "Official MongoDB installation failed: " msg then Some (Failed 1)
      else if String.prefix "Ubuntu repository MongoDB installation failed: " msg then Some (Failed 2)
      else if String.prefix "Snap MongoDB installation failed: " msg then Some (Failed 3)
      else None
  | EvLog ERROR msg =>
      if String.eqb msg "All MongoDB installation methods failed" then Some Exhausted else None
  | _ => None
  end.

Definition marks (d : list event) : list mark := omap mark_of d.

Definition unmarked (d : list event) : Prop := marks d = [].

Definition attempts (l : list mark) : list nat :=
  omap (fun m => match m with Attempt i => Some i | _ => None end) l.

(** The courses that the three-method fallback can take, as sequences of
    milestones: success at method 1, 2 or 3, exhaustion, or a run cut
    short inside a method. *)
Definition mongodb_courses : list (list mark) :=
  [ [Attempt 1; Succeeded 1];
    [Attempt 1; Failed 1; Attempt 2; Succeeded 2];
    [Attempt 1; Failed 1; Attempt 2; Failed 2; Attempt 3; Succeeded 3];
    [Attempt 1; Failed 1; Attempt 2; Failed 2; Attempt 3; Failed 3; Exhausted];
    [Attempt 1];
    [Attempt 1; Failed 1; Attempt 2];
    [Attempt 1; Failed 1; Attempt 2; Failed 2; Attempt 3] ].

(** A method is quiet when it leaves no milestone in the log. *)
Definition quiet {A} (m : M A) : Prop := forall s, marks (out (m s)) = [].

(** A method that ends with the milestone [mk] when it returns, and
    leaves none when it raises. *)
Definition ends_with_mark (mk : mark) {A} (m : M A) : Prop :=
  forall s,
    (exists a, res (m s) = Return a /\ marks (out (m s)) = [mk]) \/
    (exists e, res (m s) = Raise e /\ marks (out (m s)) = []).

(** The course of one method: attempted and succeeded, or attempted and
    cut short by an exception. *)
Definition attempt_course (i : nat) {A} (x : result A * installer * list event) : Prop :=
  (exists a, res x = Return a /\ marks (out x) = [Attempt i; Succeeded i]) \/
  (exists e, res x = Raise e /\ marks (out x) = [Attempt i]).

(** What [show_configuration_summary] reads of the configuration before
    it asks for confirmation. *)
Definition summary_readable (c : gmap string pyval) : Prop :=
  is_Some (c !! "domain") /\ is_Some (c !! "web_server") /\ is_Some (c !! "environment") /\
  exists en, c !! "enable_ssl" = Some en /\ (truthy en = true -> is_Some (c !! "ssl_email")).

(** ** Reading generated files *)

(** [s] without its first [n] characters. *)
Fixpoint skip (n : nat) (s : string) : string :=
  match n, s with
  | S k, String _ s' => skip k s'
  | _, _ => s
  end.

(** The value of [key] in an environment file: what follows [key=] on the
    first line that starts with it. *)
Definition env_lookup (key content : string) : option string :=
  match List.find (String.prefix (key +:+ "=")) (split_char nl content) with
  | Some line => Some (skip (String.length (key +:+ "=")) line)
  | None => None
  end.

(** The character [c] does not occur in [s]. *)
Definition no_char (c : ascii) (s : string) : Prop :=
  forallb (fun x => negb (Ascii.eqb x c)) (String.list_ascii_of_string s) = true.

(** What follows the first occurrence of [pat] in [s]. *)
Fixpoint after_first (pat s : string) : option string :=
  if String.prefix pat s then Some (skip (String.length pat) s)
  else match s with
       | EmptyString => None
       | String _ s' => after_first pat s'
       end.

(** What precedes the first occurrence of [pat] in [s]. *)
Fixpoint before_first (pat s : string) : string :=
  if String.prefix pat s then EmptyString
  else match s with
       | EmptyString => EmptyString
       | String c s' => String c (before_first pat s')
       end.

(** The occurrences of [pat] in [a +:+ b] that start inside [a]. *)
Fixpoint count_open (pat a b : string) : nat :=
  match a with
  | EmptyString => 0%nat
  | String _ a' => ((if String.prefix pat (a +:+ b) then 1 else 0) + count_open pat a' b)%nat
  end.

Fixpoint suffixes (s : string) : list string :=
  s :: match s with
       | EmptyString => []
       | String _ s' => suffixes s'
       end.

(** No proper non-empty suffix of [pat] starts [q]: an occurrence of [pat]
    cannot begin before [q] and end inside it. *)
Definition no_straddle (pat q : string) : bool :=
  forallb (fun v => negb (nonempty v && String.prefix v q)) (List.tl (suffixes pat)).

Definition nginx_redirect_line : string := "return 301 https://$server_name$request_uri;".

Definition nginx_certificate_line (domain : string) : string :=
  "ssl_certificate /etc/letsencrypt/live/" +:+ domain +:+ "/fullchain.pem;".

(** The backend URL that [create_frontend_config] leaves in the frontend
    environment file, when it writes that one file. *)
Definition written_backend_url (W : World) (s : installer) : option string :=
  match writes (out (create_frontend_config W s)) with
  | [(_, content)] => env_lookup "REACT_APP_BACKEND_URL" content
  | _ => None
  end.

End Spec.

(** * Concrete hosts and operators *)

Module Scenario.

Import PyStr Py Installer.

Definition cmd_is (cmd expected : list string) : bool := bool_decide (cmd = expected).

Definition program_is (cmd : list string) (program : string) : bool :=
  String.eqb (hd "" cmd) program.

(** A host on which every command succeeds, every file exists, every
    service answers. *)
Definition happy : World :=
  {| w_subprocess := fun _ cmd =>
       if cmd_is cmd ["node"; "--version"] then Exited 0 "v20.11.0"
       else if cmd_is cmd ["lsb_release"; "-cs"] then Exited 0 "jammy"
       else if cmd_is cmd ["systemctl"; "is-active"; "mongod"] then Exited 0 "active"
       else Exited 0 "";
     w_read := fun _ _ => Content "ID=ubuntu";
     w_path_exists := fun _ _ => true;
     w_fs := fun _ _ => None;
     w_geteuid := 0;
     w_statvfs := fun _ => (10000000, 4096);
     w_inet_aton := fun _ => false;
     w_connect_ex := fun _ _ _ => inl 0;
     w_urlopen := fun _ _ => inl 200;
     w_gethostbyname := fun _ _ => inl "203.0.113.7";
     w_token_hex := fun _ => "00";
     w_script_dir := "/root/pollapp";
     w_format_1f := fun _ _ => "0.0" |}.

(** The same host with one command behaving differently. *)
Definition happy_except (odd : list string -> option proc_outcome) : World :=
  {| w_subprocess := fun t cmd =>
       match odd cmd with
       | Some o => o
       | None => w_subprocess happy t cmd
       end;
     w_read := w_read happy;
     w_path_exists := w_path_exists happy;
     w_fs := w_fs happy;
     w_geteuid := w_geteuid happy;
     w_statvfs := w_statvfs happy;
     w_inet_aton := w_inet_aton happy;
     w_connect_ex := w_connect_ex happy;
     w_urlopen := w_urlopen happy;
     w_gethostbyname := w_gethostbyname happy;
     w_token_hex := w_token_hex happy;
     w_script_dir := w_script_dir happy;
     w_format_1f := w_format_1f happy |}.

(** [certbot] is installed but may not be executed: starting it raises
    [PermissionError]. *)
Definition cert_denied : World :=
  happy_except (fun cmd =>
    if program_is cmd "certbot"
    then Some (OtherOSError "[Errno 13] Permission denied: 'certbot'")
    else None).

(** The download of the MongoDB signing key fails ([curl] exits with 6,
    could not resolve host). *)
Definition mongo_key_unreachable : World :=
  happy_except (fun cmd =>
    if cmd_is cmd ["curl"; "-fsSL"; "https://www.mongodb.org/static/pgp/server-7.0.asc";
                   "-o"; "/tmp/mongodb.asc"]
    then Some (Exited 6 "")
    else None).

(** No MongoDB can be had: the key download, the Ubuntu package and snap
    all fail with a non-zero exit status. *)
Definition no_mongodb : World :=
  happy_except (fun cmd =>
    if cmd_is cmd ["curl"; "-fsSL"; "https://www.mongodb.org/static/pgp/server-7.0.asc";
                   "-o"; "/tmp/mongodb.asc"]
    then Some (Exited 6 "")
    else if cmd_is cmd ["apt-get"; "install"; "-y"; "mongodb"] then Some (Exited 100 "")
    else if cmd_is cmd ["snap"; "install"; "mongodb"] then Some (Exited 1 "")
    else None).

(** A host without any of the programs. *)
Definition bare : World :=
  happy_except (fun _ => Some NotFound).

(** Every command exits with status 1. *)
Definition failing : World :=
  happy_except (fun _ => Some (Exited 1 "")).

(** The operator asks for [example.com] with SSL behind Nginx, keeps the
    defaults, and gives [confirm] at the last prompt. *)
Definition answers (confirm : string) : list input_line :=
  [Line "example.com"; Line "y"; Line "admin@example.com"; Line "1";
   Line ""; Line ""; Line confirm].

(** The installer object once [example.com] with SSL behind Nginx has
    been collected. *)
Definition collected : installer :=
  {| config := <["environment" := VStr "production"]>
                 (<["web_server" := VStr "nginx"]>
                    (<["ssl_email" := VStr "admin@example.com"]>
                       (<["enable_ssl" := VBool true]>
                          (<["is_ip" := VBool false]>
                             (<["domain" := VStr "example.com"]> ∅)))));
     install_dir := "/opt/secret-poll";
     log_file := "/var/log/secret-poll-install.log";
     service_name := "secret-poll";
     total_steps := 12;
     current_step := 3;
     stdin := [];
     tick := 40 |}.

(** A host for the validator: the application is in place and the tools
    are installed, but the network is down and the four ports are taken. *)
Definition offline_host : Validator.World :=
  {| Validator.w_exists := fun _ _ => true;
     Validator.w_run := fun _ cmd =>
       if program_is cmd "node" then Validator.Completed 0 "v20.11.0" ""
       else if program_is cmd "npm" then Validator.Completed 0 "10.2.4" ""
       else if program_is cmd "ufw" then Validator.Completed 0 "Status: active" ""
       else if cmd_is cmd ["/usr/bin/python3"; "--version"]
       then Validator.Completed 0 "Python 3.11.4" ""
       else Validator.Completed 0 "" "";
     Validator.w_read := fun _ path =>
       if String.eqb path "/app/install.py"
       then Validator.Content
              "try: self.log(x) except Exception as e: NodeSource failed fallback mongodb mongodb mongodb"
       else if String.eqb path "/app/backend/requirements.txt"
       then Validator.Content "fastapi==1 uvicorn==1 pymongo==1 websockets==1 reportlab==1"
       else if String.eqb path "/app/backend/server.py"
       then Validator.Content "FastAPI WebSocket MongoDB health"
       else if String.eqb path "/proc/meminfo"
       then Validator.Content "MemTotal:       8000000 kB"
       else Validator.Content "ID=ubuntu";
     Validator.w_package_json := fun _ =>
       Validator.PackageData
         (<["react" := "^18.2.0"]> (<["react-dom" := "^18.2.0"]>
            (<["react-scripts" := "5.0.1"]> ∅)))
         ∅
         (<["build" := "react-scripts build"]> (<["start" := "react-scripts start"]> ∅));
     Validator.w_statvfs := fun _ => inl (10000000, 4096);
     Validator.w_urlopen := fun _ _ => inr "<urlopen error [Errno 101] Network is unreachable>";
     Validator.w_connect_ex := fun _ _ => inl 0;
     Validator.w_geteuid := 1000;
     Validator.w_executable := "/usr/bin/python3";
     Validator.w_format_1f := fun _ _ => "0.0" |}.

(** The same host without [openssl]. *)
Definition offline_host_without_openssl : Validator.World :=
  {| Validator.w_exists := Validator.w_exists offline_host;
     Validator.w_run := fun t cmd =>
       if program_is cmd "openssl" then Validator.RunNotFound
       else Validator.w_run offline_host t cmd;
     Validator.w_read := Validator.w_read offline_host;
     Validator.w_package_json := Validator.w_package_json offline_host;
     Validator.w_statvfs := Validator.w_statvfs offline_host;
     Validator.w_urlopen := Validator.w_urlopen offline_host;
     Validator.w_connect_ex := Validator.w_connect_ex offline_host;
     Validator.w_geteuid := Validator.w_geteuid offline_host;
     Validator.w_executable := Validator.w_executable offline_host;
     Validator.w_format_1f := Validator.w_format_1f offline_host |}.

(** The same host with an [install.py] that exists and cannot be read. *)
Definition unreadable_script_host : Validator.World :=
  {| Validator.w_exists := Validator.w_exists offline_host;
     Validator.w_run := Validator.w_run offline_host;
     Validator.w_read := fun t path =>
       if String.eqb path "/app/install.py"
       then Validator.ReadError "[Errno 13] Permission denied: '/app/install.py'"
       else Validator.w_read offline_host t path;
     Validator.w_package_json := Validator.w_package_json offline_host;
     Validator.w_statvfs := Validator.w_statvfs offline_host;
     Validator.w_urlopen := Validator.w_urlopen offline_host;
     Validator.w_connect_ex := Validator.w_connect_ex offline_host;
     Validator.w_geteuid := Validator.w_geteuid offline_host;
     Validator.w_executable := Validator.w_executable offline_host;
     Validator.w_format_1f := Validator.w_format_1f offline_host |}.

End Scenario.

(** * Further vocabulary and hosts *)

Module Props.

Import PyStr Py Installer.

(** Exceptions other than a [SystemExit] whose status is not 1. *)
Definition exit1_only (e : exn) : Prop := forall c, e = SystemExit c -> c = 1.

(** Exceptions other than a [SystemExit] whose status is neither 0 nor 1. *)
Definition exit01_only (e : exn) : Prop := forall c, e = SystemExit c -> c = 0 \/ c = 1.

(** The log ends with the entry that the confirmation prompt writes when
    the operator declines. *)
Definition ends_cancelled (d : list event) : Prop :=
  last d = Some (EvLog INFO "Installation cancelled by user").

(** [m] raises [SystemExit(0)] only with the cancellation as last event. *)
Definition exit0_cancelled {A} (m : M A) : Prop :=
  forall s, Spec.res (m s) = Raise (SystemExit 0) -> ends_cancelled (Spec.out (m s)).

(** The characters of a host name: letters, digits, hyphen and dot. *)
Definition domain_char (c : ascii) : bool :=
  is_alnum c || Ascii.eqb c "-"%char || Ascii.eqb c "."%char.

Definition chars (s : string) : list ascii := String.list_ascii_of_string s.

(** A configuration as [collect_configuration] leaves it, on a host [W]. *)
Record collected (W : World) (c : gmap string pyval) : Prop := {
  col_domain : exists d,
    c !! "domain" = Some (VStr d) /\ d <> "" /\ strip d = d /\
    validate_domain_or_ip W d = true /\
    c !! "is_ip" = Some (VBool (is_ip_address W d)) /\
    (is_ip_address W d = false -> forallb domain_char (chars d) = true);
  col_ssl : exists b,
    c !! "enable_ssl" = Some (VBool b) /\
    (c !! "is_ip" = Some (VBool true) -> b = false) /\
    (b = true -> exists e, c !! "ssl_email" = Some (VStr e) /\ contains "@" e = true);
  col_web_server : exists ws,
    c !! "web_server" = Some (VStr ws) /\ In ws ["nginx"; "apache"; "standalone"];
  col_environment : exists env,
    c !! "environment" = Some (VStr env) /\ In env ["production"; "staging"]
}.

(** [m] raises no exception that derives from [Exception]. *)
Definition no_Exception {A} (m : M A) : Prop :=
  forall s e, Spec.res (m s) = Raise e -> is_Exception e = false.

(** The commands of [setup_firewall], in the order of the source. *)
Definition firewall_commands (ssl : bool) : list (list string) :=
  [ ["apt-get"; "install"; "-y"; "ufw"];
    ["ufw"; "--force"; "reset"];
    ["ufw"; "default"; "deny"; "incoming"];
    ["ufw"; "default"; "allow"; "outgoing"];
    ["ufw"; "allow"; "ssh"];
    ["ufw"; "allow"; "22/tcp"];
    ["ufw"; "allow"; "80/tcp"] ] ++
  (if ssl then [ ["ufw"; "allow"; "443/tcp"] ] else []) ++
  [ ["ufw"; "--force"; "enable"] ].

(** The child process [r] ended with status 0. *)
Definition ran_well (r : list string * proc_outcome) : Prop :=
  exists stdout, snd r = Exited 0 stdout.

(** What a trace [d] of [setup_firewall] and its result [r] are like: the
    commands are an initial part of the list; if they are the whole list,
    all of them but the reset and the enabling ended with status 0; and
    no [Exception] comes out. *)
Definition firewall_post (ssl : bool) (r : result unit) (d : list event) : Prop :=
  let rs := Spec.runs d in
  rs.*1 `prefix_of` firewall_commands ssl /\
  (rs.*1 = firewall_commands ssl ->
   Forall (fun c => c.1 = ["ufw"; "--force"; "reset"] \/
                    c.1 = ["ufw"; "--force"; "enable"] \/ ran_well c) rs) /\
  (r = Return tt \/ r = Raise (SystemExit 1) \/ r = Raise KeyboardInterrupt).

(** The value of [cors_origins] in [create_backend_config]. *)
Definition backend_cors (domain : string) (ssl : bool) : string :=
  if ssl then ("http://" +:+ domain) +:+ ",https://" +:+ domain
  else "http://" +:+ domain.

(** [wp m Q s d0]: run from state [s] after the events [d0], the method
    [m] ends with a result, a state and a trace that satisfy [Q]. *)
Definition wp {A} (m : M A) (Q : result A -> installer -> list event -> Prop)
    (s : installer) (d0 : list event) : Prop :=
  Q (Spec.res (m s)) (Spec.st (m s)) (d0 ++ Spec.out (m s))%list.

(** The continuation of [wp] through [bind]. *)
Definition wp_then {A B} (k : A -> M B) (Q : result B -> installer -> list event -> Prop)
    (r : result A) (s : installer) (d : list event) : Prop :=
  match r with
  | Return a => wp (k a) Q s d
  | Raise e => Q (Raise e) s d
  end.

(** The continuation of [wp] through [try_catch]. *)
Definition wp_catch {A} (h : exn -> option (M A))
    (Q : result A -> installer -> list event -> Prop)
    (r : result A) (s : installer) (d : list event) : Prop :=
  match r with
  | Return a => Q (Return a) s d
  | Raise e =>
      match h e with
      | Some handler => wp handler Q s d
      | None => Q (Raise e) s d
      end
  end.

End Props.

Module Hosts.

Import PyStr Py Installer.

(** [Scenario.happy] seen by an unprivileged user. *)
Definition not_root : World :=
  {| w_subprocess := w_subprocess Scenario.happy;
     w_read := w_read Scenario.happy;
     w_path_exists := w_path_exists Scenario.happy;
     w_fs := w_fs Scenario.happy;
     w_geteuid := 1000;
     w_statvfs := w_statvfs Scenario.happy;
     w_inet_aton := w_inet_aton Scenario.happy;
     w_connect_ex := w_connect_ex Scenario.happy;
     w_urlopen := w_urlopen Scenario.happy;
     w_gethostbyname := w_gethostbyname Scenario.happy;
     w_token_hex := w_token_hex Scenario.happy;
     w_script_dir := w_script_dir Scenario.happy;
     w_format_1f := w_format_1f Scenario.happy |}.

(** [Scenario.happy] with 1 GiB left on the root file system. *)
Definition low_disk : World :=
  {| w_subprocess := w_subprocess Scenario.happy;
     w_read := w_read Scenario.happy;
     w_path_exists := w_path_exists Scenario.happy;
     w_fs := w_fs Scenario.happy;
     w_geteuid := w_geteuid Scenario.happy;
     w_statvfs := fun _ => (262144, 4096);
     w_inet_aton := w_inet_aton Scenario.happy;
     w_connect_ex := w_connect_ex Scenario.happy;
     w_urlopen := w_urlopen Scenario.happy;
     w_gethostbyname := w_gethostbyname Scenario.happy;
     w_token_hex := w_token_hex Scenario.happy;
     w_script_dir := w_script_dir Scenario.happy;
     w_format_1f := w_format_1f Scenario.happy |}.

End Hosts.

(** * Further vocabulary for the validator *)

Module VProps.

Import PyStr Py Validator.

(** [vwp m Q v]: run from [v], the check [m] ends with a result and a
    validator that satisfy [Q]. *)
Definition vwp {A} (m : V A) (Q : result A -> validator -> Prop) (v : validator) : Prop :=
  Q (fst (m v)) (snd (m v)).

Definition vwp_then {A B} (k : A -> V B) (Q : result B -> validator -> Prop)
    (r : result A) (v : validator) : Prop :=
  match r with
  | Return a => vwp (k a) Q v
  | Raise e => Q (Raise e) v
  end.

Definition vwp_catch {A} (h : exn -> option (V A)) (Q : result A -> validator -> Prop)
    (r : result A) (v : validator) : Prop :=
  match r with
  | Return a => Q (Return a) v
  | Raise e =>
      match h e with
      | Some handler => vwp handler Q v
      | None => Q (Raise e) v
      end
  end.

(** The validator [v] after [n] more questions to the host. *)
Definition later (n : nat) (v : validator) : validator :=
  {| issues := issues v; warnings := warnings v; successes := successes v;
     tick := n + tick v |}.

(** The files that [validate_application_files] requires. *)
Definition required_files : list string :=
  ["/app/backend/server.py"; "/app/backend/requirements.txt";
   "/app/frontend/package.json"; "/app/frontend/src/App.js"; "/app/install.py"].

(** The issues that the absence of files gives, the first file being
    looked for at time [t]. *)
Fixpoint missing (W : World) (t : nat) (files : list string) : list string :=
  match files with
  | [] => []
  | f :: rest =>
      (if w_exists W t f then [] else [f +:+ " missing"]) ++ missing W (S t) rest
  end.

(** Ctrl-C while a child process runs. *)
Definition interrupted (W : World) (e : exn) : Prop :=
  e = KeyboardInterrupt /\ exists t cmd, w_run W t cmd = RunInterrupted.

(** The failure to read a file that exists, one of the two that the
    validator opens outside of any [try]. *)
Definition unreadable (W : World) (e : exn) : Prop :=
  is_Exception e = true /\
  exists t path,
    In path ["/app/install.py"; "/app/backend/requirements.txt"] /\
    forall text, w_read W t path <> Content text.

Definition any_Exception (e : exn) : Prop := is_Exception e = true.

Definition no_exception (e : exn) : Prop := False.

(** [m] raises nothing but Ctrl-C from a child process and the
    exceptions in [U]. *)
Definition raises (W : World) (U : exn -> Prop) {A} (m : V A) : Prop :=
  forall v e, fst (m v) = Raise e -> interrupted W e \/ U e.

End VProps.

(** * Vocabulary for what a run leaves behind *)

Module Trace.

Import PyStr Py Installer.

(** An event is allowed when its command is in [C] or its operation on
    the file system is in [F]; log entries and pauses always are. *)
Definition allowed (C : list string -> Prop) (F : fs_op -> Prop) (ev : event) : Prop :=
  match ev with
  | EvRun cmd _ => C cmd
  | EvFs op => F op
  | _ => True
  end.

(** The installer object has the installation directory [dir] and the
    service name [svc]. *)
Definition at_home (dir svc : string) (s : installer) : Prop :=
  install_dir s = dir /\ service_name s = svc.

Definition anywhere (s : installer) : Prop := True.

(** From a state in [I], the method [m] ends in a state in [I] and all
    its events are allowed. *)
Definition emits (I : installer -> Prop) (C : list string -> Prop) (F : fs_op -> Prop)
    {A} (m : M A) : Prop :=
  forall s, I s -> I (Spec.st (m s)) /\ Forall (allowed C F) (Spec.out (m s)).

(** The same in two phases: events allowed by [C1] and [F1] first, then
    events allowed by [C2] and [F2]. *)
Definition phased (I : installer -> Prop)
    (C1 : list string -> Prop) (F1 : fs_op -> Prop)
    (C2 : list string -> Prop) (F2 : fs_op -> Prop) {A} (m : M A) : Prop :=
  forall s, I s ->
    I (Spec.st (m s)) /\
    exists d1 d2, Spec.out (m s) = (d1 ++ d2)%list /\
      Forall (allowed C1 F1) d1 /\ Forall (allowed C2 F2) d2.

(** What [I] must be stable under: the passing of time, keyboard input,
    the step counter and the configuration. *)
Record stable (I : installer -> Prop) : Prop := {
  st_bump : forall s, I s -> I (bump s);
  st_stdin : forall s l, I s -> I (with_stdin l s);
  st_step : forall s n, I s -> I (with_current_step n s);
  st_config : forall s f, I s -> I (with_config f s)
}.

(** The installer object has the service name [svc]. *)
Definition serves (svc : string) (s : installer) : Prop := service_name s = svc.

Definition any_cmd (cmd : list string) : Prop := True.
Definition any_fs (op : fs_op) : Prop := True.
Definition no_cmd (cmd : list string) : Prop := False.
Definition no_fs (op : fs_op) : Prop := False.

(** ** What the installer touches *)

(** The operations on the file system that the installer performs by
    itself (not through a child process) when it runs from the
    directory [script], installs into [dir] and names its service
    [svc]. *)
Definition own_fs (script dir svc : string) (op : fs_op) : Prop :=
  match op with
  | Write p _ =>
      In p [ dir +:+ "/backend/.env";
             dir +:+ "/frontend/.env";
             dir +:+ "/frontend/build/index.html";
             dir +:+ "/status.sh";
             dir +:+ "/logs.sh";
             dir +:+ "/restart.sh";
             "/etc/nginx/sites-available/" +:+ svc;
             "/etc/apache2/sites-available/" +:+ svc +:+ ".conf";
             "/etc/systemd/system/" +:+ svc +:+ ".service";
             "/etc/cron.daily/certbot-renewal";
             "/etc/apt/sources.list.d/mongodb-org-7.0.list" ]
  | Makedirs p => In p [dir; dir +:+ "/frontend/build"]
  | Copytree src dst =>
      In (src, dst) [ (script +:+ "/backend", dir +:+ "/backend");
                      (script +:+ "/frontend", dir +:+ "/frontend") ]
  | Chdir p => In p [dir +:+ "/backend"; dir +:+ "/frontend"]
  | Remove p => p = "/etc/nginx/sites-enabled/" +:+ svc
  | Symlink src dst =>
      src = "/etc/nginx/sites-available/" +:+ svc /\
      dst = "/etc/nginx/sites-enabled/" +:+ svc
  | Chmod p mode =>
      mode = 493 /\
      In p [ "/etc/cron.daily/certbot-renewal";
             dir +:+ "/status.sh"; dir +:+ "/logs.sh"; dir +:+ "/restart.sh" ]
  end.

(** The programs that the installer starts by name. *)
Definition programs : list string :=
  [ "systemctl"; "apt-get"; "rm"; "lsof"; "kill"; "curl"; "bash"; "gpg";
    "lsb_release"; "snap"; "node"; "openssl"; "python3"; "npm"; "yarn";
    "nginx"; "a2enmod"; "a2ensite"; "certbot"; "chown"; "ufw" ].

(** The three command lines that the installer hands to [bash]. *)
Definition bash_arguments : list (list string) :=
  [ ["/tmp/nodejs_setup.sh"];
    ["-c"; "cat /tmp/mongodb.asc | gpg --dearmor --batch --yes -o /usr/share/keyrings/mongodb-server-7.0.gpg"];
    ["-c"; "gpg --dearmor --batch --yes < /tmp/mongodb.asc > /usr/share/keyrings/mongodb-server-7.0.gpg"] ].

(** The child processes of an installer that starts with the directory
    [dir0] and installs into [dir]: the program is one of [programs] or
    the [pip] or the [python] of the virtual environment; [rm] removes
    [dir0] only, [kill] has one target, [bash] gets one of its three
    command lines and [chown] is applied to [dir]. *)
Definition own_cmd (dir0 dir : string) (cmd : list string) : Prop :=
  match cmd with
  | [] => False
  | prog :: args =>
      (In prog programs \/
       prog = dir +:+ "/backend/venv/bin/pip" \/
       prog = dir +:+ "/backend/venv/bin/python") /\
      (prog = "rm" -> args = ["-rf"; dir0]) /\
      (prog = "kill" -> exists pid, args = ["-9"; pid]) /\
      (prog = "bash" -> In args bash_arguments) /\
      (prog = "chown" -> args = ["-R"; "www-data:www-data"; dir])
  end.

(** The child processes of [cleanup_vps] for an installer object whose
    directory is [dir0]. *)
Definition cleanup_cmd (dir0 : string) (cmd : list string) : Prop :=
  (exists service,
     In service ["apache2"; "nginx"; "httpd"; "lighttpd"] /\
     In cmd [ ["systemctl"; "is-active"; service];
              ["systemctl"; "stop"; service];
              ["systemctl"; "disable"; service] ]) \/
  In cmd [ ["apt-get"; "clean"]; ["apt-get"; "autoremove"; "-y"]; ["rm"; "-rf"; dir0] ] \/
  (exists port, In port [80; 443; 8001] /\ cmd = ["lsof"; "-ti"; ":" +:+ pretty port]) \/
  (exists pid, cmd = ["kill"; "-9"; pid]).

(** When [m] returns, one of its events is in [P]. *)
Definition reaches (I : installer -> Prop) (P : event -> Prop) {A} (m : M A) : Prop :=
  forall s a, I s -> Spec.res (m s) = Return a -> Exists P (Spec.out (m s)).

(** The child process [cmd], whatever its outcome. *)
Definition runs_cmd (cmd : list string) (ev : event) : Prop :=
  exists o, ev = EvRun cmd o.

(** ** The build of the frontend and what is written afterwards *)

Definition frontend_builds : list (list string) :=
  [ ["npm"; "run"; "build"]; ["yarn"; "build"] ].

Definition not_build (cmd : list string) : Prop := ~ In cmd frontend_builds.

(** [x] is the end of [y]. *)
Definition ends_with (x y : string) : bool :=
  String.eqb (String.substring (String.length y - String.length x) (String.length x) y) x.

(** The two files of the frontend that the installer writes by itself:
    the settings of the build and the page at the root of the site. *)
Definition frontend_files (dir : string) : list string :=
  [ dir +:+ "/frontend/.env"; dir +:+ "/frontend/build/index.html" ].

(** An operation other than the writing of one of these two files. *)
Definition not_frontend_file (dir : string) (op : fs_op) : Prop :=
  match op with
  | Write p _ => ~ In p (frontend_files dir)
  | _ => True
  end.

(** An operation that, if it writes the page at the root of the site,
    writes [page]. *)
Definition root_page_is (dir page : string) (op : fs_op) : Prop :=
  match op with
  | Write p c => p = dir +:+ "/frontend/build/index.html" -> c = page
  | _ => True
  end.

(** A build of the frontend that ended with status 0. *)
Definition built (ev : event) : Prop :=
  exists cmd stdout, In cmd frontend_builds /\ ev = EvRun cmd (Exited 0 stdout).

(** The page that [setup_ssl] writes for the verification of the
    domain. *)
Definition placeholder_page : string :=
  "<html><body><h1>Secret Poll Setup</h1></body></html>".

End Trace.

(** * Vocabulary for the later steps *)

Module Steps.

Import PyStr Py Installer.

(** The command line of [certbot] in [setup_ssl]. *)
Definition certbot_command (dir domain email : string) : list string :=
  ["certbot"; "certonly"; "--webroot"; "-w"; dir +:+ "/frontend/build";
   "-d"; domain; "--email"; email; "--agree-tos"; "--non-interactive"; "--expand"].

Definition is_certbot (cmd : list string) : bool := String.eqb (hd "" cmd) "certbot".

Definition not_certbot (cmd : list string) : Prop := is_certbot cmd = false.

(** The child processes of a trace whose program is [certbot]. *)
Definition certbot_runs (d : list event) : list (list string * proc_outcome) :=
  List.filter (fun r => is_certbot (fst r)) (Spec.runs d).

(** How [setup_ssl] ends, by what became of [certbot]: it is started at
    most once, with the command line [cmd]; a status other than 0 and a
    missing program end the installer with status 1; only another
    [OSError] makes the method give up SSL and return. *)
Definition ssl_post (s : installer) (cmd : list string)
    (r : result unit) (s' : installer) (d : list event) : Prop :=
  install_dir s' = install_dir s /\
  match certbot_runs d with
  | [] => config s' = config s /\ r <> Return tt
  | [(c, o)] =>
      c = cmd /\
      match o with
      | Exited rc _ =>
          if rc =? 0 then config s' = config s
          else r = Raise (SystemExit 1) /\ config s' = config s
      | NotFound => r = Raise (SystemExit 1) /\ config s' = config s
      | OtherOSError _ =>
          r = Return tt /\ config s' = <["enable_ssl" := VBool false]> (config s)
      | Interrupted => r = Raise KeyboardInterrupt /\ config s' = config s
      end
  | _ => False
  end.

(** ** The web server *)

(** The child processes of [configure_web_server], in the order of the
    source. *)
Definition web_server_commands (ws svc : string) : list (list string) :=
  if String.eqb ws "nginx" then
    [ ["nginx"; "-t"]; ["systemctl"; "reload"; "nginx"] ]
  else if String.eqb ws "apache" then
    map (fun module => ["a2enmod"; module])
      ["rewrite"; "proxy"; "proxy_http"; "proxy_wstunnel"; "headers"] ++
    [ ["a2ensite"; svc +:+ ".conf"]; ["systemctl"; "reload"; "apache2"] ]
  else [].

(** The file of the site and the text that the generator gives for it. *)
Definition web_server_site (ws svc : string) : string :=
  if String.eqb ws "nginx" then "/etc/nginx/sites-available/" +:+ svc
  else "/etc/apache2/sites-available/" +:+ svc +:+ ".conf".

Definition web_server_config (ws : string) (s : installer) : result string :=
  if String.eqb ws "nginx" then generate_nginx_config s else generate_apache_config s.

(** What a trace [d] of [configure_web_server] and its result [r] are
    like: the commands are an initial part of the list, each one but
    the last has ended with status 0; on return the whole list was run
    with status 0 and, unless the mode is [standalone], the generated
    text has been written to the file of the site. *)
Definition web_server_post (ws : string) (s : installer) (r : result unit)
    (d : list event) : Prop :=
  let rs := Spec.runs d in
  rs.*1 `prefix_of` web_server_commands ws (service_name s) /\
  Forall Props.ran_well (removelast rs) /\
  (r = Return tt ->
   rs.*1 = web_server_commands ws (service_name s) /\
   Forall Props.ran_well rs /\
   (ws <> "standalone" ->
    exists c, web_server_config ws s = Return c /\
              Spec.writes d = [(web_server_site ws (service_name s), c)])).

(** ** Settings that depend on [enable_ssl] *)

(** The files whose text depends on [enable_ssl]: the site of the web
    server and the two [.env] files. *)
Definition ssl_dependent_files (dir svc : string) : list string :=
  [ "/etc/nginx/sites-available/" +:+ svc;
    "/etc/apache2/sites-available/" +:+ svc +:+ ".conf";
    dir +:+ "/backend/.env";
    dir +:+ "/frontend/.env" ].

Definition not_ssl_dependent (dir svc : string) (op : fs_op) : Prop :=
  match op with
  | Write p _ => ~ In p (ssl_dependent_files dir svc)
  | _ => True
  end.

End Steps.

(** * Hosts with little room *)

Module Tight.

Import PyStr Py.

(** [Scenario.happy] with 3 GiB left on the root file system. *)
Definition installer_host : Installer.World :=
  {| Installer.w_subprocess := Installer.w_subprocess Scenario.happy;
     Installer.w_read := Installer.w_read Scenario.happy;
     Installer.w_path_exists := Installer.w_path_exists Scenario.happy;
     Installer.w_fs := Installer.w_fs Scenario.happy;
     Installer.w_geteuid := Installer.w_geteuid Scenario.happy;
     Installer.w_statvfs := fun _ => (786432, 4096);
     Installer.w_inet_aton := Installer.w_inet_aton Scenario.happy;
     Installer.w_connect_ex := Installer.w_connect_ex Scenario.happy;
     Installer.w_urlopen := Installer.w_urlopen Scenario.happy;
     Installer.w_gethostbyname := Installer.w_gethostbyname Scenario.happy;
     Installer.w_token_hex := Installer.w_token_hex Scenario.happy;
     Installer.w_script_dir := Installer.w_script_dir Scenario.happy;
     Installer.w_format_1f := Installer.w_format_1f Scenario.happy |}.

(** [Scenario.offline_host] with the same 3 GiB. *)
Definition validator_host : Validator.World :=
  {| Validator.w_exists := Validator.w_exists Scenario.offline_host;
     Validator.w_run := Validator.w_run Scenario.offline_host;
     Validator.w_read := Validator.w_read Scenario.offline_host;
     Validator.w_package_json := Validator.w_package_json Scenario.offline_host;
     Validator.w_statvfs := fun _ => inl (786432, 4096);
     Validator.w_urlopen := Validator.w_urlopen Scenario.offline_host;
     Validator.w_connect_ex := Validator.w_connect_ex Scenario.offline_host;
     Validator.w_geteuid := Validator.w_geteuid Scenario.offline_host;
     Validator.w_executable := Validator.w_executable Scenario.offline_host;
     Validator.w_format_1f := Validator.w_format_1f Scenario.offline_host |}.

End Tight.

(** * Commands whose failure the installer survives, and the others *)

Module Fatal.

Import PyStr Py Installer.

(** A child process that ended with a status other than 0, or whose
    program was not found. *)
Definition failed (o : proc_outcome) : Prop :=
  o = NotFound \/ exists rc stdout, o = Exited rc stdout /\ rc <> 0.

(** The commands that the installer runs with [ignore_errors], under a
    bare [except], or through [subprocess.run] directly: the probes,
    the cleanup, the variants of the GPG import and the reset of the
    firewall. *)
Definition tolerated (cmd : list string) : Prop :=
  In cmd [ ["apt-get"; "clean"];
           ["apt-get"; "autoremove"; "-y"];
           ["node"; "--version"];
           ["openssl"; "rand"; "-hex"; "32"];
           ["systemctl"; "list-unit-files"];
           ["ufw"; "--force"; "reset"] ] \/
  In cmd gpg_commands \/
  (exists service,
     In cmd [ ["systemctl"; "is-active"; service];
              ["systemctl"; "stop"; service];
              ["systemctl"; "disable"; service] ]) \/
  (exists x,
     In cmd [ ["rm"; "-rf"; x];
              ["lsof"; "-ti"; x];
              ["kill"; "-9"; x];
              ["openssl"; "x509"; "-in"; x; "-noout"; "-dates"] ]) \/
  (exists python script, cmd = [python; "-c"; script]).

(** In a run of [m], a command that is not tolerated and fails is the
    last child process, and [m] ends with [SystemExit(1)]. *)
Definition failstop {A} (m : M A) : Prop :=
  forall s (i : nat) cmd o,
    Spec.runs (Spec.out (m s)) !! i = Some (cmd, o) ->
    ~ tolerated cmd -> failed o ->
    Spec.res (m s) = Raise (SystemExit 1) /\
    S i = length (Spec.runs (Spec.out (m s))).

End Fatal.

(** * The step counter *)

Module Progress.

Import PyStr Py Installer.

(** The progress lines of a trace. *)
Definition shown (d : list event) : list string :=
  omap (fun ev => match ev with EvLog PROGRESS msg => Some msg | _ => None end) d.

(** The line of step [k] out of [t], whatever the description. *)
Definition step_line (t k : nat) (msg : string) : Prop :=
  exists description,
    msg = "Step " +:+ pretty k +:+ "/" +:+ pretty t +:+ ": " +:+ description.

(** [m] leaves the step counter alone and shows no step. *)
Definition still {A} (m : M A) : Prop :=
  forall s,
    total_steps (Spec.st (m s)) = total_steps s /\
    current_step (Spec.st (m s)) = current_step s /\
    shown (Spec.out (m s)) = [].

(** From [s], [m] shows the next steps in order, at most [n] of them,
    and all [n] when it returns; the counter follows. *)
Definition counts_at (n : nat) {A} (m : M A) (s : installer) : Prop :=
  total_steps (Spec.st (m s)) = total_steps s /\
  exists k,
    (k <= n)%nat /\
    current_step (Spec.st (m s)) = (current_step s + k)%nat /\
    Forall2 (step_line (total_steps s)) (seq (S (current_step s)) k)
      (shown (Spec.out (m s))) /\
    (forall x, Spec.res (m s) = Return x -> k = n).

Definition counts (n : nat) {A} (m : M A) : Prop := forall s, counts_at n m s.

End Progress.

(** * Proofs *)

Open Scope list_scope.

(** * Proof rules for installer methods *)

Section Rules.

Import PyStr Py Installer Spec.

Context {R : installer -> installer -> Prop} {E : exn -> Prop} {D : list event -> Prop}.
Context (G : Good R E D).

Lemma sound_ret {A} (a : A) : sound R E D (ret a).
Proof. intros s. cbn. split; [apply G|]. split; [discriminate|apply G]. Qed.

Lemma sound_raise {A} (e : exn) : E e -> sound R E D (@raise A e).
Proof.
  intros He s. cbn. split; [apply G|]. split; [|apply G].
  intros e' [= <-]. exact He.
Qed.

Lemma sound_bind {A B} (m : M A) (k : A -> M B) :
  sound R E D m -> (forall a, sound R E D (k a)) -> sound R E D (bind m k).
Proof.
  intros Hm Hk s. specialize (Hm s). unfold bind, res, st, out in *.
  destruct (m s) as [[[a|e] s1] d1]; cbn in *.
  - specialize (Hk a s1). destruct (k a s1) as [[r s2] d2]; cbn in *.
    destruct Hm as (HR & _ & HD), Hk as (HR' & HE' & HD').
    split; [eapply good_trans; eauto|]. split; [exact HE'|].
    apply (good_app _ _ _ G); assumption.
  - destruct Hm as (HR & HE & HD). split; [exact HR|]. split; [|exact HD].
    intros e' [= <-]. apply HE. reflexivity.
Qed.

Lemma sound_try_catch {A} (body : M A) (h : exn -> option (M A)) :
  sound R E D body ->
  (forall e handler, h e = Some handler -> sound R E D handler) ->
  sound R E D (try_catch body h).
Proof.
  intros Hb Hh s. specialize (Hb s). unfold try_catch, res, st, out in *.
  destruct (body s) as [[[a|e] s1] d1]; cbn in *; [exact Hb|].
  destruct (h e) as [handler|] eqn:He; cbn; [|exact Hb].
  specialize (Hh e handler He s1). destruct (handler s1) as [[r s2] d2]; cbn in *.
  destruct Hb as (HR & _ & HD), Hh as (HR' & HE' & HD').
  split; [eapply good_trans; eauto|]. split; [exact HE'|].
  apply (good_app _ _ _ G); assumption.
Qed.

Lemma sound_try_bare {A} (body handler : M A) :
  sound R E D body -> sound R E D handler -> sound R E D (try_bare body handler).
Proof.
  intros Hb Hh. apply sound_try_catch; [exact Hb|]. intros e h' [= <-]. exact Hh.
Qed.

Lemma sound_try_Exception {A} (body : M A) (handler : exn -> M A) :
  sound R E D body ->
  (forall e, is_Exception e = true -> sound R E D (handler e)) ->
  sound R E D (try_Exception body handler).
Proof.
  intros Hb Hh. apply sound_try_catch; [exact Hb|]. intros e h' He.
  destruct (is_Exception e) eqn:Hex; [|discriminate]. injection He as <-. auto.
Qed.

Lemma sound_get {A} (f : installer -> A) : sound R E D (get f).
Proof. intros s. cbn. split; [apply G|]. split; [discriminate|apply G]. Qed.

Lemma sound_modify (f : installer -> installer) :
  (forall s, R s (f s)) -> sound R E D (modify f).
Proof. intros Hf s. cbn. split; [apply Hf|]. split; [discriminate|apply G]. Qed.

Lemma sound_emit (ev : event) : D [ev] -> sound R E D (emit ev).
Proof. intros Hd s. cbn. split; [apply G|]. split; [discriminate|exact Hd]. Qed.

Lemma sound_log (message : string) (lv : level) :
  D [EvLog lv message] -> sound R E D (log message lv).
Proof. apply sound_emit. Qed.

Lemma sound_sleep (n : Z) : D [EvSleep n] -> sound R E D (sleep n).
Proof. apply sound_emit. Qed.

Lemma sound_sys_exit1 {A} : sound R E D (@sys_exit A 1).
Proof. apply sound_raise, (good_exit1 _ _ _ G). Qed.

Lemma sound_for_each {A} (l : list A) (body : A -> M unit) :
  (forall x, sound R E D (body x)) -> sound R E D (for_each l body).
Proof.
  intros Hb. induction l as [|x l IH]; cbn [for_each].
  - apply sound_ret.
  - apply sound_bind; auto.
Qed.

Lemma sound_when (b : bool) (m : M unit) : sound R E D m -> sound R E D (when b m).
Proof. intros Hm. destruct b; cbn; [exact Hm|apply sound_ret]. Qed.

Lemma sound_get_config (key : string) : sound R E D (get_config key).
Proof.
  intros s. unfold get_config, res, st, out. destruct (config s !! key); cbn.
  - split; [apply G|]. split; [discriminate|apply G].
  - split; [apply G|]. split; [|apply G]. intros e [= <-]. apply (good_exc _ _ _ G). reflexivity.
Qed.

Lemma sound_ask (W : World) {A} (q : World -> nat -> A) : sound R E D (ask W q).
Proof. intros s. cbn. split; [apply G|]. split; [discriminate|apply G]. Qed.

Lemma sound_input : sound R E D input.
Proof.
  intros s. unfold input, res, st, out. destruct (stdin s) as [|[l|] rest]; cbn.
  - split; [apply G|]. split; [|apply G]. intros e [= <-]. apply (good_exc _ _ _ G). reflexivity.
  - split; [apply G|]. split; [discriminate|apply G].
  - split; [apply G|]. split; [|apply G]. intros e [= <-]. apply (good_kbd _ _ _ G).
Qed.

Lemma read_until_raises {A} (accept : string -> option A) (inp : list input_line) e :
  fst (read_until accept inp) = Raise e -> e = EOFError \/ e = KeyboardInterrupt.
Proof.
  induction inp as [|[l|] rest IH]; cbn.
  - intros [= <-]. auto.
  - destruct (accept l); [discriminate|exact IH].
  - intros [= <-]. auto.
Qed.

Lemma sound_input_loop {A} (accept : string -> option A) : sound R E D (input_loop accept).
Proof.
  intros s. unfold input_loop, res, st, out.
  pose proof (read_until_raises accept (stdin s)) as Hr.
  destruct (read_until accept (stdin s)) as [r rest]; cbn in *.
  split; [apply G|]. split; [|apply G].
  intros e ->. destruct (Hr e eq_refl) as [-> | ->];
    [apply (good_exc _ _ _ G); reflexivity | apply (good_kbd _ _ _ G)].
Qed.

Lemma sound_pure_method {A} (f : installer -> result A) :
  (forall s e, f s = Raise e -> E e) -> sound R E D (pure_method f).
Proof.
  intros Hf s. cbn. split; [apply G|]. split; [apply Hf|apply G].
Qed.

End Rules.

(** ** Every method obeys the rules *)

Create HintDb sound.

Ltac sound_side :=
  match goal with
  | H : forall ev, ?D [ev] |- ?D [_] => apply H
  | G : Spec.Good _ ?E _ |- ?E _ =>
      first [ apply (Spec.good_exc _ _ _ G); first [reflexivity | assumption]
            | apply (Spec.good_kbd _ _ _ G)
            | apply (Spec.good_exit1 _ _ _ G) ]
  | H : forall s, ?R s (_ s) |- ?R _ _ => apply H
  | G : Spec.Good ?R _ _ |- ?R _ _ =>
      first [ apply (Spec.good_step _ _ _ G) | apply (Spec.good_bump _ _ _ G)
            | apply (Spec.good_stdin _ _ _ G) | apply (Spec.good_refl _ _ _ G) ]
  | |- Spec.unmarked _ => vm_compute; reflexivity
  | |- Spec.any_exn _ => exact I
  | |- Spec.any_state _ _ => exact I
  | |- Spec.any_events _ => exact I
  end.

Ltac sound_step G :=
  lazymatch goal with
  | |- Spec.sound _ _ _ (Installer.bind _ _) => apply (sound_bind G)
  | |- Spec.sound _ _ _ (Installer.try_Exception _ _) => apply (sound_try_Exception G)
  | |- Spec.sound _ _ _ (Installer.try_bare _ _) => apply (sound_try_bare G)
  | |- Spec.sound _ _ _ (Installer.for_each _ _) => apply (sound_for_each G)
  | |- Spec.sound _ _ _ (Installer.when _ _) => apply (sound_when G)
  | |- Spec.sound _ _ _ (Installer.ret _) => apply (sound_ret G)
  | |- Spec.sound _ _ _ (Installer.get _) => apply (sound_get G)
  | |- Spec.sound _ _ _ (Installer.get_config _) => apply (sound_get_config G)
  | |- Spec.sound _ _ _ Installer.input => apply (sound_input G)
  | |- Spec.sound _ _ _ (Installer.input_loop _) => apply (sound_input_loop G)
  | |- Spec.sound _ _ _ (Installer.ask _ _) => apply (sound_ask G)
  | |- Spec.sound _ _ _ (Installer.sys_exit 1) => apply (sound_sys_exit1 G)
  | |- Spec.sound _ _ _ (Installer.log _ _) => apply (sound_log G); sound_side
  | |- Spec.sound _ _ _ (Installer.sleep _) => apply (sound_sleep G); sound_side
  | |- Spec.sound _ _ _ (Installer.emit _) => apply (sound_emit G); sound_side
  | |- Spec.sound _ _ _ (Installer.raise _) => apply (sound_raise G); sound_side
  | |- Spec.sound _ _ _ (Installer.modify _) => apply (sound_modify G); intros; sound_side
  | |- Spec.sound _ _ _ (match ?x with _ => _ end) => destruct x
  | |- Spec.sound _ _ _ _ => solve [eauto with sound]
  end.

Ltac sound_go G := repeat (intros; cbv zeta; sound_step G).

Section Methods.

Import PyStr Py Installer Spec.

Context {R : installer -> installer -> Prop} {E : exn -> Prop} {D : list event -> Prop}.
Context (G : Good R E D) (D_ev : forall ev, D [ev]).
Variable W : World.

Lemma sound_subprocess_run cmd check : sound R E D (subprocess_run W cmd check).
Proof. unfold subprocess_run. sound_go G. Qed.
#[local] Hint Resolve sound_subprocess_run : sound.

Lemma sound_fs op : sound R E D (fs W op).
Proof. unfold fs. sound_go G. Qed.
#[local] Hint Resolve sound_fs : sound.

Lemma sound_write_file path content : sound R E D (write_file W path content).
Proof. unfold write_file. sound_go G. Qed.
#[local] Hint Resolve sound_write_file : sound.

Lemma sound_read_file path : sound R E D (read_file W path).
Proof. unfold read_file. sound_go G. Qed.
#[local] Hint Resolve sound_read_file : sound.

Lemma sound_path_exists path : sound R E D (path_exists W path).
Proof. unfold path_exists. sound_go G. Qed.
#[local] Hint Resolve sound_path_exists : sound.

Lemma sound_progress d : sound R E D (progress d).
Proof. unfold progress. sound_go G. Qed.
#[local] Hint Resolve sound_progress : sound.

Lemma sound_show_recent_log : sound R E D (show_recent_log W).
Proof. unfold show_recent_log. sound_go G. Qed.
#[local] Hint Resolve sound_show_recent_log : sound.

Lemma sound_run_command cmd d c i : sound R E D (run_command W cmd d c i).
Proof.
  unfold run_command. apply (sound_try_catch G); [sound_go G|].
  intros e h He. destruct e; simplify_eq/=; sound_go G.
Qed.
#[local] Hint Resolve sound_run_command : sound.

Lemma sound_run cmd : sound R E D (run W cmd).
Proof. apply sound_run_command. Qed.
Lemma sound_run_d cmd d : sound R E D (run_d W cmd d).
Proof. apply sound_run_command. Qed.
Lemma sound_run_ignore cmd : sound R E D (run_ignore W cmd).
Proof. apply sound_run_command. Qed.
#[local] Hint Resolve sound_run sound_run_d sound_run_ignore : sound.

Lemma sound_check_root : sound R E D (check_root W).
Proof. unfold check_root. sound_go G. Qed.

Lemma sound_check_system_requirements : sound R E D (check_system_requirements W).
Proof.
  unfold check_system_requirements. apply (sound_bind G); [sound_go G|]. intros _.
  apply (sound_bind G).
  { apply (sound_try_catch G); [sound_go G|].
    intros e h He. destruct e; simplify_eq/=; sound_go G. }
  sound_go G.
Qed.

Lemma sound_cleanup_vps : sound R E D (cleanup_vps W).
Proof. unfold cleanup_vps. sound_go G. Qed.
#[local] Hint Resolve sound_check_root sound_check_system_requirements sound_cleanup_vps : sound.

Lemma sound_pre_collection : sound R E D (pre_collection W).
Proof. unfold pre_collection. sound_go G. Qed.

Lemma sound_gpg_loop cmds : sound R E D (gpg_loop W cmds).
Proof. induction cmds; cbn [gpg_loop]; sound_go G. Qed.
#[local] Hint Resolve sound_gpg_loop : sound.

Lemma sound_mongodb_service_loop l : sound R E D (mongodb_service_loop W l).
Proof. induction l; cbn [mongodb_service_loop]; sound_go G. Qed.
#[local] Hint Resolve sound_mongodb_service_loop : sound.

Lemma sound_verify_mongodb_installation : sound R E D (verify_mongodb_installation W).
Proof. unfold verify_mongodb_installation. sound_go G. Qed.
#[local] Hint Resolve sound_verify_mongodb_installation : sound.

Lemma sound_mongodb_official : sound R E D (mongodb_official W).
Proof. unfold mongodb_official. sound_go G. Qed.
Lemma sound_mongodb_ubuntu : sound R E D (mongodb_ubuntu W).
Proof. unfold mongodb_ubuntu. sound_go G. Qed.
Lemma sound_mongodb_snap : sound R E D (mongodb_snap W).
Proof. unfold mongodb_snap. sound_go G. Qed.
#[local] Hint Resolve sound_mongodb_official sound_mongodb_ubuntu sound_mongodb_snap : sound.

Lemma sound_install_mongodb : sound R E D (install_mongodb W).
Proof. unfold install_mongodb. sound_go G. Qed.
#[local] Hint Resolve sound_install_mongodb : sound.

Lemma sound_node_major v : sound R E D (node_major v).
Proof. unfold node_major. sound_go G. Qed.
#[local] Hint Resolve sound_node_major : sound.

Lemma sound_install_system_dependencies : sound R E D (install_system_dependencies W).
Proof. unfold install_system_dependencies. sound_go G. Qed.

Lemma sound_generate_secret_key : sound R E D (generate_secret_key W).
Proof. unfold generate_secret_key. sound_go G. Qed.
#[local] Hint Resolve sound_generate_secret_key : sound.

Lemma sound_create_backend_config : sound R E D (create_backend_config W).
Proof. unfold create_backend_config. sound_go G. Qed.

Lemma sound_frontend_backend_url : sound R E D frontend_backend_url.
Proof. unfold frontend_backend_url. sound_go G. Qed.
#[local] Hint Resolve sound_create_backend_config sound_frontend_backend_url : sound.

Lemma sound_create_frontend_config : sound R E D (create_frontend_config W).
Proof. unfold create_frontend_config. sound_go G. Qed.
#[local] Hint Resolve sound_create_frontend_config : sound.

Lemma sound_setup_backend : sound R E D (setup_backend W).
Proof. unfold setup_backend. sound_go G. Qed.
Lemma sound_setup_frontend : sound R E D (setup_frontend W).
Proof. unfold setup_frontend. sound_go G. Qed.
#[local] Hint Resolve sound_setup_backend sound_setup_frontend : sound.

Lemma sound_setup_application : sound R E D (setup_application W).
Proof. unfold setup_application. sound_go G. Qed.

Lemma generate_nginx_config_raises s e :
  generate_nginx_config s = Raise e -> exists k, e = KeyError k.
Proof.
  unfold generate_nginx_config.
  destruct (config s !! "domain"); [|intros [= <-]; eauto].
  destruct (config s !! "enable_ssl"); [discriminate|intros [= <-]; eauto].
Qed.

Lemma generate_apache_config_raises s e :
  generate_apache_config s = Raise e -> exists k, e = KeyError k.
Proof.
  unfold generate_apache_config.
  destruct (config s !! "domain"); [|intros [= <-]; eauto].
  destruct (config s !! "enable_ssl"); [discriminate|intros [= <-]; eauto].
Qed.

Lemma sound_configure_nginx : sound R E D (configure_nginx W).
Proof.
  unfold configure_nginx. apply (sound_bind G); [|sound_go G].
  apply (sound_pure_method G). intros s e [k ->]%generate_nginx_config_raises.
  apply (good_exc _ _ _ G). reflexivity.
Qed.

Lemma sound_configure_apache : sound R E D (configure_apache W).
Proof.
  unfold configure_apache. apply (sound_bind G); [sound_go G|]. intros _.
  apply (sound_bind G); [|sound_go G].
  apply (sound_pure_method G). intros s e [k ->]%generate_apache_config_raises.
  apply (good_exc _ _ _ G). reflexivity.
Qed.
#[local] Hint Resolve sound_configure_nginx sound_configure_apache : sound.

Lemma sound_configure_web_server : sound R E D (configure_web_server W).
Proof. unfold configure_web_server. sound_go G. Qed.

Lemma sound_verify_domain_dns : sound R E D (verify_domain_dns W).
Proof. unfold verify_domain_dns. sound_go G. Qed.
Lemma sound_verify_ssl_certificate : sound R E D (verify_ssl_certificate W).
Proof. unfold verify_ssl_certificate. sound_go G. Qed.
Lemma sound_setup_ssl_renewal : sound R E D (setup_ssl_renewal W).
Proof. unfold setup_ssl_renewal. sound_go G. Qed.
#[local] Hint Resolve sound_verify_domain_dns sound_verify_ssl_certificate
  sound_setup_ssl_renewal : sound.

(** [setup_ssl] is the one method after the collection that assigns to the
    configuration: it needs [R] to allow the downgrade. *)
Lemma sound_setup_ssl :
  (forall s, R s (with_config (insert "enable_ssl" (VBool false)) s)) ->
  sound R E D (setup_ssl W).
Proof. intros Hdrop. unfold setup_ssl, set_config. sound_go G. Qed.

Lemma sound_create_systemd_service : sound R E D (create_systemd_service W).
Proof. unfold create_systemd_service. sound_go G. Qed.
Lemma sound_create_management_tools : sound R E D (create_management_tools W).
Proof. unfold create_management_tools. sound_go G. Qed.
Lemma sound_setup_firewall : sound R E D (setup_firewall W).
Proof. unfold setup_firewall. sound_go G. Qed.
Lemma sound_verify_installation : sound R E D (verify_installation W).
Proof. unfold verify_installation. sound_go G. Qed.
Lemma sound_test_service_health : sound R E D (test_service_health W).
Proof. unfold test_service_health. sound_go G. Qed.
#[local] Hint Resolve sound_test_service_health : sound.
Lemma sound_finalize_installation : sound R E D (finalize_installation W).
Proof. unfold finalize_installation. sound_go G. Qed.
Lemma sound_show_installation_summary : sound R E D show_installation_summary.
Proof. unfold show_installation_summary. sound_go G. Qed.
#[local] Hint Resolve sound_install_system_dependencies sound_setup_application
  sound_configure_web_server sound_setup_ssl sound_create_systemd_service
  sound_create_management_tools sound_setup_firewall sound_verify_installation
  sound_finalize_installation sound_show_installation_summary : sound.

Lemma sound_seq_steps l :
  Forall (sound R E D) l -> sound R E D (seq_steps l).
Proof.
  induction 1 as [|m l Hm _ IH]; cbn [seq_steps].
  - apply (sound_ret G).
  - apply (sound_bind G); auto.
Qed.

Lemma sound_post_steps :
  (forall s, R s (with_config (insert "enable_ssl" (VBool false)) s)) ->
  Forall (sound R E D) (post_steps W).
Proof.
  intros Hdrop. unfold post_steps.
  repeat (apply Forall_cons_2; [sound_go G|]). apply Forall_nil_2.
Qed.

Lemma sound_post_collection :
  (forall s, R s (with_config (insert "enable_ssl" (VBool false)) s)) ->
  sound R E D (post_collection W).
Proof. intros Hdrop. unfold post_collection. sound_go G. Qed.

End Methods.

#[global] Hint Resolve sound_subprocess_run sound_fs sound_write_file sound_read_file
  sound_path_exists sound_progress sound_show_recent_log sound_run_command sound_run
  sound_run_d sound_run_ignore sound_check_root sound_check_system_requirements
  sound_cleanup_vps sound_pre_collection sound_gpg_loop sound_mongodb_service_loop
  sound_verify_mongodb_installation sound_mongodb_official sound_mongodb_ubuntu
  sound_mongodb_snap sound_install_mongodb sound_node_major
  sound_install_system_dependencies sound_generate_secret_key
  sound_create_backend_config sound_frontend_backend_url sound_create_frontend_config
  sound_setup_backend sound_setup_frontend sound_setup_application
  sound_configure_nginx sound_configure_apache sound_configure_web_server
  sound_verify_domain_dns sound_verify_ssl_certificate sound_setup_ssl_renewal
  sound_setup_ssl sound_create_systemd_service sound_create_management_tools
  sound_setup_firewall sound_verify_installation sound_test_service_health
  sound_finalize_installation sound_show_installation_summary : sound.

Lemma sound_frame {R E D A} (m : Installer.M A) :
  Spec.sound R E D m -> forall s, R s (Spec.st (m s)).
Proof. intros H s. apply H. Qed.

Lemma sound_raises {R E D A} (m : Installer.M A) :
  Spec.sound R E D m -> forall s e, Spec.res (m s) = Py.Raise e -> E e.
Proof. intros H s. apply H. Qed.

Lemma sound_events {R E D A} (m : Installer.M A) :
  Spec.sound R E D m -> forall s, D (Spec.out (m s)).
Proof. intros H s. apply H. Qed.

Section C1.
Import PyStr Py Installer Spec.

Lemma good_same_settings : Good same_settings any_exn any_events.
Proof.
  split; try (intros; exact I); unfold same_settings.
  - intros s; split; reflexivity.
  - intros s1 s2 s3 [H1 H2] [H3 H4]. split; congruence.
  - intros s; split; reflexivity.
  - intros s l; split; reflexivity.
  - intros s n; split; reflexivity.
Qed.

Lemma good_ssl_may_drop : Good ssl_may_drop any_exn any_events.
Proof.
  split; try (intros; exact I); unfold ssl_may_drop.
  - intros s; split; [reflexivity|left; reflexivity].
  - intros s1 s2 s3 [H1 H2] [H3 H4]. split; [congruence|].
    destruct H2 as [H2|H2], H4 as [H4|H4]; rewrite H4, H2; auto.
    right. apply insert_insert_eq.
  - intros s; split; [reflexivity|left; reflexivity].
  - intros s l; split; [reflexivity|left; reflexivity].
  - intros s n; split; [reflexivity|left; reflexivity].
Qed.

Lemma any_ev : forall ev : event, any_events [ev].
Proof. intros; exact I. Qed.

#[local] Hint Resolve good_same_settings good_ssl_may_drop any_ev : sound.

Lemma ssl_may_drop_downgrade s :
  ssl_may_drop s (with_config (insert "enable_ssl" (VBool false)) s).
Proof. split; [reflexivity|right; reflexivity]. Qed.

Lemma config_inv_ssl_may_drop s s' :
  ssl_may_drop s s' -> config_inv (config s) -> config_inv (config s').
Proof.
  intros [_ [-> | ->]] Hinv; [exact Hinv|].
  destruct Hinv as [H1 H2]. split.
  - unfold enable_ssl_on. rewrite lookup_insert_eq. discriminate.
  - intros _. apply lookup_insert_eq.
Qed.

(** Symbolic execution of a method. *)
Ltac exec_step :=
  match goal with
  | H : context [match ?x with _ => _ end] |- _ =>
      lazymatch x with
      | context [match _ with _ => _ end] => fail
      | _ => destruct x eqn:?
      end
  | |- context [match ?x with _ => _ end] =>
      lazymatch x with
      | context [match _ with _ => _ end] => fail
      | _ => destruct x eqn:?
      end
  end.

Lemma read_until_accepts {A} (accept : string -> option A) inp a rest :
  read_until accept inp = (Return a, rest) -> exists l, accept l = Some a.
Proof.
  induction inp as [|[l|] inp IH]; cbn; [discriminate| |discriminate].
  destruct (accept l) eqn:Hl; [|exact IH]. intros [= <- <-]. eauto.
Qed.

Lemma accept_email_ok l e :
  accept_email l = Some e -> e <> "" /\ contains "@" e = true.
Proof.
  unfold accept_email. destruct (nonempty (strip l)) eqn:Hn; [|discriminate].
  destruct (contains "@" (strip l)) eqn:Hc; [|discriminate]. cbn. intros [= <-].
  split; [|exact Hc]. intros Heq. rewrite Heq in Hn. discriminate.
Qed.

Lemma collect_configuration_strict W s :
  config s !! "ssl_email" = None ->
  res (collect_configuration W s) = Return tt ->
  config_inv_strict (config (st (collect_configuration W s))).
Proof.
  intros Hnone.
  unfold collect_configuration, show_configuration_summary, input_loop, input,
    set_config, get_config, modify, log, emit, sys_exit, raise, bind, ret, res, st.
  repeat (cbn -[read_until lower strip accept_domain accept_email accept_choice mem_str web_servers String.eqb] in *;
          try exec_step; try discriminate).
  all: try (intros; discriminate).
  all: intros _.
  all: unfold config_inv_strict, config_inv, enable_ssl_on, ssl_email_ok.
  all: try match goal with
           | H : read_until accept_email _ = (Return ?a, _) |- _ =>
               destruct (read_until_accepts _ _ _ _ H) as [? [? ?]%accept_email_ok]
           end.
  all: simplify_map_eq.
  all: repeat match goal with
         | H : negb ?b = true |- _ => apply negb_true_iff in H
         | H : negb ?b = false |- _ => apply negb_false_iff in H
         end.
  all: repeat match goal with H : ?b = _ |- context [?b] => rewrite H end.
  all: cbn [negb].
  all: unfold is_Some; repeat split; intros; try discriminate; try done; eauto.
  all: try match goal with H : exists _, None = Some _ |- _ => destruct H; discriminate end.
  all: congruence.
Qed.

Lemma bind_assoc {A B C} (m : M A) (k : A -> M B) (k' : B -> M C) s :
  bind (bind m k) k' s = bind m (fun a => bind (k a) k') s.
Proof.
  unfold bind. destruct (m s) as [[[a|e] s1] d1]; [|reflexivity].
  destruct (k a s1) as [[[b|e] s2] d2]; [|reflexivity].
  destruct (k' b s2) as [[r s3] d3]. by rewrite app_assoc.
Qed.

Lemma bind_ret_tt (m : M unit) s : bind m (fun _ => ret tt) s = m s.
Proof.
  unfold bind, ret. destruct (m s) as [[[[]|e] s1] d1]; [|reflexivity].
  by rewrite app_nil_r.
Qed.

Lemma bind_ext {A B} (m : M A) (k k' : A -> M B) s :
  (forall a s', k a s' = k' a s') -> bind m k s = bind m k' s.
Proof.
  intros Hk. unfold bind. destruct (m s) as [[[a|e] s1] d1]; [|reflexivity].
  by rewrite Hk.
Qed.

Lemma post_collection_steps W s :
  post_collection W s = seq_steps (post_steps W) s.
Proof.
  unfold post_collection, post_steps. cbn [seq_steps].
  repeat (first [ rewrite bind_ret_tt | rewrite bind_assoc | done
                | apply bind_ext; intros ]).
Qed.

Lemma seq_steps_take_frame W k s :
  ssl_may_drop s (st (seq_steps (take k (post_steps W)) s)).
Proof.
  apply (sound_seq_steps good_ssl_may_drop).
  apply Forall_take, (sound_post_steps good_ssl_may_drop any_ev).
  apply ssl_may_drop_downgrade.
Qed.

End C1.

(** C1 (amended).  When [collect_configuration] returns, [ssl_email] is set
    exactly when [enable_ssl] is true, [enable_ssl] true comes with a
    non-empty [ssl_email] containing [@], and [is_ip] true comes with
    [enable_ssl] false.  After any number of the later steps the last two
    facts still hold (the first one can be lost: see
    [ssl_email_outlives_enable_ssl]). *)
Theorem config_invariant_after_collection (W : Installer.World) (s : Installer.installer) :
  Installer.config s !! "ssl_email" = None ->
  Spec.res (Installer.collect_configuration W s) = Py.Return tt ->
  Spec.config_inv_strict
    (Installer.config (Spec.st (Installer.collect_configuration W s))) /\
  forall k,
    Spec.config_inv
      (Installer.config
         (Spec.st (Spec.seq_steps (take k (Spec.post_steps W))
                     (Spec.st (Installer.collect_configuration W s))))).
Proof.
  intros Hnone Hret.
  pose proof (collect_configuration_strict W s Hnone Hret) as Hstrict.
  split; [exact Hstrict|]. intros k.
  eapply config_inv_ssl_may_drop; [apply seq_steps_take_frame|apply Hstrict].
Qed.

Lemma config_invariant_after_collection_witness :
  Installer.config (Installer.init (Scenario.answers "y")) !! "ssl_email" = None /\
  Spec.res (Installer.collect_configuration Scenario.happy (Installer.init (Scenario.answers "y")))
    = Py.Return tt /\
  (Spec.config_inv_strict
     (Installer.config
        (Spec.st (Installer.collect_configuration Scenario.happy
                    (Installer.init (Scenario.answers "y"))))) /\
   forall k,
     Spec.config_inv
       (Installer.config
          (Spec.st (Spec.seq_steps (take k (Spec.post_steps Scenario.happy))
                      (Spec.st (Installer.collect_configuration Scenario.happy
                                  (Installer.init (Scenario.answers "y")))))))).
Proof.
  split; [reflexivity|]. split; [vm_compute; reflexivity|].
  apply config_invariant_after_collection; [reflexivity|vm_compute; reflexivity].
Defined.

(** C1, as stated, fails: when starting [certbot] raises an exception,
    [setup_ssl] sets [enable_ssl] to false and leaves [ssl_email] in
    place; the run goes on to the end with that configuration. *)
Lemma ssl_email_outlives_enable_ssl :
  let final := Installer.main Scenario.cert_denied (Scenario.answers "y") in
  Spec.res final = Py.Return tt /\
  Installer.config (Spec.st final) !! "enable_ssl" = Some (Installer.VBool false) /\
  Installer.config (Spec.st final) !! "ssl_email" = Some (Installer.VStr "admin@example.com") /\
  ~ Spec.config_inv_strict (Installer.config (Spec.st final)).
Proof.
  assert (Hssl : Installer.config (Spec.st (Installer.main Scenario.cert_denied (Scenario.answers "y")))
                   !! "enable_ssl" = Some (Installer.VBool false)) by (vm_compute; reflexivity).
  assert (Hmail : Installer.config (Spec.st (Installer.main Scenario.cert_denied (Scenario.answers "y")))
                   !! "ssl_email" = Some (Installer.VStr "admin@example.com")) by (vm_compute; reflexivity).
  cbv zeta. split; [vm_compute; reflexivity|]. split; [exact Hssl|]. split; [exact Hmail|].
  intros [[_ Hback] _]. unfold Spec.enable_ssl_on in Hback.
  rewrite Hssl, Hmail in Hback. specialize (Hback (mk_is_Some _ _ eq_refl)). discriminate.
Qed.

(** C7 (amended).  After the collection, no step changes the installation
    directory or any entry of the configuration other than [enable_ssl],
    and [enable_ssl] is either left alone or set to false; every step but
    the SSL step (the fourth) leaves the whole configuration alone. *)
Theorem configuration_frame_after_collection (W : Installer.World) :
  (forall k s,
     Spec.ssl_may_drop s (Spec.st (Spec.seq_steps (take k (Spec.post_steps W)) s))) /\
  (forall s, Installer.post_collection W s = Spec.seq_steps (Spec.post_steps W) s) /\
  (forall i step s,
     Spec.post_steps W !! i = Some step -> i <> 3%nat ->
     Spec.same_settings s (Spec.st (step s))).
Proof.
  split; [intros k s; apply seq_steps_take_frame|].
  split; [apply post_collection_steps|].
  intros i step s Hi Hne. revert s.
  apply (sound_frame (E := Spec.any_exn) (D := Spec.any_events)).
  pose proof good_same_settings as G. pose proof any_ev as Hev.
  do 10 (destruct i as [|i]; [cbn in Hi; simplify_eq; try congruence; sound_go G|]).
  cbn in Hi. discriminate.
Qed.

(** C7, as stated, fails: on the host where [certbot] cannot be started,
    the steps after the collection change [enable_ssl] from true to
    false. *)
Lemma post_collection_changes_enable_ssl :
  Installer.config Scenario.collected !! "enable_ssl" = Some (Installer.VBool true) /\
  Installer.config (Spec.st (Installer.post_collection Scenario.cert_denied Scenario.collected))
    !! "enable_ssl" = Some (Installer.VBool false) /\
  Installer.config (Spec.st (Installer.post_collection Scenario.cert_denied Scenario.collected))
    <> Installer.config Scenario.collected.
Proof.
  assert (H1 : Installer.config Scenario.collected !! "enable_ssl" = Some (Installer.VBool true))
    by (vm_compute; reflexivity).
  assert (H2 : Installer.config (Spec.st (Installer.post_collection Scenario.cert_denied Scenario.collected))
                 !! "enable_ssl" = Some (Installer.VBool false)) by (vm_compute; reflexivity).
  split; [exact H1|]. split; [exact H2|].
  intros Heq. rewrite Heq, H1 in H2. discriminate.
Qed.

(** * The command executor *)

Section Executor.

Import PyStr Py Installer Spec.

Variable W : World.

(** What [run_command] does, by outcome of the child process. *)
Lemma run_command_eq cmd d c i s :
  run_command W cmd d c i s =
  let pre := if nonempty d then [EvLog INFO d] else [] in
  let o := w_subprocess W (tick s) cmd in
  let lv := if negb i then ERROR else WARNING in
  match o with
  | Exited rc stdout =>
      if rc =? 0 then (Return (if c then stdout else ""), bump s, pre ++ [EvRun cmd o])
      else
        let error_msg := if nonempty d then d +:+ " failed"
                         else "Command failed: " +:+ join " " cmd in
        let failed := [EvRun cmd o; EvLog lv error_msg; EvLog lv ("Exit code: " +:+ pretty rc)] in
        if i then
          (Return "", bump s,
           pre ++ failed ++ [EvLog WARNING "Continuing despite error (ignore_errors=True)"])
        else
          (Raise (SystemExit 1), bump (bump s),
           pre ++ failed ++
           match w_read W (S (tick s)) (log_file s) with
           | Content text => [EvRecentLog (map rstrip (last_n 10 (readlines text)))]
           | _ => []
           end)
  | NotFound =>
      (if i then Return "" else Raise (SystemExit 1), bump s,
       pre ++ [EvRun cmd o; EvLog lv ("Command not found: " +:+ hd "" cmd)])
  | OtherOSError m => (Raise (OSError m), bump s, pre ++ [EvRun cmd o])
  | Interrupted => (Raise KeyboardInterrupt, bump s, pre ++ [EvRun cmd o])
  end.
Proof.
  unfold run_command, try_catch, subprocess_run, show_recent_log, when, log, emit, ask,
    get, sys_exit, raise, bind, ret.
  cbv zeta. destruct (nonempty d); cbn;
    (destruct (w_subprocess W (tick s) cmd) as [rc stdout| |m|]; cbn;
     [ destruct (rc =? 0); cbn;
       [ reflexivity
       | destruct i; cbn;
         [ reflexivity | destruct (w_read W (S (tick s)) (log_file s)); reflexivity ] ]
     | destruct i; reflexivity
     | reflexivity
     | reflexivity ]).
Qed.

Lemma runs_app d1 d2 : runs (d1 ++ d2) = runs d1 ++ runs d2.
Proof. apply omap_app. Qed.

Lemma marks_app d1 d2 : marks (d1 ++ d2) = marks d1 ++ marks d2.
Proof. apply omap_app. Qed.

Lemma run_runs cmd s :
  runs (out (run W cmd s)) = [(cmd, w_subprocess W (tick s) cmd)].
Proof.
  unfold run. rewrite run_command_eq. cbn.
  destruct (w_subprocess W (tick s) cmd) as [rc stdout| |m|]; cbn; try reflexivity.
  destruct (rc =? 0); cbn; [reflexivity|].
  destruct (w_read W (S (tick s)) (log_file s)); reflexivity.
Qed.

Lemma run_returns cmd s :
  succeeded (w_subprocess W (tick s) cmd) = true -> res (run W cmd s) = Return "".
Proof.
  unfold run. rewrite run_command_eq. cbn.
  destruct (w_subprocess W (tick s) cmd) as [rc stdout| |m|]; cbn; try discriminate.
  intros ->. reflexivity.
Qed.

Lemma run_raises cmd s :
  succeeded (w_subprocess W (tick s) cmd) = false -> exists e, res (run W cmd s) = Raise e.
Proof.
  unfold run. rewrite run_command_eq. cbn.
  destruct (w_subprocess W (tick s) cmd) as [rc stdout| |m|]; cbn; eauto.
  intros ->. cbn. eauto.
Qed.

(** The GPG chain: the commands run are an initial segment of the list;
    the loop reports success exactly when the last command run succeeded,
    and every command run before the last one failed; it reports failure
    only when every command of the list was run and failed. *)
Lemma gpg_loop_chain cmds s :
  exists b, res (gpg_loop W cmds s) = Return b /\
    let rs := runs (out (gpg_loop W cmds s)) in
    (b = true ->
       exists pre last, rs = pre ++ [last] /\ succeeded last.2 = true /\
         Forall (fun r => succeeded r.2 = false) pre /\ rs.*1 `prefix_of` cmds) /\
    (b = false -> rs.*1 = cmds /\ Forall (fun r => succeeded r.2 = false) rs).
Proof.
  revert s. induction cmds as [|cmd rest IH]; intros s.
  - exists false. cbn. split; [reflexivity|]. split; [discriminate|]. intros _. split; constructor.
  - cbn [gpg_loop]. unfold try_bare, try_catch, bind.
    pose proof (run_runs cmd s) as Hruns.
    destruct (succeeded (w_subprocess W (tick s) cmd)) eqn:Hok.
    + pose proof (run_returns cmd s Hok) as Hret.
      destruct (run W cmd s) as [[r s1] d1]; unfold res, out in *; cbn [fst snd] in *.
      subst r. cbn [ret].
      exists true. split; [reflexivity|]. rewrite app_nil_r. split; [|discriminate]. intros _.
      exists [], (cmd, w_subprocess W (tick s) cmd). cbn [fst snd]. rewrite Hruns. cbn.
      split; [reflexivity|]. split; [exact Hok|]. split; [constructor|].
      exists rest. reflexivity.
    + destruct (run_raises cmd s Hok) as [e Hraise].
      destruct (run W cmd s) as [[r s1] d1]; unfold res, out in *; cbn [fst snd] in *.
      subst r.
      destruct (IH s1) as (b & Hb & Htrue & Hfalse).
      destruct (gpg_loop W rest s1) as [[r2 s2] d2]; cbn [fst snd] in *. subst r2.
      exists b. split; [reflexivity|]. cbn [fst snd]. rewrite runs_app, Hruns.
      cbn [app fmap list_fmap fst]. split.
      * intros Hbt. destruct (Htrue Hbt) as (pre & last & -> & Hlast & Hpre & Hpfx).
        exists ((cmd, w_subprocess W (tick s) cmd) :: pre), last.
        split; [reflexivity|]. split; [exact Hlast|]. split; [constructor; assumption|].
        cbn. apply prefix_cons. exact Hpfx.
      * intros Hbf. destruct (Hfalse Hbf) as [Hall Hfail]. split; [by rewrite Hall|].
        constructor; assumption.
Qed.

End Executor.

(** C3: on a missing binary without [ignore_errors], [run_command] logs
    the error and exits with status 1, but it does not show the recent
    log entries, which the branch for a non-zero exit status does. *)
Theorem run_command_not_found_shows_no_log (W : Installer.World) (s : Installer.installer)
    (cmd : list string) (description : string) (capture_output : bool) :
  Installer.w_subprocess W (Installer.tick s) cmd = Installer.NotFound ->
  let a := Installer.run_command W cmd description capture_output false s in
  Spec.res a = Py.Raise (Py.SystemExit 1) /\
  In (Installer.ERROR, "Command not found: " +:+ hd "" cmd) (Spec.log_entries (Spec.out a)) /\
  Spec.recent_log_dumps (Spec.out a) = [].
Proof.
  intros Hnf a. subst a. rewrite run_command_eq, Hnf. cbn.
  split; [reflexivity|]. destruct (PyStr.nonempty description); cbn; auto.
Qed.

Lemma run_command_not_found_shows_no_log_witness :
  Installer.w_subprocess Scenario.bare (Installer.tick (Installer.init []))
    ["apt-get"; "update"] = Installer.NotFound /\
  (let a := Installer.run_command Scenario.bare ["apt-get"; "update"]
              "Updating package list" false false (Installer.init []) in
   Spec.res a = Py.Raise (Py.SystemExit 1) /\
   In (Installer.ERROR, "Command not found: " +:+ hd "" ["apt-get"; "update"])
      (Spec.log_entries (Spec.out a)) /\
   Spec.recent_log_dumps (Spec.out a) = []).
Proof.
  split; [reflexivity|].
  apply (run_command_not_found_shows_no_log Scenario.bare (Installer.init [])). reflexivity.
Defined.

(** The rest of the failure policy of [run_command], which holds as the
    executor's contract words it. *)
Lemma run_command_failure_policy (W : Installer.World) (s : Installer.installer)
    (cmd : list string) (description : string) (capture_output : bool) :
  let o := Installer.w_subprocess W (Installer.tick s) cmd in
  (Spec.succeeded o = false -> o <> Installer.Interrupted ->
   (forall m, o <> Installer.OtherOSError m) ->
   let a := Installer.run_command W cmd description capture_output true s in
   Spec.res a = Py.Return "" /\
   (exists msg, In (Installer.WARNING, msg) (Spec.log_entries (Spec.out a))) /\
   Forall (fun e => e.1 = Installer.WARNING \/ e = (Installer.INFO, description))
     (Spec.log_entries (Spec.out a))) /\
  (forall rc stdout text,
     o = Installer.Exited rc stdout -> rc <> 0 ->
     Installer.w_read W (S (Installer.tick s)) (Installer.log_file s) = Installer.Content text ->
     let a := Installer.run_command W cmd description capture_output false s in
     Spec.res a = Py.Raise (Py.SystemExit 1) /\
     In (Installer.ERROR, "Exit code: " +:+ pretty rc) (Spec.log_entries (Spec.out a)) /\
     Spec.recent_log_dumps (Spec.out a) =
       [map PyStr.rstrip (PyStr.last_n 10 (PyStr.readlines text))]).
Proof.
  cbv zeta. split.
  - intros Hfail Hint Hos. rewrite run_command_eq. cbv zeta.
    destruct (Installer.w_subprocess W (Installer.tick s) cmd) as [rc stdout| |m|];
      [| | destruct (Hos m eq_refl) | destruct (Hint eq_refl)].
    + cbn in Hfail. rewrite Hfail. cbn.
      destruct (PyStr.nonempty description); cbn; (split; [reflexivity|]);
        (split; [eexists; cbn; auto 10|]);
        repeat (apply Forall_cons_2; [cbn; auto|]); apply Forall_nil_2.
    + cbn. destruct (PyStr.nonempty description); cbn; (split; [reflexivity|]);
        (split; [eexists; cbn; auto 10|]);
        repeat (apply Forall_cons_2; [cbn; auto|]); apply Forall_nil_2.
  - intros rc stdout text Ho Hrc Hread. rewrite run_command_eq, Ho. cbv zeta.
    destruct (rc =? 0) eqn:Hz; [apply Z.eqb_eq in Hz; contradiction|]. rewrite Hread.
    rewrite Hz. cbn.
    split; [reflexivity|]. destruct (PyStr.nonempty description); cbn; auto 6.
Qed.

(** * The MongoDB fallback chain *)

Section Mongo.

Import PyStr Py Installer Spec.

Variable W : World.

Lemma good_quiet : Good any_state any_exn unmarked.
Proof.
  split; try (intros; exact I).
  - reflexivity.
  - unfold unmarked. intros d1 d2 H1 H2. by rewrite marks_app, H1, H2.
Qed.

Lemma sound_quiet {A} (m : M A) : sound any_state any_exn unmarked m <-> quiet m.
Proof.
  split.
  - intros H s. apply H.
  - intros H s. split; [exact I|]. split; [intros; exact I|apply H].
Qed.

Lemma quiet_run_command cmd d c i :
  marks [EvLog INFO d] = [] ->
  marks [EvLog ERROR (d +:+ " failed")] = [] ->
  marks [EvLog WARNING (d +:+ " failed")] = [] ->
  sound any_state any_exn unmarked (run_command W cmd d c i).
Proof.
  intros H1 H2 H3. apply sound_quiet. intros s. rewrite run_command_eq. cbv zeta.
  assert (Hpre : marks (if nonempty d then [EvLog INFO d] else []) = []).
  { destruct (nonempty d); [exact H1|reflexivity]. }
  destruct (w_subprocess W (tick s) cmd) as [rc stdout| |m|]; cbn [out snd].
  - destruct (rc =? 0); cbn [out snd]; [rewrite marks_app, Hpre; reflexivity|].
    destruct i; cbn [out snd negb]; rewrite !marks_app, Hpre.
    + destruct (nonempty d) eqn:Hd.
      * change (marks [EvRun cmd (Exited rc stdout); EvLog WARNING (d +:+ " failed");
                       EvLog WARNING ("Exit code: " +:+ pretty rc)])
          with (marks [EvLog WARNING (d +:+ " failed")]).
        rewrite H3. reflexivity.
      * reflexivity.
    + destruct (nonempty d) eqn:Hd.
      * change (marks [EvRun cmd (Exited rc stdout); EvLog ERROR (d +:+ " failed");
                       EvLog ERROR ("Exit code: " +:+ pretty rc)])
          with (marks [EvLog ERROR (d +:+ " failed")]).
        rewrite H2. destruct (w_read W (S (tick s)) (log_file s)); reflexivity.
      * destruct (w_read W (S (tick s)) (log_file s)); reflexivity.
  - rewrite marks_app, Hpre. destruct i; reflexivity.
  - rewrite marks_app, Hpre. reflexivity.
  - rewrite marks_app, Hpre. reflexivity.
Qed.

Lemma quiet_run cmd : sound any_state any_exn unmarked (run W cmd).
Proof. apply quiet_run_command; reflexivity. Qed.


#[local] Hint Resolve good_quiet quiet_run : sound.

Lemma quiet_subprocess_run cmd check :
  sound any_state any_exn unmarked (subprocess_run W cmd check).
Proof. pose proof good_quiet as G. unfold subprocess_run. sound_go G. Qed.

Lemma quiet_fs op : sound any_state any_exn unmarked (fs W op).
Proof. pose proof good_quiet as G. unfold fs. sound_go G. Qed.

Lemma quiet_gpg_loop cmds : sound any_state any_exn unmarked (gpg_loop W cmds).
Proof. pose proof good_quiet as G. induction cmds; cbn [gpg_loop]; sound_go G. Qed.

#[local] Hint Resolve quiet_subprocess_run quiet_fs quiet_gpg_loop : sound.

Lemma quiet_mongodb_service_loop l :
  sound any_state any_exn unmarked (mongodb_service_loop W l).
Proof.
  pose proof good_quiet as G. induction l; cbn [mongodb_service_loop]; sound_go G.
Qed.
#[local] Hint Resolve quiet_mongodb_service_loop : sound.

Lemma quiet_verify_mongodb_installation :
  sound any_state any_exn unmarked (verify_mongodb_installation W).
Proof. pose proof good_quiet as G. unfold verify_mongodb_installation. sound_go G. Qed.

Lemma ends_bind mk {A B} (m : M A) (k : A -> M B) :
  sound any_state any_exn unmarked m ->
  (forall a, ends_with_mark mk (k a)) -> ends_with_mark mk (bind m k).
Proof.
  intros Hm Hk s. apply sound_quiet in Hm. specialize (Hm s).
  unfold bind, res, out in *. destruct (m s) as [[[a|e] s1] d1]; cbn [fst snd] in *.
  - specialize (Hk a s1). unfold res, out in Hk.
    destruct (k a s1) as [[r s2] d2]; cbn [fst snd] in *.
    rewrite marks_app, Hm. exact Hk.
  - right. eauto.
Qed.

Lemma marks_single ev :
  marks [ev] = match mark_of ev with Some mk => [mk] | None => [] end.
Proof. reflexivity. Qed.

Lemma ends_log mk msg lv : mark_of (EvLog lv msg) = Some mk -> ends_with_mark mk (log msg lv).
Proof.
  intros H s. left. exists tt. split; [reflexivity|].
  unfold log, emit, out. cbn [snd]. by rewrite marks_single, H.
Qed.

Lemma attempt_bind i msg (rest : M unit) s :
  mark_of (EvLog INFO msg) = Some (Attempt i) ->
  ends_with_mark (Succeeded i) rest ->
  attempt_course i (bind (log msg INFO) (fun _ => rest) s).
Proof.
  intros Hmsg Hrest. specialize (Hrest s). unfold attempt_course, bind, log, emit, res, out in *.
  cbn [fst snd]. destruct (rest s) as [[r s1] d1]; cbn [fst snd] in *.
  assert (Hm : marks [EvLog INFO msg] = [Attempt i]) by (by rewrite marks_single, Hmsg).
  destruct Hrest as [(a & -> & Hd)|(e & -> & Hd)].
  - left. exists a. split; [reflexivity|]. rewrite marks_app, Hm, Hd. reflexivity.
  - right. exists e. split; [reflexivity|]. rewrite marks_app, Hm, Hd. reflexivity.
Qed.

Ltac ends_go G :=
  repeat (first [ apply ends_log; reflexivity
                | apply ends_bind; [sound_go G | intros] ]).

Lemma mongodb_official_course s : attempt_course 1 (mongodb_official W s).
Proof.
  pose proof good_quiet as G. unfold mongodb_official.
  apply attempt_bind; [reflexivity|]. ends_go G.
  all: apply quiet_run_command; reflexivity.
Qed.

Lemma mongodb_ubuntu_course s : attempt_course 2 (mongodb_ubuntu W s).
Proof.
  pose proof good_quiet as G. unfold mongodb_ubuntu.
  apply attempt_bind; [reflexivity|]. ends_go G.
  all: apply quiet_run_command; reflexivity.
Qed.

Lemma mongodb_snap_course s : attempt_course 3 (mongodb_snap W s).
Proof.
  pose proof good_quiet as G. unfold mongodb_snap.
  apply attempt_bind; [reflexivity|]. ends_go G.
  all: apply quiet_run_command; reflexivity.
Qed.


(** A method under its [try]/[except Exception]: it succeeds, or its
    failure is logged and the next method is due, or an exception that is
    not an [Exception] ends the chain. *)
Lemma guarded_course i (m : M unit) msg s :
  attempt_course i (m s) ->
  (forall e, mark_of (EvLog WARNING (msg +:+ exn_str e)) = Some (Failed i)) ->
  let x := try_Exception (m ;; ret true)
             (fun e => log (msg +:+ exn_str e) WARNING ;; ret false) s in
  (res x = Return true /\ marks (out x) = [Attempt i; Succeeded i]) \/
  (res x = Return false /\ marks (out x) = [Attempt i; Failed i]) \/
  (exists e, res x = Raise e /\ is_Exception e = false /\ marks (out x) = [Attempt i]).
Proof.
  intros Hm Hmsg. cbv zeta.
  unfold try_Exception, try_catch, bind, ret, log, emit, attempt_course, res, out in *.
  destruct (m s) as [[[[]|e] s1] d1]; cbn [fst snd] in *.
  - left. destruct Hm as [(a & _ & Hd)|(e & He & _)]; [|discriminate].
    rewrite app_nil_r. auto.
  - destruct Hm as [(a & Ha & _)|(e' & _ & Hd)]; [discriminate|].
    destruct (is_Exception e) eqn:Hex; cbn [fst snd].
    + right; left. split; [reflexivity|].
      rewrite marks_app, Hd, app_nil_r, marks_single, Hmsg. reflexivity.
    + right; right. eauto.
Qed.

Lemma prefix_empty s : String.prefix "" s = true.
Proof. destruct s; reflexivity. Qed.

Lemma prefix_append p x : String.prefix p (p +:+ x) = true.
Proof.
  induction p as [|c p IH]; [apply prefix_empty|].
  change (String c p +:+ x) with (String c (p +:+ x)).
  change ((if ascii_dec c c then String.prefix p (p +:+ x) else false) = true).
  destruct (ascii_dec c c); [exact IH|congruence].
Qed.

Lemma failed_marks e :
  mark_of (EvLog WARNING ("Official MongoDB installation failed: " +:+ exn_str e))
    = Some (Failed 1) /\
  mark_of (EvLog WARNING ("Ubuntu repository MongoDB installation failed: " +:+ exn_str e))
    = Some (Failed 2) /\
  mark_of (EvLog WARNING ("Snap MongoDB installation failed: " +:+ exn_str e))
    = Some (Failed 3).
Proof.
  generalize (exn_str e). intros x. unfold mark_of.
  repeat split;
    repeat match goal with
      | |- context [String.prefix ?p (?p +:+ x)] => rewrite (prefix_append p x)
      | |- context [String.prefix ?p (?q +:+ x)] =>
          change (String.prefix p (q +:+ x)) with false
      end; reflexivity.
Qed.

(** The milestones that [install_mongodb] leaves in the log follow one
    of the seven courses. *)
Lemma marks_bind {A B} (m : M A) (k : A -> M B) s :
  marks (out (bind m k s)) =
  marks (out (m s)) ++
  match res (m s) with
  | Return a => marks (out (k a (st (m s))))
  | Raise _ => []
  end.
Proof.
  unfold bind, res, st, out. destruct (m s) as [[[a|e] s1] d1]; cbn [fst snd].
  - destruct (k a s1) as [[r s2] d2]; cbn [fst snd]. apply marks_app.
  - by rewrite app_nil_r.
Qed.

Lemma exhausted_marks s :
  marks (out ((log "All MongoDB installation methods failed" ERROR ;;
               log "MongoDB will need to be installed manually" WARNING ;;
               log "The application can still be installed, but you'll need to:" INFO ;;
               log "1. Install MongoDB manually" INFO ;;
               log "2. Ensure it's running on localhost:27017" INFO) s)) = [Exhausted].
Proof. reflexivity. Qed.

Ltac course_in :=
  first [ by (exfalso; match goal with H : _ ∈ [] |- _ => apply elem_of_nil in H end)
        | apply list_elem_of_In; cbn; tauto ].

Lemma install_mongodb_course s :
  marks (out (install_mongodb W s)) ∈ mongodb_courses.
Proof.
  unfold install_mongodb.
  pose proof (fun s => guarded_course 1 (mongodb_official W)
    "Official MongoDB installation failed: " s (mongodb_official_course s)
    (fun e => proj1 (failed_marks e))) as H1.
  pose proof (fun s => guarded_course 2 (mongodb_ubuntu W)
    "Ubuntu repository MongoDB installation failed: " s (mongodb_ubuntu_course s)
    (fun e => proj1 (proj2 (failed_marks e)))) as H2.
  pose proof (fun s => guarded_course 3 (mongodb_snap W)
    "Snap MongoDB installation failed: " s (mongodb_snap_course s)
    (fun e => proj2 (proj2 (failed_marks e)))) as H3.
  cbv zeta in H1, H2, H3.
  pose proof (proj1 (sound_quiet _) quiet_verify_mongodb_installation) as Hv.
  rewrite marks_bind.
  change (marks (out (log "Installing MongoDB" INFO s))) with (@nil mark).
  change (res (log "Installing MongoDB" INFO s)) with (Return tt).
  change (st (log "Installing MongoDB" INFO s)) with s.
  cbn [app]. rewrite marks_bind.
  destruct (H1 s) as [[Hr1 Hd1]|[[Hr1 Hd1]|(e1 & Hr1 & _ & Hd1)]]; rewrite Hr1, Hd1;
    [| |course_in].
  - (* method 1 succeeded *)
    cbn [negb]. rewrite marks_bind.
    change (marks (out (ret true ?[s1]))) with (@nil mark).
    cbn [ret res st out fst snd app negb]. rewrite marks_bind.
    cbn [ret res st out fst snd app negb marks omap list_omap]. rewrite Hv. course_in.
  - (* method 1 failed *)
    cbn [negb]. rewrite marks_bind.
    set (s1 := st (try_Exception _ _ s)).
    destruct (H2 s1) as [[Hr2 Hd2]|[[Hr2 Hd2]|(e2 & Hr2 & _ & Hd2)]]; rewrite Hr2, Hd2;
      [| |course_in].
    + cbn [negb]. rewrite marks_bind.
      cbn [ret res st out fst snd app negb marks omap list_omap]. rewrite Hv. course_in.
    + cbn [negb]. rewrite marks_bind.
      set (s2 := st (try_Exception _ _ s1)).
      destruct (H3 s2) as [[Hr3 Hd3]|[[Hr3 Hd3]|(e3 & Hr3 & _ & Hd3)]]; rewrite Hr3, Hd3;
        [| |course_in].
      * cbn [negb]. rewrite Hv. course_in.
      * cbn [negb]. rewrite exhausted_marks. course_in.
Qed.

End Mongo.

(** C8.  Both fallback chains attempt their strategies in order and at
    most once each, stop at the first success, and report exhaustion only
    when every strategy was attempted and failed.  For the GPG commands
    this is read off the child processes of the loop; for the three
    MongoDB methods, off the milestones in the log. *)
Theorem fallback_chains_stop_at_first_success (W : Installer.World) (s : Installer.installer) :
  (forall cmds,
     exists gpg_success,
       Spec.res (Installer.gpg_loop W cmds s) = Py.Return gpg_success /\
       let rs := Spec.runs (Spec.out (Installer.gpg_loop W cmds s)) in
       rs.*1 `prefix_of` cmds /\
       (length rs <= length cmds)%nat /\
       (forall i r, rs !! i = Some r -> Spec.succeeded r.2 = true ->
                    S i = length rs /\ gpg_success = true) /\
       (gpg_success = true -> exists r, last rs = Some r /\ Spec.succeeded r.2 = true) /\
       (gpg_success = false ->
        rs.*1 = cmds /\ Forall (fun r => Spec.succeeded r.2 = false) rs)) /\
  (let course := Spec.marks (Spec.out (Installer.install_mongodb W s)) in
   course ∈ Spec.mongodb_courses /\
   Spec.attempts course `prefix_of` [1; 2; 3]%nat /\
   (forall i j, course !! i = Some (Spec.Succeeded j) -> S i = length course) /\
   (Spec.Exhausted ∈ course ->
    course = [Spec.Attempt 1; Spec.Failed 1; Spec.Attempt 2; Spec.Failed 2;
              Spec.Attempt 3; Spec.Failed 3; Spec.Exhausted])).
Proof.
  split.
  - intros cmds. destruct (gpg_loop_chain W cmds s) as (b & Hb & Htrue & Hfalse).
    exists b. split; [exact Hb|]. cbv zeta in *.
    set (rs := Spec.runs (Spec.out (Installer.gpg_loop W cmds s))) in *.
    destruct b.
    + destruct (Htrue eq_refl) as (pre & lst & Hrs & Hlast & Hpre & Hpfx).
      split; [exact Hpfx|]. split.
      { apply prefix_length in Hpfx. by rewrite length_fmap in Hpfx. }
      split; [|split; [|discriminate]].
      * intros i r Hi Hr. split; [|reflexivity]. rewrite Hrs in Hi |- *.
        rewrite length_app. cbn.
        destruct (decide (i < length pre)%nat) as [Hlt|Hge].
        -- rewrite lookup_app_l in Hi by exact Hlt.
           rewrite Forall_lookup in Hpre. specialize (Hpre i r Hi). cbn in Hpre. congruence.
        -- apply lookup_lt_Some in Hi. rewrite length_app in Hi. cbn in Hi. lia.
      * intros _. exists lst. split; [|exact Hlast]. rewrite Hrs. apply last_snoc.
    + destruct (Hfalse eq_refl) as [Hall Hfail].
      split; [by rewrite Hall|]. split.
      { rewrite <- Hall. by rewrite length_fmap. }
      split; [|split; [discriminate|auto]].
      intros i r Hi Hr. rewrite Forall_lookup in Hfail. specialize (Hfail i r Hi).
      cbn in Hfail. congruence.
  - cbv zeta. pose proof (install_mongodb_course W s) as Hc.
    split; [exact Hc|].
    unfold Spec.mongodb_courses in Hc.
    repeat (apply elem_of_cons in Hc as [-> | Hc]); [..|by apply elem_of_nil in Hc].
    all: split; [vm_compute|split].
    all: try (intros i j Hi; do 8 (destruct i as [|i]; [cbn in Hi; simplify_eq; reflexivity|]);
              cbn in Hi; discriminate).
    all: try (intros Hin; first [reflexivity | exfalso; apply list_elem_of_In in Hin; cbn in Hin;
                                 intuition discriminate]).
    all: try (eexists; reflexivity).
Qed.

(** * A failing command inside a fallback chain *)

(** As soon as the download of the signing key exits with a non-zero
    status, [install_mongodb] is left through [sys.exit(1)]: the
    [except Exception] clauses do not catch [SystemExit], no other method
    is attempted, and nothing is reported as exhausted. *)
Lemma install_mongodb_aborts_on_failed_download (W : Installer.World)
    (s : Installer.installer) (rc : Z) (stdout : string) :
  rc <> 0 ->
  Installer.w_subprocess W (Installer.tick s)
    ["curl"; "-fsSL"; "https://www.mongodb.org/static/pgp/server-7.0.asc";
     "-o"; "/tmp/mongodb.asc"] = Installer.Exited rc stdout ->
  Spec.res (Installer.install_mongodb W s) = Py.Raise (Py.SystemExit 1) /\
  Spec.marks (Spec.out (Installer.install_mongodb W s)) = [Spec.Attempt 1].
Proof.
  intros Hrc Hcurl.
  assert (Hx : exists s' d,
             Installer.install_mongodb W s = (Py.Raise (Py.SystemExit 1), s', d) /\
             Spec.marks d = [Spec.Attempt 1]).
  { unfold Installer.install_mongodb, Installer.mongodb_official, Installer.try_Exception,
      Installer.try_catch, Installer.run.
    unfold Installer.bind at 1. unfold Installer.log at 1, Installer.emit at 1.
    unfold Installer.bind at 1. unfold Installer.bind at 1. unfold Installer.bind at 1.
    unfold Installer.log at 1, Installer.emit at 1.
    unfold Installer.bind at 1. rewrite run_command_eq. cbv zeta. rewrite Hcurl.
    destruct (rc =? 0) eqn:Hz; [apply Z.eqb_eq in Hz; contradiction|].
    cbn [PyStr.nonempty Py.is_Exception fst snd].
    destruct (Installer.w_read W (S (Installer.tick s)) (Installer.log_file s));
      eexists _, _; (split; [reflexivity|reflexivity]). }
  destruct Hx as (s' & d & -> & Hd). split; [reflexivity|exact Hd].
Qed.

(** [run_installation] lets [SystemExit] through: its handlers are for
    [KeyboardInterrupt] and for [Exception]. *)
Lemma run_installation_passes_SystemExit (W : Installer.World) (s : Installer.installer)
    (code : Z) :
  Spec.res (Installer.run_installation_body W s) = Py.Raise (Py.SystemExit code) ->
  Installer.run_installation W s = Installer.run_installation_body W s.
Proof.
  unfold Installer.run_installation, Installer.try_catch, Spec.res.
  destruct (Installer.run_installation_body W s) as [[r s1] d1]. cbn [fst].
  intros ->. reflexivity.
Qed.

(** C2: on a host where none of the three MongoDB methods can succeed,
    the run ends inside step 4 with exit status 1, at the first failing
    command; only the first method was attempted and no exhaustion was
    reported. *)
Theorem no_mongodb_run_exits_1 :
  let run := Installer.main Scenario.no_mongodb (Scenario.answers "y") in
  Installer.exit_code (Spec.res run) = 1 /\
  Installer.current_step (Spec.st run) = 4%nat /\
  Spec.marks (Spec.out run) = [Spec.Attempt 1] /\
  last (Spec.log_entries (Spec.out run)) = Some (Installer.ERROR, "Exit code: 6").
Proof. vm_compute. repeat split; reflexivity. Qed.

(** * The confirmation prompt *)

Section Confirmation.

Import PyStr Py Installer Spec.

Lemma show_configuration_summary_eq s l rest :
  summary_readable (config s) ->
  stdin s = Line l :: rest ->
  show_configuration_summary s =
  if String.eqb (lower (strip l)) "n"
  then (Raise (SystemExit 0), with_stdin rest s, [EvLog INFO "Installation cancelled by user"])
  else (Return tt, with_stdin rest s, []).
Proof.
  intros ([dv Hd] & [wv Hw] & [ev He] & en & Hen & Hmail) Hin.
  unfold show_configuration_summary, get_config, input, bind, ret, log, emit, sys_exit, raise.
  rewrite Hd, Hen. cbn. rewrite Hen. cbn.
  destruct (truthy en) eqn:Ht.
  - destruct (Hmail eq_refl) as [mv Hm]. rewrite Hm. cbn. rewrite Hw. cbn. rewrite He. cbn.
    rewrite Hin. cbn. destruct (String.eqb (lower (strip l)) "n"); reflexivity.
  - cbn. rewrite Hw. cbn. rewrite He. cbn.
    rewrite Hin. cbn. destruct (String.eqb (lower (strip l)) "n"); reflexivity.
Qed.

End Confirmation.




(** Runs to compare: with [y], with nothing, and with [no], the same
    operator on the same host gets the whole installation (exit status
    0 after step 12); Ctrl-C at the prompt gives exit status 1. *)
Lemma other_answers_continue :
  Forall (fun confirm =>
            let run := Installer.main Scenario.happy (Scenario.answers confirm) in
            Spec.res run = Py.Return tt /\ (12 <= Installer.current_step (Spec.st run))%nat)
         ["y"; ""; "no"; "yes"; "nn"] /\
  Installer.exit_code
    (Spec.res (Installer.main Scenario.happy
                 [Installer.Line "example.com"; Installer.Line "y";
                  Installer.Line "admin@example.com"; Installer.Line "1";
                  Installer.Line ""; Installer.Line ""; Installer.CtrlC])) = 1.
Proof.
  split; [|vm_compute; reflexivity].
  repeat (apply Forall_cons_2; [vm_compute; split; [reflexivity|lia]|]). apply Forall_nil_2.
Qed.

(** * Generated text *)

Section Strings.

Import PyStr Spec.

Lemma append_cons (x : ascii) (a b : string) : String x a +:+ b = String x (a +:+ b).
Proof. reflexivity. Qed.

Lemma append_assoc (a b c : string) : (a +:+ b) +:+ c = a +:+ (b +:+ c).
Proof. induction a as [|x a IH]; [reflexivity|]. by rewrite !append_cons, IH. Qed.

Lemma append_nil_r (a : string) : a +:+ "" = a.
Proof. induction a as [|x a IH]; [reflexivity|]. by rewrite append_cons, IH. Qed.

Lemma prefix_cons (a c : ascii) (p s : string) :
  String.prefix (String a p) (String c s) = if ascii_dec a c then String.prefix p s else false.
Proof. reflexivity. Qed.

Lemma prefix_nil_r (p : string) : String.prefix p "" = true -> p = "".
Proof. destruct p; [reflexivity|discriminate]. Qed.

Lemma list_ascii_app (a b : string) :
  String.list_ascii_of_string (a +:+ b) =
  String.list_ascii_of_string a ++ String.list_ascii_of_string b.
Proof. induction a as [|x a IH]; [reflexivity|]. rewrite append_cons. cbn. by rewrite IH. Qed.

Lemma no_char_app c a b : no_char c a -> no_char c b -> no_char c (a +:+ b).
Proof.
  unfold no_char. rewrite list_ascii_app, forallb_app. intros -> ->. reflexivity.
Qed.

Lemma no_char_cons c x a : no_char c (String x a) -> Ascii.eqb x c = false /\ no_char c a.
Proof.
  unfold no_char. cbn. intros [Hx Ha]%andb_true_iff. split; [|exact Ha].
  by apply negb_true_iff.
Qed.

Lemma no_char_not_in c a : no_char c a -> ~ In c (String.list_ascii_of_string a).
Proof.
  unfold no_char. rewrite forallb_forall. intros H Hin.
  specialize (H c Hin). rewrite Ascii.eqb_refl in H. discriminate.
Qed.

(** An occurrence of [p] at the head of [d +:+ r] either runs over the end
    of [d] or lies within [d]. *)
Lemma prefix_app_inv p d r :
  String.prefix p (d +:+ r) = true ->
  (exists p', p = d +:+ p' /\ String.prefix p' r = true) \/ (exists d', d = p +:+ d').
Proof.
  revert p. induction d as [|c d IH]; intros p H.
  - left. exists p. split; [reflexivity|exact H].
  - destruct p as [|a p]; [right; exists (String c d); reflexivity|].
    change (String c d +:+ r) with (String c (d +:+ r)) in H. rewrite prefix_cons in H.
    destruct (ascii_dec a c) as [->|]; [|discriminate].
    destruct (IH p H) as [(p' & -> & Hp')|(d' & ->)].
    + left. exists p'. split; [reflexivity|exact Hp'].
    + right. exists d'. reflexivity.
Qed.

Lemma count_pos_app pat a b :
  count_pos pat (a +:+ b) = (count_open pat a b + count_pos pat b)%nat.
Proof.
  induction a as [|c a IH]; [reflexivity|].
  change (String c a +:+ b) with (String c (a +:+ b)).
  cbn [count_pos count_open]. rewrite IH.
  change (String c a +:+ b) with (String c (a +:+ b)). lia.
Qed.

Lemma suffix_in_suffixes d p : In p (suffixes (d +:+ p)).
Proof.
  induction d as [|c d IH]; [destruct p; left; reflexivity|].
  change (String c d +:+ p) with (String c (d +:+ p)). right. exact IH.
Qed.

(** When [d] lacks a character that [pat] has, and no proper non-empty
    suffix of [pat] starts [q], no occurrence of [pat] in [d +:+ q] starts
    inside [d]. *)
Lemma count_open_no_straddle pat d q c :
  no_char c d ->
  existsb (Ascii.eqb c) (String.list_ascii_of_string pat) = true ->
  no_straddle pat q = true ->
  count_open pat d q = 0%nat.
Proof.
  intros Hd Hc Hq. apply existsb_exists in Hc as (c' & Hin & Heq).
  apply Ascii.eqb_eq in Heq. subst c'.
  induction d as [|x d IH]; [reflexivity|].
  destruct (no_char_cons _ _ _ Hd) as [Hx Hd'].
  cbn [count_open]. rewrite (IH Hd').
  destruct (String.prefix pat (String x d +:+ q)) eqn:Hp; [exfalso|reflexivity].
  apply prefix_app_inv in Hp as [(p' & Hpat & Hp')|(d' & Hd'')].
  - unfold no_straddle in Hq. rewrite forallb_forall in Hq.
    assert (Hin' : In p' (List.tl (suffixes pat))).
    { rewrite Hpat. change (String x d +:+ p') with (String x (d +:+ p')).
      cbn. apply suffix_in_suffixes. }
    specialize (Hq p' Hin'). rewrite Hp', andb_true_r in Hq.
    destruct p'; [|discriminate].
    rewrite append_nil_r in Hpat. subst pat.
    exact (no_char_not_in _ _ Hd Hin).
  - apply (no_char_not_in _ _ Hd). rewrite Hd'', list_ascii_app. apply in_or_app. auto.
Qed.

(** Counting in a text with a hole: [a +:+ d +:+ q], where [d] is unknown
    but lacks a character of [pat]. *)
Lemma count_pos_hole pat a d q c :
  no_char c d ->
  existsb (Ascii.eqb c) (String.list_ascii_of_string pat) = true ->
  no_straddle pat q = true ->
  count_pos pat (a +:+ (d +:+ q)) = (count_open pat a (d +:+ q) + count_pos pat q)%nat.
Proof.
  intros Hd Hc Hq. rewrite !count_pos_app, (count_open_no_straddle pat d q c Hd Hc Hq).
  reflexivity.
Qed.

Lemma skip_append (a b : string) : skip (String.length a) (a +:+ b) = b.
Proof. induction a as [|x a IH]; [destruct b; reflexivity|exact IH]. Qed.

Lemma split_char_line c a b :
  no_char c a -> split_char c (a +:+ String c b) = a :: split_char c b.
Proof.
  induction a as [|x a IH]; intros Ha.
  - change ("" +:+ String c b) with (String c b). cbn [split_char].
    by rewrite Ascii.eqb_refl.
  - destruct (no_char_cons _ _ _ Ha) as [Hx Ha'].
    rewrite append_cons. cbn [split_char]. rewrite Hx, (IH Ha'). reflexivity.
Qed.

End Strings.



(** C5.  For [example.com] with SSL, and an installation directory
    without spaces (such as the default one), the Nginx configuration
    holds the redirect line once and [listen 443 ssl] once; the latter
    stands in the last server block, which also holds the certificate
    directive for [/etc/letsencrypt/live/example.com/fullchain.pem]. *)
Theorem nginx_config_example_com_ssl (s : Installer.installer) :
  Installer.config s !! "domain" = Some (Installer.VStr "example.com") ->
  Installer.config s !! "enable_ssl" = Some (Installer.VBool true) ->
  Spec.no_char " " (Installer.install_dir s) ->
  exists text before block,
    Installer.generate_nginx_config s = Py.Return text /\
    PyStr.count_pos Spec.nginx_redirect_line text = 1%nat /\
    PyStr.count_pos "listen 443 ssl" text = 1%nat /\
    text = before +:+ ("server {" +:+ block) /\
    PyStr.count_pos "server {" block = 0%nat /\
    PyStr.count_pos "server {" text = 2%nat /\
    PyStr.count_pos "listen 443 ssl" block = 1%nat /\
    PyStr.count_pos (Spec.nginx_certificate_line "example.com") block = 1%nat.
Proof.
  intros Hdom Hssl Hdir.
  unfold Installer.generate_nginx_config. rewrite Hdom, Hssl.
  cbn [Installer.py_str Installer.truthy].
  set (d := Installer.install_dir s) in *.
  exists ((Installer.nginx_http_head "example.com" +:+ Installer.nginx_ssl_part "example.com")
          +:+ Installer.nginx_common_part d),
    (Installer.nginx_http_head "example.com" +:+
     Spec.before_first "server {" (Installer.nginx_ssl_part "example.com")),
    (default "" (Spec.after_first "server {" (Installer.nginx_ssl_part "example.com"))
     +:+ Installer.nginx_common_part d).
  split; [reflexivity|].
  unfold Installer.nginx_common_part.
  match goal with
  | |- context [?A +:+ (d +:+ ?B)] => set (pre := A); set (post := B)
  end.
  assert (Hcount : forall pat a,
            existsb (Ascii.eqb " ") (String.list_ascii_of_string pat) = true ->
            Spec.no_straddle pat post = true ->
            PyStr.count_pos pat (a +:+ (d +:+ post)) =
            (Spec.count_open pat a (d +:+ post) + PyStr.count_pos pat post)%nat).
  { intros pat a Hc Hq. apply (count_pos_hole pat _ d post " "); auto. }
  assert (Hblocks : (Installer.nginx_http_head "example.com" +:+
                     Installer.nginx_ssl_part "example.com") =
                    (Installer.nginx_http_head "example.com" +:+
                     Spec.before_first "server {" (Installer.nginx_ssl_part "example.com")) +:+
                    ("server {" +:+
                     default "" (Spec.after_first "server {" (Installer.nginx_ssl_part "example.com")))).
  { vm_compute. reflexivity. }
  set (tail := d +:+ post) in *.
  repeat apply conj.
  3: { rewrite Hblocks. by rewrite !append_assoc. }
  all: rewrite <- ?append_assoc; subst tail.
  all: rewrite Hcount by (vm_compute; reflexivity).
  all: generalize (d +:+ post); intros tail; vm_compute; reflexivity.
Qed.

Lemma nginx_config_example_com_ssl_witness :
  Installer.config Scenario.collected !! "domain" = Some (Installer.VStr "example.com") /\
  Installer.config Scenario.collected !! "enable_ssl" = Some (Installer.VBool true) /\
  Spec.no_char " " (Installer.install_dir Scenario.collected) /\
  exists text before block,
    Installer.generate_nginx_config Scenario.collected = Py.Return text /\
    PyStr.count_pos Spec.nginx_redirect_line text = 1%nat /\
    PyStr.count_pos "listen 443 ssl" text = 1%nat /\
    text = before +:+ ("server {" +:+ block) /\
    PyStr.count_pos "server {" block = 0%nat /\
    PyStr.count_pos "server {" text = 2%nat /\
    PyStr.count_pos "listen 443 ssl" block = 1%nat /\
    PyStr.count_pos (Spec.nginx_certificate_line "example.com") block = 1%nat.
Proof.
  split; [reflexivity|]. split; [reflexivity|]. split; [reflexivity|].
  apply nginx_config_example_com_ssl; reflexivity.
Defined.

(** * The frontend environment file *)

Section Frontend.

Import PyStr Py Installer Spec.

Variable W : World.

Lemma frontend_backend_url_eq s d ws :
  config s !! "domain" = Some (VStr d) ->
  config s !! "web_server" = Some (VStr ws) ->
  (ws = "standalone" ->
   frontend_backend_url s = (Return ("http://" +:+ d +:+ ":8001"), s, [])) /\
  (ws <> "standalone" -> forall en, config s !! "enable_ssl" = Some en ->
   frontend_backend_url s =
     (Return ("http" +:+ (if truthy en then "s" else "") +:+ "://" +:+ d), s, [])).
Proof.
  intros Hd Hw. unfold frontend_backend_url, get_config, bind, ret. rewrite Hd, Hw.
  cbn [eq_str py_str app]. split.
  - intros ->. reflexivity.
  - intros Hne en Hen. destruct (String.eqb_spec ws "standalone"); [contradiction|].
    cbn [negb]. rewrite Hen, Hd. reflexivity.
Qed.

Lemma create_frontend_config_writes s url env :
  frontend_backend_url s = (Return url, s, []) ->
  config s !! "environment" = Some (VStr env) ->
  w_fs W (tick s) (Write (path_join (path_join (install_dir s) "frontend") ".env")
                         (frontend_env url env)) = None ->
  writes (out (create_frontend_config W s)) =
    [(path_join (path_join (install_dir s) "frontend") ".env", frontend_env url env)].
Proof.
  intros Hurl Henv Hfs.
  unfold create_frontend_config, write_file, fs, ask, get, get_config, log, emit.
  unfold bind at 1. cbn [fst snd]. unfold bind at 1. rewrite Hurl.
  unfold bind at 1. rewrite Henv. unfold bind at 1. unfold bind at 1.
  cbn [py_str]. rewrite Hfs. reflexivity.
Qed.

(** The value found under [REACT_APP_BACKEND_URL] in the generated
    file. *)
Lemma frontend_env_lookup url env :
  no_char nl url -> env_lookup "REACT_APP_BACKEND_URL" (frontend_env url env) = Some url.
Proof.
  intros Hurl. unfold env_lookup, frontend_env.
  change ("REACT_APP_BACKEND_URL" +:+ "=") with "REACT_APP_BACKEND_URL=".
  match goal with
  | |- context [?A +:+ (url +:+ ?B)] =>
      change (A +:+ (url +:+ B))
        with ("# Secret Poll Frontend Configuration" +:+
              String nl ("REACT_APP_BACKEND_URL=" +:+ (url +:+ B)));
      match B with
      | ?B1 +:+ ?B2 =>
          change B with (String nl (PyStr.tail B1 +:+ B2))
      end
  end.
  rewrite split_char_line by (vm_compute; reflexivity).
  rewrite <- (append_assoc "REACT_APP_BACKEND_URL=" url).
  rewrite split_char_line
    by (apply no_char_app; [vm_compute; reflexivity|exact Hurl]).
  cbn [List.find]. change (String.prefix _ "# Secret Poll Frontend Configuration") with false.
  cbn iota. rewrite prefix_append.
  by rewrite (skip_append "REACT_APP_BACKEND_URL=" url).
Qed.

End Frontend.

(** C6.  With [web_server] set to [standalone], [configure_web_server]
    only logs that it skips the configuration (no file is written, no
    command is run), and the frontend environment file gives
    [http://{domain}:8001] as backend URL.  With any other web server
    the file gives the domain alone, under [https] when [enable_ssl] is
    true and under [http] otherwise. *)
Theorem backend_url_by_web_server (W : Installer.World) (s : Installer.installer)
    (d ws env : string) :
  Installer.config s !! "domain" = Some (Installer.VStr d) ->
  Installer.config s !! "web_server" = Some (Installer.VStr ws) ->
  Installer.config s !! "environment" = Some (Installer.VStr env) ->
  Spec.no_char PyStr.nl d ->
  (forall path content, Installer.w_fs W (Installer.tick s) (Installer.Write path content) = None) ->
  (ws = "standalone" ->
   Installer.configure_web_server W s =
     (Py.Return tt, s,
      [Installer.EvLog Installer.INFO "Skipping web server configuration (standalone mode)"]) /\
   Spec.fs_effects (Spec.out (Installer.configure_web_server W s)) = [] /\
   Spec.runs (Spec.out (Installer.configure_web_server W s)) = [] /\
   Spec.written_backend_url W s = Some ("http://" +:+ d +:+ ":8001")) /\
  (ws <> "standalone" ->
   forall b, Installer.config s !! "enable_ssl" = Some (Installer.VBool b) ->
   Spec.written_backend_url W s =
     Some ((if b then "https" else "http") +:+ "://" +:+ d)).
Proof.
  intros Hd Hw He Hnl Hfs.
  destruct (frontend_backend_url_eq s d ws Hd Hw) as [Hsa Hpr].
  assert (Hlookup : forall url,
            Installer.frontend_backend_url s = (Py.Return url, s, []) ->
            Spec.no_char PyStr.nl url ->
            Spec.written_backend_url W s = Some url).
  { intros url Hurl Hn. unfold Spec.written_backend_url.
    rewrite (create_frontend_config_writes W s url env Hurl He (Hfs _ _)).
    apply frontend_env_lookup, Hn. }
  split.
  - intros Hws.
    assert (Hcw : Installer.configure_web_server W s =
              (Py.Return tt, s,
               [Installer.EvLog Installer.INFO
                  "Skipping web server configuration (standalone mode)"])).
    { unfold Installer.configure_web_server, Installer.get_config, Installer.bind.
      rewrite Hw, Hws. reflexivity. }
    rewrite Hcw. split; [reflexivity|]. split; [reflexivity|]. split; [reflexivity|].
    apply Hlookup; [exact (Hsa Hws)|].
    apply no_char_app; [vm_compute; reflexivity|].
    apply no_char_app; [exact Hnl|vm_compute; reflexivity].
  - intros Hws b Hb. specialize (Hpr Hws _ Hb). cbn [Installer.truthy] in Hpr.
    destruct b; apply Hlookup; try exact Hpr.
    all: apply no_char_app; [vm_compute; reflexivity|].
    all: apply no_char_app; [vm_compute; reflexivity|exact Hnl].
Qed.

Lemma backend_url_by_web_server_witness :
  let s := Installer.with_config (insert "web_server" (Installer.VStr "standalone"))
             Scenario.collected in
  Spec.fs_effects (Spec.out (Installer.configure_web_server Scenario.happy s)) = [] /\
  Spec.written_backend_url Scenario.happy s = Some "http://example.com:8001" /\
  Spec.written_backend_url Scenario.happy Scenario.collected = Some "https://example.com".
Proof.
  cbv zeta.
  destruct (backend_url_by_web_server Scenario.happy
              (Installer.with_config (insert "web_server" (Installer.VStr "standalone"))
                 Scenario.collected)
              "example.com" "standalone" "production") as [Hsa _];
    try (vm_compute; reflexivity).
  destruct (Hsa eq_refl) as (_ & Hfs & _ & Hurl).
  destruct (backend_url_by_web_server Scenario.happy Scenario.collected
              "example.com" "nginx" "production") as [_ Hpr];
    try (vm_compute; reflexivity).
  split; [exact Hfs|]. split; [exact Hurl|].
  apply (Hpr ltac:(discriminate) true). vm_compute. reflexivity.
Defined.

(** * The validator's verdict *)

Section Verdict.

Import PyStr Py Validator.

Lemma fine_ret {A} (a : A) : fine (ret a).
Proof.
  split; [intros v; reflexivity |].
  split; [intros v1 v2 H; split; [reflexivity | exact H] |].
  intros v c; discriminate.
Qed.

Lemma fine_raise {A} (e : exn) : (forall c, e <> SystemExit c) -> fine (@raise A e).
Proof.
  intros He.
  split; [intros v; reflexivity |].
  split; [intros v1 v2 H; split; [reflexivity | exact H] |].
  intros v c [=]. exact (He c ltac:(assumption)).
Qed.

Lemma fine_log_issue msg : fine (log_issue msg).
Proof.
  split; [| split].
  - intros v. cbn. apply prefix_app_r. reflexivity.
  - intros v1 v2 [Hi Ht]. cbn. repeat split; cbn; congruence.
  - intros v c; discriminate.
Qed.

Lemma fine_log_warning msg : fine (log_warning msg).
Proof.
  split; [| split].
  - intros v. reflexivity.
  - intros v1 v2 [Hi Ht]. repeat split; cbn; congruence.
  - intros v c; discriminate.
Qed.

Lemma fine_log_success msg : fine (log_success msg).
Proof.
  split; [| split].
  - intros v. reflexivity.
  - intros v1 v2 [Hi Ht]. repeat split; cbn; congruence.
  - intros v c; discriminate.
Qed.

Lemma fine_bind {A B} (m : V A) (k : A -> V B) :
  fine m -> (forall a, fine (k a)) -> fine (bind m k).
Proof.
  intros (Hm1 & Hm2 & Hm3) Hk. split; [| split].
  - intros v. unfold bind. specialize (Hm1 v).
    destruct (m v) as [[a | e] v1]; cbn in *.
    + etrans; [exact Hm1 | apply (Hk a)].
    + exact Hm1.
  - intros v1 v2 H. unfold bind. specialize (Hm2 v1 v2 H).
    destruct (m v1) as [[a1 | e1] u1], (m v2) as [[a2 | e2] u2];
      cbn in *; destruct Hm2 as [Hr Hs]; try discriminate.
    + injection Hr as ->. apply (Hk a2). exact Hs.
    + injection Hr as ->. split; [reflexivity | exact Hs].
  - intros v c. unfold bind. specialize (Hm3 v).
    destruct (m v) as [[a | e] v1]; cbn in *.
    + apply (Hk a).
    + intros [=]. subst e. exact (Hm3 c eq_refl).
Qed.

Lemma fine_try_catch {A} (body : V A) (h : exn -> option (V A)) :
  fine body -> (forall e handler, h e = Some handler -> fine handler) ->
  fine (try_catch body h).
Proof.
  intros (Hm1 & Hm2 & Hm3) Hh. split; [| split].
  - intros v. unfold try_catch. specialize (Hm1 v).
    destruct (body v) as [[a | e] v1]; cbn in *; [exact Hm1 |].
    destruct (h e) as [handler |] eqn:He; cbn; [| exact Hm1].
    etrans; [exact Hm1 | apply (Hh _ _ He)].
  - intros v1 v2 H. unfold try_catch. specialize (Hm2 v1 v2 H).
    destruct (body v1) as [[a1 | e1] u1], (body v2) as [[a2 | e2] u2];
      cbn in *; destruct Hm2 as [Hr Hs]; try discriminate.
    + split; [exact Hr | exact Hs].
    + injection Hr as ->.
      destruct (h e2) as [handler |] eqn:He; cbn.
      * apply (Hh _ _ He). exact Hs.
      * split; [reflexivity | exact Hs].
  - intros v c. unfold try_catch. specialize (Hm3 v).
    destruct (body v) as [[a | e] v1]; cbn in *; [discriminate |].
    destruct (h e) as [handler |] eqn:He; cbn.
    + apply (Hh _ _ He).
    + intros [=]. subst e. exact (Hm3 c eq_refl).
Qed.

Lemma fine_try_Exception {A} (body : V A) (handler : exn -> V A) :
  fine body -> (forall e, fine (handler e)) -> fine (try_Exception body handler).
Proof.
  intros Hb Hh. apply fine_try_catch; [exact Hb |].
  intros e h He. destruct (is_Exception e); [| discriminate].
  injection He as <-. apply Hh.
Qed.

Lemma fine_try_nf_exc {A} (body nf : V A) (other : exn -> V A) :
  fine body -> fine nf -> (forall e, fine (other e)) -> fine (try_nf_exc body nf other).
Proof.
  intros Hb Hn Ho. apply fine_try_catch; [exact Hb |].
  intros e h He.
  destruct e; cbn in He; try discriminate;
    injection He as <-; first [exact Hn | apply Ho].
Qed.

Lemma fine_for_each {A} (l : list A) (body : A -> V unit) :
  (forall x, fine (body x)) -> fine (for_each l body).
Proof.
  intros Hb. induction l as [| x l IH]; cbn.
  - apply fine_ret.
  - apply fine_bind; [apply Hb | intros _; exact IH].
Qed.

Lemma fine_int s : fine (int s).
Proof.
  unfold int. destruct (parse_int s); [apply fine_ret | apply fine_raise; discriminate].
Qed.

Lemma fine_index l i : fine (index l i).
Proof.
  unfold index. destruct (l !! i); [apply fine_ret | apply fine_raise; discriminate].
Qed.

Variable W : World.

Lemma fine_ask {A} (q : World -> nat -> A) : fine (ask W q).
Proof.
  split; [| split].
  - intros v. reflexivity.
  - intros v1 v2 [Hi Ht]. unfold ask. cbn. rewrite Ht. repeat split; cbn; congruence.
  - intros v c; discriminate.
Qed.

Lemma fine_path_exists p : fine (path_exists W p).
Proof. apply fine_ask. Qed.

Lemma fine_subprocess_run cmd : fine (subprocess_run W cmd).
Proof.
  unfold subprocess_run. apply fine_bind; [apply fine_ask |].
  intros [rc out err | | m |]; first [apply fine_ret | apply fine_raise; discriminate].
Qed.

Lemma fine_read_file p : fine (read_file W p).
Proof.
  unfold read_file. apply fine_bind; [apply fine_ask |].
  intros [text | | m]; first [apply fine_ret | apply fine_raise; discriminate].
Qed.

Ltac fine_step :=
  first
    [ apply fine_ret | apply fine_raise; discriminate
    | apply fine_log_issue | apply fine_log_warning | apply fine_log_success
    | apply fine_ask | apply fine_int | apply fine_index
    | apply fine_subprocess_run | apply fine_read_file | apply fine_path_exists
    | apply fine_bind; [| intros ?]
    | apply fine_try_Exception; [| intros ?]
    | apply fine_try_nf_exc; [| | intros ?]
    | apply fine_for_each; intros ?
    | match goal with |- fine (match ?x with _ => _ end) => destruct x end ].

Ltac fine_go := cbv zeta; repeat fine_step.

Lemma fine_validate_install_script : fine (validate_install_script W).
Proof. unfold validate_install_script. fine_go. Qed.

Lemma fine_validate_system_compatibility : fine (validate_system_compatibility W).
Proof. unfold validate_system_compatibility. fine_go. Qed.

Lemma fine_validate_node_compatibility : fine (validate_node_compatibility W).
Proof. unfold validate_node_compatibility. fine_go. Qed.

Lemma fine_validate_backend_dependencies : fine (validate_backend_dependencies W).
Proof. unfold validate_backend_dependencies. fine_go. Qed.

Lemma fine_validate_frontend_dependencies : fine (validate_frontend_dependencies W).
Proof. unfold validate_frontend_dependencies. fine_go. Qed.

Lemma fine_validate_network_requirements : fine (validate_network_requirements W).
Proof. unfold validate_network_requirements. fine_go. Qed.

Lemma fine_validate_security_requirements : fine (validate_security_requirements W).
Proof. unfold validate_security_requirements. fine_go. Qed.

Lemma fine_validate_application_files : fine (validate_application_files W).
Proof. unfold validate_application_files. fine_go. Qed.

Lemma fine_all_validations : fine (all_validations W).
Proof.
  unfold all_validations.
  apply fine_bind; [apply fine_validate_install_script | intros _].
  apply fine_bind; [apply fine_validate_system_compatibility | intros _].
  apply fine_bind; [apply fine_validate_node_compatibility | intros _].
  apply fine_bind; [apply fine_validate_backend_dependencies | intros _].
  apply fine_bind; [apply fine_validate_frontend_dependencies | intros _].
  apply fine_bind; [apply fine_validate_network_requirements | intros _].
  apply fine_bind; [apply fine_validate_security_requirements | intros _].
  apply fine_validate_application_files.
Qed.

(** What [run_comprehensive_validation] does in terms of the eight
    validations. *)
Lemma run_comprehensive_validation_eq v :
  run_comprehensive_validation W v =
  match all_validations W v with
  | (Return _, v') => (Return (bool_decide (issues v' = [])), v')
  | (Raise e, v') => (Raise e, v')
  end.
Proof.
  unfold run_comprehensive_validation, bind.
  destruct (all_validations W v) as [[[] | e] v']; [| reflexivity].
  f_equal. f_equal. destruct (issues v'); reflexivity.
Qed.

Lemma main_eq :
  main W =
  match all_validations W init with
  | (Return _, v') => (Return (bool_decide (issues v' = [])), v')
  | (Raise e, v') => (Raise e, v')
  end.
Proof.
  unfold main. unfold bind at 1. rewrite run_comprehensive_validation_eq.
  destruct (all_validations W init) as [[[] | e] v']; reflexivity.
Qed.

Lemma exit_status_raise (e : exn) :
  (forall c, e <> SystemExit c) -> exit_status (Raise e) <> 0.
Proof.
  intros He. destruct e; cbn; try discriminate.
  exfalso. exact (He _ eq_refl).
Qed.

End Verdict.

(** C10.  The readiness verdict of the production validator depends on the
    recorded issues only.  On every host: when the eight validations have
    run, [run_comprehensive_validation] returns true exactly when the list
    of issues is empty at that point; no validation ever removes a
    recorded issue, so this list holds every issue logged during the
    checks; the process exits with status 0 exactly when the validations
    have run and left no issue; and neither the verdict nor the issues
    depend on the warnings recorded, whatever their number. *)
Theorem readiness_verdict_depends_on_issues_only (W : Validator.World) :
  (forall v ready v',
     Validator.run_comprehensive_validation W v = (Py.Return ready, v') ->
     Validator.all_validations W v = (Py.Return tt, v') /\
     (ready = true <-> Validator.issues v' = [])) /\
  (forall v, Validator.issues v `prefix_of`
             Validator.issues (snd (Validator.all_validations W v))) /\
  (Validator.script_exit_status W = 0 <->
   exists v', Validator.all_validations W Validator.init = (Py.Return tt, v') /\
              Validator.issues v' = []) /\
  (forall v ws,
     fst (Validator.run_comprehensive_validation W (Validator.with_warnings ws v)) =
     fst (Validator.run_comprehensive_validation W v) /\
     Validator.issues
       (snd (Validator.run_comprehensive_validation W (Validator.with_warnings ws v))) =
     Validator.issues (snd (Validator.run_comprehensive_validation W v))).
Proof.
  destruct (fine_all_validations W) as (Hkeep & Honly & Hexit).
  split; [| split; [| split]].
  - intros v ready v' Hrun. rewrite run_comprehensive_validation_eq in Hrun.
    destruct (Validator.all_validations W v) as [[[] | e] u]; [| discriminate].
    injection Hrun as <- <-. split; [reflexivity |].
    rewrite bool_decide_eq_true. reflexivity.
  - exact Hkeep.
  - unfold Validator.script_exit_status. rewrite main_eq.
    specialize (Hexit Validator.init).
    destruct (Validator.all_validations W Validator.init) as [[[] | e] u]; cbn [fst].
    + cbn [Validator.exit_status].
      destruct (bool_decide_reflect (Validator.issues u = [])) as [Hi | Hi].
      * split; [intros _; exists u; split; [reflexivity | exact Hi] | reflexivity].
      * split; [discriminate |]. intros (v' & [= <-] & Hv). contradiction.
    + split.
      * intros H0. exfalso. revert H0. apply exit_status_raise.
        intros c ->. exact (Hexit c eq_refl).
      * intros (v' & [=] & _).
  - intros v ws. rewrite !run_comprehensive_validation_eq.
    assert (Hsame : Validator.same_issues (Validator.with_warnings ws v) v)
      by (split; reflexivity).
    destruct (Honly _ _ Hsame) as [Hr [Hi _]].
    destruct (Validator.all_validations W (Validator.with_warnings ws v)) as [[[] | e1] u1],
             (Validator.all_validations W v) as [[[] | e2] u2];
      cbn in *; try discriminate.
    + rewrite Hi. split; reflexivity.
    + injection Hr as ->. split; [reflexivity | exact Hi].
Qed.

(** On a host where every check passes except that the network is down and
    the four ports are taken, eight warnings are recorded and no issue:
    the verdict is true and the exit status is 0. *)
Lemma offline_host_is_ready :
  let r := Validator.main Scenario.offline_host in
  fst r = Py.Return true /\
  length (Validator.warnings (snd r)) = 8%nat /\
  Validator.issues (snd r) = [] /\
  Validator.script_exit_status Scenario.offline_host = 0.
Proof. vm_compute. repeat split. Qed.

(** The same host without [openssl]: one issue, and the exit status is 1. *)
Lemma missing_openssl_is_not_ready :
  let r := Validator.main Scenario.offline_host_without_openssl in
  fst r = Py.Return false /\
  Validator.issues (snd r) = ["OpenSSL not installed"] /\
  Validator.script_exit_status Scenario.offline_host_without_openssl = 1.
Proof. vm_compute. repeat split. Qed.

(** The validations do not always run to their end: an [install.py] that
    cannot be read raises out of the first one, and the process ends with
    status 1 although no issue was recorded. *)
Lemma unreadable_script_stops_validation :
  let r := Validator.main Scenario.unreadable_script_host in
  fst r = Py.Raise (Py.OSError "[Errno 13] Permission denied: '/app/install.py'") /\
  Validator.issues (snd r) = [] /\
  Validator.script_exit_status Scenario.unreadable_script_host = 1.
Proof. vm_compute. repeat split. Qed.

(** * A weakest-precondition calculus for installer methods *)

Section WpRules.

Import PyStr Py Installer Spec Props.

Context {A : Type}.
Implicit Types (Q : result A -> installer -> list event -> Prop).

Lemma wp_ret (a : A) Q s d0 : Q (Return a) s d0 -> wp (ret a) Q s d0.
Proof. unfold wp, ret, res, st, out. cbn. by rewrite app_nil_r. Qed.

Lemma wp_raise (e : exn) Q s d0 : Q (Raise e) s d0 -> wp (raise e) Q s d0.
Proof. unfold wp, raise, res, st, out. cbn. by rewrite app_nil_r. Qed.

Lemma wp_sys_exit (c : Z) Q s d0 : Q (Raise (SystemExit c)) s d0 -> wp (sys_exit c) Q s d0.
Proof. apply wp_raise. Qed.

Lemma wp_get (f : installer -> A) Q s d0 : Q (Return (f s)) s d0 -> wp (get f) Q s d0.
Proof. unfold wp, get, res, st, out. cbn. by rewrite app_nil_r. Qed.

Lemma wp_ask (W : World) (q : World -> nat -> A) Q s d0 :
  Q (Return (q W (tick s))) (bump s) d0 -> wp (ask W q) Q s d0.
Proof. unfold wp, ask, res, st, out. cbn. by rewrite app_nil_r. Qed.

Lemma wp_pure_method (f : installer -> result A) Q s d0 :
  Q (f s) s d0 -> wp (pure_method f) Q s d0.
Proof. unfold wp, pure_method, res, st, out. cbn. by rewrite app_nil_r. Qed.

Lemma wp_bind {B} (m : M B) (k : B -> M A) Q s d0 :
  wp m (wp_then k Q) s d0 -> wp (bind m k) Q s d0.
Proof.
  unfold wp, wp_then, bind, res, st, out.
  destruct (m s) as [[[b | e] s1] d1]; cbn; [| trivial].
  destruct (k b s1) as [[r s2] d2] eqn:Hk; cbn.
  unfold wp, res, st, out. rewrite Hk. cbn. by rewrite app_assoc.
Qed.

Lemma wp_try_catch (body : M A) (h : exn -> option (M A)) Q s d0 :
  wp body (wp_catch h Q) s d0 -> wp (try_catch body h) Q s d0.
Proof.
  unfold wp, wp_catch, try_catch, res, st, out.
  destruct (body s) as [[[a | e] s1] d1]; cbn; [trivial |].
  destruct (h e) as [handler |]; cbn; [| trivial].
  destruct (handler s1) as [[r s2] d2] eqn:Hh; cbn.
  unfold wp, res, st, out. rewrite Hh. cbn. by rewrite app_assoc.
Qed.

Lemma wp_mono (m : M A) Q Q' s d0 :
  wp m Q s d0 -> (forall r s' d, Q r s' d -> Q' r s' d) -> wp m Q' s d0.
Proof. unfold wp. auto. Qed.

(** What a [sound] method guarantees, as a [wp]. *)
Lemma wp_sound R E D (m : M A) Q s d0 :
  sound R E D m ->
  (forall r s' d, R s s' -> (forall e, r = Raise e -> E e) -> D d -> Q r s' (d0 ++ d)) ->
  wp m Q s d0.
Proof.
  intros Hm HQ. destruct (Hm s) as (HR & HE & HD). unfold wp. apply HQ; assumption.
Qed.

End WpRules.

Section WpUnit.

Import PyStr Py Installer Spec Props.

Implicit Types (Q : result unit -> installer -> list event -> Prop).

Lemma wp_emit ev Q s d0 : Q (Return tt) s (d0 ++ [ev]) -> wp (emit ev) Q s d0.
Proof. unfold wp, emit, res, st, out. cbn. trivial. Qed.

Lemma wp_log msg lv Q s d0 : Q (Return tt) s (d0 ++ [EvLog lv msg]) -> wp (log msg lv) Q s d0.
Proof. apply wp_emit. Qed.

Lemma wp_sleep n Q s d0 : Q (Return tt) s (d0 ++ [EvSleep n]) -> wp (sleep n) Q s d0.
Proof. apply wp_emit. Qed.

Lemma wp_modify f Q s d0 : Q (Return tt) (f s) d0 -> wp (modify f) Q s d0.
Proof. unfold wp, modify, res, st, out. cbn. by rewrite app_nil_r. Qed.

Lemma wp_set_config key v Q s d0 :
  Q (Return tt) (with_config (insert key v) s) d0 -> wp (set_config key v) Q s d0.
Proof. apply wp_modify. Qed.

Lemma wp_progress msg Q s d0 :
  Q (Return tt) (with_current_step (S (current_step s)) s)
    (d0 ++ [EvLog PROGRESS ("Step " +:+ pretty (S (current_step s)) +:+ "/" +:+
                            pretty (total_steps s) +:+ ": " +:+ msg)]) ->
  wp (progress msg) Q s d0.
Proof. unfold wp, progress, res, st, out. cbn. trivial. Qed.

Lemma wp_when (b : bool) (m : M unit) Q s d0 :
  (if b then wp m Q s d0 else Q (Return tt) s d0) -> wp (when b m) Q s d0.
Proof. destruct b; cbn; [trivial | apply wp_ret]. Qed.

Lemma wp_for_each_nil {B} (body : B -> M unit) Q s d0 :
  Q (Return tt) s d0 -> wp (for_each [] body) Q s d0.
Proof. apply wp_ret. Qed.

Lemma wp_for_each_cons {B} (x : B) l (body : B -> M unit) Q s d0 :
  wp (body x) (wp_then (fun _ => for_each l body) Q) s d0 ->
  wp (for_each (x :: l) body) Q s d0.
Proof. cbn [for_each]. apply wp_bind. Qed.

Lemma wp_fs (W : World) op Q s d0 :
  match w_fs W (tick s) op with
  | None => Q (Return tt) (bump s) (d0 ++ [EvFs op])
  | Some m => Q (Raise (OSError m)) (bump s) d0
  end -> wp (fs W op) Q s d0.
Proof.
  unfold wp, fs, bind, ask, emit, raise, res, st, out. cbn.
  destruct (w_fs W (tick s) op); cbn; [by rewrite app_nil_r | trivial].
Qed.

End WpUnit.

Section WpWorld.

Import PyStr Py Installer Spec Props.

Variable W : World.

Lemma wp_get_config key Q s d0 :
  match config s !! key with
  | Some v => Q (Return v) s d0
  | None => Q (Raise (KeyError key)) s d0
  end -> wp (get_config key) Q s d0.
Proof.
  unfold wp, get_config, res, st, out.
  destruct (config s !! key); cbn; by rewrite app_nil_r.
Qed.

Lemma wp_input Q s d0 :
  match stdin s with
  | [] => Q (Raise EOFError) s d0
  | Line l :: rest => Q (Return l) (with_stdin rest s) d0
  | CtrlC :: rest => Q (Raise KeyboardInterrupt) (with_stdin rest s) d0
  end -> wp input Q s d0.
Proof.
  unfold wp, input, res, st, out.
  destruct (stdin s) as [| [l |] rest]; cbn; by rewrite app_nil_r.
Qed.

Lemma wp_path_exists path Q s d0 :
  Q (Return (w_path_exists W (tick s) path)) (bump s) d0 -> wp (path_exists W path) Q s d0.
Proof. exact (wp_ask W (fun w t => w_path_exists w t path) Q s d0). Qed.

Lemma wp_read_file path Q s d0 :
  match w_read W (tick s) path with
  | Content text => Q (Return text) (bump s) d0
  | ReadNotFound =>
      Q (Raise (FileNotFoundError
                  ("[Errno 2] No such file or directory: '" +:+ path +:+ "'"))) (bump s) d0
  | ReadError m => Q (Raise (OSError m)) (bump s) d0
  end -> wp (read_file W path) Q s d0.
Proof.
  unfold wp, read_file, bind, ask, ret, raise, res, st, out. cbn.
  destruct (w_read W (tick s) path); cbn; by rewrite app_nil_r.
Qed.

Lemma wp_subprocess_run cmd check Q s d0 :
  match w_subprocess W (tick s) cmd with
  | Exited rc stdout =>
      if check && negb (rc =? 0)
      then Q (Raise (CalledProcessError rc cmd)) (bump s) (d0 ++ [EvRun cmd (Exited rc stdout)])
      else Q (Return (rc, stdout)) (bump s) (d0 ++ [EvRun cmd (Exited rc stdout)])
  | NotFound =>
      Q (Raise (FileNotFoundError
                  ("[Errno 2] No such file or directory: '" +:+ hd "" cmd +:+ "'")))
        (bump s) (d0 ++ [EvRun cmd NotFound])
  | OtherOSError m => Q (Raise (OSError m)) (bump s) (d0 ++ [EvRun cmd (OtherOSError m)])
  | Interrupted => Q (Raise KeyboardInterrupt) (bump s) (d0 ++ [EvRun cmd Interrupted])
  end -> wp (subprocess_run W cmd check) Q s d0.
Proof.
  unfold wp, subprocess_run, bind, ask, emit, ret, raise, res, st, out. cbn.
  destruct (w_subprocess W (tick s) cmd) as [rc stdout | | m |]; cbn; trivial.
  destruct (check && negb (rc =? 0)); cbn; trivial.
Qed.

(** [run_command] by outcome of the child process. *)
Lemma wp_run_command (cmd : list string) (d : string) (c i : bool) (Q : result string -> installer -> list event -> Prop) s d0 :
  (let pre := if nonempty d then [EvLog INFO d] else [] in
   let o := w_subprocess W (tick s) cmd in
   let lv := if negb i then ERROR else WARNING in
   match o with
   | Exited rc stdout =>
       if rc =? 0
       then Q (Return (if c then stdout else "")) (bump s) (d0 ++ pre ++ [EvRun cmd o])
       else
         let error_msg := if nonempty d then d +:+ " failed"
                          else "Command failed: " +:+ join " " cmd in
         let failed := [EvRun cmd o; EvLog lv error_msg;
                        EvLog lv ("Exit code: " +:+ pretty rc)] in
         if i then
           Q (Return "") (bump s)
             (d0 ++ pre ++ failed ++
              [EvLog WARNING "Continuing despite error (ignore_errors=True)"])
         else
           Q (Raise (SystemExit 1)) (bump (bump s))
             (d0 ++ pre ++ failed ++
              match w_read W (S (tick s)) (log_file s) with
              | Content text => [EvRecentLog (map rstrip (last_n 10 (readlines text)))]
              | ReadNotFound | ReadError _ => []
              end)
   | NotFound =>
       Q (if i then Return "" else Raise (SystemExit 1)) (bump s)
         (d0 ++ pre ++ [EvRun cmd o; EvLog lv ("Command not found: " +:+ hd "" cmd)])
   | OtherOSError m => Q (Raise (OSError m)) (bump s) (d0 ++ pre ++ [EvRun cmd o])
   | Interrupted => Q (Raise KeyboardInterrupt) (bump s) (d0 ++ pre ++ [EvRun cmd o])
   end) -> wp (run_command W cmd d c i) Q s d0.
Proof.
  unfold wp. rewrite run_command_eq. cbv zeta. unfold res, st, out.
  destruct (w_subprocess W (tick s) cmd) as [rc stdout | | m |]; cbn [fst snd]; trivial.
  destruct (rc =? 0); cbn [fst snd]; trivial.
  destruct i; cbn [fst snd]; trivial.
Qed.

End WpWorld.

Section Traces.

Import PyStr Py Installer Spec.

Lemma writes_app d1 d2 : writes (d1 ++ d2) = writes d1 ++ writes d2.
Proof. apply omap_app. Qed.

Lemma fs_effects_app d1 d2 : fs_effects (d1 ++ d2) = fs_effects d1 ++ fs_effects d2.
Proof. apply omap_app. Qed.

Lemma log_entries_app d1 d2 : log_entries (d1 ++ d2) = log_entries d1 ++ log_entries d2.
Proof. apply omap_app. Qed.

End Traces.

Ltac wp_reduce :=
  cbv beta iota zeta delta [Props.wp_then Props.wp_catch Py.is_Exception Installer.try_bare
                            Installer.try_Exception Installer.run Installer.run_d
                            Installer.run_ignore Installer.write_file].

Ltac wp_step :=
  lazymatch goal with
  | |- Props.wp (Installer.bind _ _) _ _ _ => apply wp_bind
  | |- Props.wp (Installer.try_catch _ _) _ _ _ => apply wp_try_catch
  | |- Props.wp (Installer.ret _) _ _ _ => apply wp_ret
  | |- Props.wp (Installer.raise _) _ _ _ => apply wp_raise
  | |- Props.wp (Installer.sys_exit _) _ _ _ => apply wp_sys_exit
  | |- Props.wp (Installer.get _) _ _ _ => apply wp_get
  | |- Props.wp (Installer.ask _ _) _ _ _ => apply wp_ask
  | |- Props.wp (Installer.pure_method _) _ _ _ => apply wp_pure_method
  | |- Props.wp (Installer.emit _) _ _ _ => apply wp_emit
  | |- Props.wp (Installer.log _ _) _ _ _ => apply wp_log
  | |- Props.wp (Installer.sleep _) _ _ _ => apply wp_sleep
  | |- Props.wp (Installer.modify _) _ _ _ => apply wp_modify
  | |- Props.wp (Installer.set_config _ _) _ _ _ => apply wp_set_config
  | |- Props.wp (Installer.progress _) _ _ _ => apply wp_progress
  | |- Props.wp (Installer.when _ _) _ _ _ => apply wp_when
  | |- Props.wp (Installer.for_each [] _) _ _ _ => apply wp_for_each_nil
  | |- Props.wp (Installer.for_each (_ :: _) _) _ _ _ => apply wp_for_each_cons
  | |- Props.wp (Installer.fs _ _) _ _ _ => apply wp_fs
  | |- Props.wp (Installer.get_config _) _ _ _ => apply wp_get_config
  | |- Props.wp Installer.input _ _ _ => apply wp_input
  | |- Props.wp (Installer.path_exists _ _) _ _ _ => apply wp_path_exists
  | |- Props.wp (Installer.read_file _ _) _ _ _ => apply wp_read_file
  | |- Props.wp (Installer.subprocess_run _ _ _) _ _ _ => apply wp_subprocess_run
  | |- Props.wp (Installer.run_command _ _ _ _ _) _ _ _ => apply wp_run_command
  end.

Ltac wp_go := repeat (wp_reduce; wp_step); wp_reduce.

Ltac wp_state :=
  cbn [Installer.config Installer.install_dir Installer.log_file Installer.service_name
       Installer.total_steps Installer.current_step Installer.stdin Installer.tick
       Installer.with_config Installer.with_install_dir Installer.with_current_step
       Installer.with_stdin Installer.bump].

Ltac lookup_go :=
  repeat match goal with
         | |- context [<[?k:=?v]> ?m !! ?k] => rewrite (lookup_insert_eq m k v)
         | |- context [<[?k:=?v]> ?m !! ?k'] =>
             rewrite (lookup_insert_ne m k k' v) by discriminate
         end.

(** Symbolic execution: every answer of the world is split into its cases. *)
Ltac wp_run :=
  repeat first
    [ progress wp_go
    | progress wp_state
    | match goal with
      | |- match ?x with _ => _ end => destruct x eqn:?
      | |- Props.wp (match ?x with _ => _ end) _ _ _ => destruct x eqn:?
      end ].

(** * Further properties of the installer *)

(** ** The checks before anything is touched *)



Section Preflight.

Import PyStr Py Installer Spec Props.

Variable W : World.

(** With too little room on the disk, [check_system_requirements] ends
    the run, or fails on an unreadable [/etc/os-release]; it has only
    read and logged. *)
Lemma check_system_requirements_low_disk Q s d0 :
  (forall t, fst (w_statvfs W t) * snd (w_statvfs W t) < 2 * 1024 ^ 3) ->
  (forall s' lv seen msg, stdin s' = stdin s -> current_step s' = current_step s ->
     Q (Raise (SystemExit 1)) s'
       (d0 ++ [EvLog STEP "Checking system requirements"; EvLog lv seen; EvLog ERROR msg])) ->
  (forall s' m, stdin s' = stdin s -> current_step s' = current_step s ->
     Q (Raise (OSError m)) s' (d0 ++ [EvLog STEP "Checking system requirements"])) ->
  wp (check_system_requirements W) Q s d0.
Proof.
  intros Hdisk Hexit Hos.
  assert (Hlt : forall t, (fst (w_statvfs W t) * snd (w_statvfs W t) <? 2 * 1024 ^ 3) = true).
  { intros t. apply Z.ltb_lt, Hdisk. }
  unfold check_system_requirements. wp_go.
  destruct (w_read W (tick s) "/etc/os-release") as [text | | m]; wp_go.
  - destruct (contains "ubuntu" (lower text) || contains "debian" (lower text)); wp_go.
    all: rewrite Hlt; wp_go.
    all: rewrite <- !app_assoc; apply Hexit; reflexivity.
  - rewrite Hlt; wp_go.
    rewrite <- !app_assoc; apply Hexit; reflexivity.
  - apply Hos; reflexivity.
Qed.

End Preflight.



(** ** How a run can end *)

(** [sound_go] for a frame that says nothing. *)
Ltac sound_any G :=
  repeat (intros; cbv zeta;
          lazymatch goal with
          | |- Spec.sound _ _ _ (Installer.modify _) =>
              apply (sound_modify G); intros; exact I
          | _ => sound_step G
          end).

Section ExitStatus.

Import PyStr Py Installer Spec Props.

Lemma good_exit1_only : Good any_state exit1_only any_events.
Proof.
  split; try (intros; exact I).
  - intros e He c ->. discriminate.
  - intros c [=].
  - intros c [= <-]. reflexivity.
Qed.

Lemma good_exit01_only : Good any_state exit01_only any_events.
Proof.
  split; try (intros; exact I).
  - intros e He c ->. discriminate.
  - intros c [=].
  - intros c [= <-]. right. reflexivity.
Qed.

Lemma all_events : forall ev : event, any_events [ev].
Proof. intros; exact I. Qed.

Variable W : World.

Lemma exit0_cancelled_sound {A} (m : M A) :
  sound any_state exit1_only any_events m -> exit0_cancelled m.
Proof.
  intros Hm s Hr. destruct (Hm s) as (_ & He & _).
  specialize (He _ Hr 0 eq_refl). discriminate.
Qed.

Lemma exit0_cancelled_bind {A B} (m : M A) (k : A -> M B) :
  sound any_state exit1_only any_events m ->
  (forall a, exit0_cancelled (k a)) -> exit0_cancelled (bind m k).
Proof.
  intros Hm Hk s. destruct (Hm s) as (_ & He & _). specialize (Hk). revert He.
  unfold bind, res, st, out, ends_cancelled.
  destruct (m s) as [[[a | e] s1] d1]; cbn.
  - intros _. specialize (Hk a s1). unfold res, out, ends_cancelled in Hk.
    destruct (k a s1) as [[r s2] d2]; cbn in *. intros Hr. specialize (Hk Hr).
    rewrite last_app, Hk. reflexivity.
  - intros He [= ->]. specialize (He _ eq_refl 0 eq_refl). discriminate.
Qed.

Lemma exit0_cancelled_bind_first {A B} (m : M A) (k : A -> M B) :
  exit0_cancelled m ->
  (forall a, sound any_state exit1_only any_events (k a)) -> exit0_cancelled (bind m k).
Proof.
  intros Hm Hk s. specialize (Hm s). revert Hm.
  unfold bind, res, st, out.
  destruct (m s) as [[[a | e] s1] d1]; cbn.
  - intros _. destruct (Hk a s1) as (_ & He & _). unfold res in He.
    destruct (k a s1) as [[r s2] d2]; cbn in *. intros ->.
    specialize (He _ eq_refl 0 eq_refl). discriminate.
  - intros Hm [= ->]. exact (Hm eq_refl).
Qed.

Lemma exit0_cancelled_collect_configuration :
  exit0_cancelled (collect_configuration W).
Proof.
  unfold collect_configuration, set_config.
  pose proof good_exit1_only as G. pose proof all_events as Hev.
  repeat (cbv zeta; apply exit0_cancelled_bind; [solve [sound_any G] | intros ?]).
  intros s. destruct (String.eqb _ _); [| discriminate].
  intros _. reflexivity.
Qed.

Lemma exit0_cancelled_run_installation_body :
  exit0_cancelled (run_installation_body W).
Proof.
  unfold run_installation_body.
  pose proof good_exit1_only as G. pose proof all_events as Hev.
  apply exit0_cancelled_bind; [apply (sound_pre_collection G Hev) | intros _].
  apply exit0_cancelled_bind_first; [apply exit0_cancelled_collect_configuration | intros _].
  apply (sound_post_collection G Hev). intros; exact I.
Qed.

Lemma sound_collect_configuration_exit01 :
  sound any_state exit01_only any_events (collect_configuration W).
Proof.
  unfold collect_configuration, show_configuration_summary, set_config.
  pose proof good_exit01_only as G. pose proof all_events as Hev.
  sound_any G.
  intros _. apply (sound_raise G (SystemExit 0)). intros c [= <-]. left. reflexivity.
Qed.

Lemma sound_run_installation_body_exit01 :
  sound any_state exit01_only any_events (run_installation_body W).
Proof.
  unfold run_installation_body.
  pose proof good_exit01_only as G. pose proof all_events as Hev.
  apply (sound_bind G); [apply (sound_pre_collection G Hev) | intros _].
  apply (sound_bind G); [apply sound_collect_configuration_exit01 | intros _].
  apply (sound_post_collection G Hev). intros; exact I.
Qed.

(** What [run_installation] makes of the way its body ends. *)
Lemma run_installation_eq s :
  run_installation W s =
  match run_installation_body W s with
  | (Return a, s1, d1) => (Return a, s1, d1)
  | (Raise e, s1, d1) =>
      match e with
      | SystemExit c => (Raise (SystemExit c), s1, d1)
      | KeyboardInterrupt =>
          (Raise (SystemExit 1), s1,
           d1 ++ [EvLog WARNING "Installation cancelled by user"])
      | _ =>
          (Raise (SystemExit 1), s1,
           d1 ++ [EvLog ERROR ("Installation failed: " +:+ exn_str e);
                  EvLog INFO "Check the log file for detailed error information"])
      end
  end.
Proof.
  unfold run_installation, try_catch.
  destruct (run_installation_body W s) as [[[a | e] s1] d1]; [reflexivity |].
  destruct e; reflexivity.
Qed.

End ExitStatus.


(** ** The executor on the outcomes that are no command failure *)


(** ** What the operator can make the configuration be *)

Section Domain.

Import PyStr Py Installer Spec Props.

Lemma split_char_cons sep s : exists h t, split_char sep s = h :: t.
Proof.
  destruct s as [| a s]; cbn; [eauto |].
  destruct (Ascii.eqb a sep); [eauto |]. destruct (split_char sep s); eauto.
Qed.

(** Every character of a text is the separator or belongs to one of the
    pieces that [split] returns. *)
Lemma split_char_chars sep s c :
  In c (chars s) -> c = sep \/ exists l, In l (split_char sep s) /\ In c (chars l).
Proof.
  induction s as [| a s IH]; cbn; [tauto |].
  intros [<- | Hin].
  - destruct (Ascii.eqb_spec a sep) as [-> | Hne]; [left; reflexivity | right].
    destruct (split_char_cons sep s) as (h & t & ->).
    exists (String a h). cbn. auto.
  - destruct (IH Hin) as [-> | (l & Hl & Hc)]; [left; reflexivity | right].
    destruct (Ascii.eqb a sep).
    + exists l. cbn. auto.
    + destruct (split_char_cons sep s) as (h & t & Heq). rewrite Heq in *.
      destruct Hl as [<- | Hl].
      * exists (String a h). cbn. auto.
      * exists l. cbn. auto.
Qed.

Lemma label_ok_chars l c :
  label_ok l = true -> In c (chars l) -> is_alnum c || Ascii.eqb c "-"%char = true.
Proof.
  unfold label_ok, chars. destruct (String.list_ascii_of_string l) as [| a cs] eqn:Hl;
    [discriminate |].
  intros H Hin. apply andb_true_iff in H as [H _]. apply andb_true_iff in H as [_ H].
  rewrite forallb_forall in H. apply H. exact Hin.
Qed.

Lemma chars_length s : length (chars s) = String.length s.
Proof. induction s as [| a s IH]; cbn; [reflexivity | by rewrite <- IH]. Qed.

Lemma label_ok_nonempty l : label_ok l = true -> l <> "".
Proof. intros H ->. discriminate. Qed.

(** A text that the host-name pattern matches is not empty and, up to a
    final newline, made of letters, digits, hyphens and dots. *)
Lemma domain_pattern_match_chars value :
  domain_pattern_match value = true ->
  value <> "" /\ forallb domain_char (chars (chomp value)) = true.
Proof.
  unfold domain_pattern_match. intros H. split.
  - intros ->. discriminate.
  - rewrite forallb_forall in *. intros c Hc. unfold domain_char.
    destruct (split_char_chars "."%char _ _ Hc) as [-> | (l & Hl & Hcl)]; [reflexivity |].
    rewrite (label_ok_chars l c (H l Hl) Hcl). reflexivity.
Qed.

(** [strip] leaves no space at either end. *)
Lemma rstrip_last s c : last (chars (rstrip s)) = Some c -> is_space c = false.
Proof.
  revert c. induction s as [| a s IH]; intros c; cbn; [discriminate |].
  destruct (rstrip s) as [| b r] eqn:Hr.
  - destruct (is_space a) eqn:Ha; cbn; [discriminate |]. intros [= <-]. exact Ha.
  - intros H. apply IH. exact H.
Qed.

Lemma lstrip_last s c : last (chars (lstrip s)) = Some c -> last (chars s) = Some c.
Proof.
  induction s as [| a s IH]; cbn; [trivial |].
  destruct (is_space a); [| trivial].
  intros H. specialize (IH H). unfold chars in *.
  destruct (String.list_ascii_of_string s); [discriminate | exact IH].
Qed.

Lemma strip_last s c : last (chars (strip s)) = Some c -> is_space c = false.
Proof. intros H. apply (rstrip_last s), lstrip_last, H. Qed.

Lemma lstrip_head s : match lstrip s with String c _ => is_space c = false | "" => True end.
Proof.
  induction s as [| a s IH]; cbn; [exact I |].
  destruct (is_space a) eqn:Ha; [exact IH | exact Ha].
Qed.

Lemma lstrip_id s : match s with String c _ => is_space c = false | "" => True end -> lstrip s = s.
Proof. destruct s as [| c s]; cbn; [reflexivity |]. intros ->. reflexivity. Qed.

Lemma rstrip_id s : (forall c, last (chars s) = Some c -> is_space c = false) -> rstrip s = s.
Proof.
  induction s as [| a s IH]; cbn; [reflexivity |]. intros H.
  destruct s as [| b s].
  - cbn. rewrite (H a eq_refl). reflexivity.
  - rewrite IH; [reflexivity |]. intros c Hc. apply H. exact Hc.
Qed.

Lemma strip_idem s : strip (strip s) = strip s.
Proof.
  unfold strip at 1. rewrite rstrip_id; [| apply strip_last].
  apply lstrip_id. apply lstrip_head.
Qed.

Lemma chomp_id s : (forall c, last (chars s) = Some c -> c <> nl) -> chomp s = s.
Proof.
  intros H. unfold chomp, chars in *.
  destruct (rev (String.list_ascii_of_string s)) as [| c r] eqn:Hrev; [reflexivity |].
  destruct (Ascii.eqb_spec c nl) as [-> | _]; [| reflexivity].
  exfalso. apply (H nl); [| reflexivity].
  rewrite <- (rev_involutive (String.list_ascii_of_string s)), Hrev. cbn.
  apply last_snoc.
Qed.

Lemma chomp_strip s : chomp (strip s) = strip s.
Proof.
  apply chomp_id. intros c Hc ->. apply strip_last in Hc. discriminate.
Qed.

Variable W : World.

Lemma accept_domain_ok l d :
  accept_domain W l = Some d ->
  d <> "" /\ strip d = d /\ validate_domain_or_ip W d = true /\
  (is_ip_address W d = false -> forallb domain_char (chars d) = true).
Proof.
  unfold accept_domain. cbv zeta.
  destruct (nonempty (strip l)) eqn:Hn; [| discriminate].
  destruct (validate_domain_or_ip W (strip l)) eqn:Hv; [| discriminate].
  cbn. intros [= <-]. split; [intros Heq; rewrite Heq in Hn; discriminate |].
  split; [apply strip_idem |]. split; [exact Hv |].
  intros Hip. unfold validate_domain_or_ip in Hv. rewrite Hip in Hv.
  apply domain_pattern_match_chars in Hv as [_ Hv]. rewrite chomp_strip in Hv. exact Hv.
Qed.

Lemma accept_email_at l e : accept_email l = Some e -> contains "@" e = true.
Proof.
  unfold accept_email. cbv zeta. destruct (nonempty (strip l)); [| discriminate].
  destruct (contains "@" (strip l)) eqn:Hc; [| discriminate]. cbn. intros [= <-]. exact Hc.
Qed.

Lemma accept_choice_ok l c : accept_choice l = Some c -> In (web_servers c) ["nginx"; "apache"; "standalone"].
Proof.
  intros _. unfold web_servers. cbn.
  destruct (String.eqb c "1"); [auto |]. destruct (String.eqb c "2"); auto.
Qed.

Lemma wp_input_loop {A} (accept : string -> option A) Q s d0 :
  (forall a rest l, accept l = Some a -> Q (Return a) (with_stdin rest s) d0) ->
  (forall e rest, Q (Raise e) (with_stdin rest s) d0) ->
  wp (input_loop accept) Q s d0.
Proof.
  intros Hret Hraise. unfold wp, input_loop, res, st, out.
  destruct (read_until accept (stdin s)) as [[a | e] rest] eqn:Hr; cbn; rewrite app_nil_r.
  - destruct (read_until_accepts _ _ _ _ Hr) as [l Hl]. eapply Hret, Hl.
  - apply Hraise.
Qed.

End Domain.

Section Collected.

Import PyStr Py Installer Spec Props.

Variable W : World.

Ltac collect_step :=
  first
    [ match goal with |- Raise _ = Return _ -> _ => discriminate end
    | progress wp_go
    | progress wp_state
    | progress cbn [truthy negb]
    | apply wp_input_loop; [intros ? ? ? ? | intros; wp_go; discriminate]
    | progress lookup_go
    | match goal with
      | |- match ?x with _ => _ end => destruct x eqn:?
      | |- wp (if negb ?b then _ else _) _ _ _ => destruct b eqn:?; cbn [negb]
      | |- wp (match ?x with _ => _ end) _ _ _ => destruct x eqn:?
      end ].

Lemma mem_str_In x l : mem_str x l = true -> In x l.
Proof.
  unfold mem_str. rewrite existsb_exists. intros (y & Hin & Heq).
  apply String.eqb_eq in Heq. subst. exact Hin.
Qed.

Lemma collect_configuration_wp s :
  wp (collect_configuration W)
     (fun r s' _ => r = Return tt -> collected W (config s')) s [].
Proof.
  unfold collect_configuration, show_configuration_summary.
  repeat collect_step.
  all: intros _.
  all: match goal with
       | H : accept_domain W _ = Some _ |- _ =>
           apply accept_domain_ok in H as (Hne & Hstrip & Hval & Hch)
       end.
  all: try match goal with
           | H : accept_email _ = Some _ |- _ => apply accept_email_at in H
           end.
  all: match goal with
       | H : accept_choice _ = Some _ |- _ => apply accept_choice_ok in H
       end.
  all: constructor; lookup_go.
  all: try (eexists; split; [reflexivity |];
            repeat split; try assumption; try congruence; fail).
  all: try (eexists; split; [reflexivity |]; split; [congruence |];
            intros; first [discriminate | eexists; split; [reflexivity | assumption]]).
  all: eexists; split; [reflexivity |];
       match goal with
       | |- In (if mem_str ?x ?l then _ else _) _ =>
           destruct (mem_str x l) eqn:Hm; [apply mem_str_In, Hm | cbn; auto]
       end.
Qed.

End Collected.

(** When [collect_configuration] returns, the configuration is complete:
    [domain] is a non-empty text without space around it that
    [validate_domain_or_ip] accepts, and unless [inet_aton] takes it for
    an address it is made of letters, digits, hyphens and dots only;
    [is_ip] and [enable_ssl] are booleans, [is_ip] excluding
    [enable_ssl]; [enable_ssl] comes with an [ssl_email] that contains
    [@]; [web_server] is one of [nginx], [apache], [standalone];
    [environment] is [production] or [staging]. *)
Theorem collect_configuration_result (W : Installer.World) (s : Installer.installer) :
  Spec.res (Installer.collect_configuration W s) = Py.Return tt ->
  Props.collected W (Installer.config (Spec.st (Installer.collect_configuration W s))).
Proof. exact (collect_configuration_wp W s). Qed.

Lemma collect_configuration_result_witness :
  Spec.res (Installer.collect_configuration Scenario.happy
              (Installer.init (Scenario.answers "y"))) = Py.Return tt /\
  Props.collected Scenario.happy
    (Installer.config
       (Spec.st (Installer.collect_configuration Scenario.happy
                   (Installer.init (Scenario.answers "y"))))).
Proof.
  split; [vm_compute; reflexivity |].
  apply collect_configuration_result. vm_compute. reflexivity.
Defined.

(** A value that [validate_domain_or_ip] accepts without [inet_aton]
    taking it for an address is a host name in plain ASCII: not empty
    and, up to one final newline (which [$] lets pass), made of letters,
    digits, hyphens and dots; its dot-separated labels have 1 to 63
    characters each.  So it holds no space, slash, quote, semicolon or
    other character special to the shell or to the web server
    configuration into which the installer copies it. *)
Theorem accepted_host_name_is_plain (W : Installer.World) (value : string) :
  Installer.validate_domain_or_ip W value = true ->
  Installer.is_ip_address W value = false ->
  value <> "" /\
  forallb Props.domain_char (Props.chars (Installer.chomp value)) = true /\
  Forall (fun label => (1 <= String.length label <= 63)%nat)
    (PyStr.split_char "." (Installer.chomp value)).
Proof.
  intros Hv Hip. unfold Installer.validate_domain_or_ip in Hv. rewrite Hip in Hv.
  destruct (domain_pattern_match_chars value Hv) as [Hne Hch].
  split; [exact Hne |]. split; [exact Hch |].
  unfold Installer.domain_pattern_match in Hv. rewrite forallb_forall in Hv.
  apply Forall_forall. intros label Hin. apply list_elem_of_In, Hv in Hin.
  unfold Installer.label_ok in Hin. rewrite <- chars_length. unfold Props.chars.
  destruct (String.list_ascii_of_string label) as [| c cs]; [discriminate |].
  apply andb_true_iff in Hin as [_ Hlen]. apply Nat.leb_le in Hlen.
  cbn [length] in *. lia.
Qed.

Lemma accepted_host_name_is_plain_witness :
  Installer.validate_domain_or_ip Scenario.happy "poll.example.com" = true /\
  Installer.is_ip_address Scenario.happy "poll.example.com" = false /\
  forallb Props.domain_char (Props.chars (Installer.chomp "poll.example.com")) = true.
Proof.
  split; [reflexivity |]. split; [reflexivity |].
  apply (accepted_host_name_is_plain Scenario.happy "poll.example.com"); reflexivity.
Defined.

(** ** Checks that only report *)


(** ** The firewall *)

Section Firewall.

Import PyStr Py Installer Spec Props.

Variable W : World.

Ltac fw_split :=
  match goal with
  | |- match ?x with _ => _ end =>
      lazymatch x with
      | w_subprocess _ _ _ =>
          let rc := fresh "rc" in
          destruct x as [rc ? | | ? | ];
          [destruct (Z.eqb_spec rc 0) as [-> | ?] | | |]
      | _ => destruct x eqn:?
      end
  end.

Ltac fw_fin :=
  cbn;
  split;
  [ eexists; reflexivity
  | split;
    [ first
        [ intros Hall; discriminate Hall
        | intros _;
          repeat (apply Forall_cons_2;
                  [ first [ left; reflexivity | right; left; reflexivity
                          | right; right; eexists; reflexivity ] |]);
          apply Forall_nil_2 ]
    | auto ] ].

Ltac fw_done :=
  unfold firewall_post;
  try match goal with
      | |- context [match w_read ?a ?b ?c with _ => _ end] => destruct (w_read a b c)
      end;
  fw_fin.

Lemma setup_firewall_wp s en :
  config s !! "enable_ssl" = Some en ->
  wp (setup_firewall W) (fun r _ d => firewall_post (truthy en) r d) s [].
Proof.
  intros Hen. unfold setup_firewall.
  destruct (truthy en) eqn:Ht.
  - repeat first [progress wp_go | progress wp_state | rewrite Hen | rewrite Ht | fw_split].
    all: fw_done.
  - repeat first [progress wp_go | progress wp_state | rewrite Hen | rewrite Ht | fw_split].
    all: fw_done.
Qed.

Lemma prefix_with_last {A} (p l : list A) (x : A) :
  p `prefix_of` l ++ [x] -> In x p -> ~ In x l -> p = l ++ [x].
Proof.
  intros [k Hk] Hin Hnot.
  destruct (decide (k = [])) as [-> | Hne]; [by rewrite app_nil_r in Hk |].
  exfalso. apply Hnot.
  destruct (exists_last Hne) as (k' & y & ->).
  rewrite app_assoc in Hk. apply app_inj_tail in Hk as [-> _].
  apply in_or_app. left. exact Hin.
Qed.

Lemma firewall_commands_last ssl :
  exists l, firewall_commands ssl = l ++ [ ["ufw"; "--force"; "enable"] ] /\
            ~ In ["ufw"; "--force"; "enable"] l.
Proof.
  destruct ssl;
    [exists (take 8 (firewall_commands true)) | exists (take 7 (firewall_commands false))];
    (split; [reflexivity |]); cbn; intuition discriminate.
Qed.

End Firewall.



(** ** Steps that absorb their own failures *)

Section Absorb.

Import PyStr Py Installer Spec Props.

Lemma no_Exception_ret {A} (a : A) : no_Exception (ret a).
Proof. intros s e [=]. Qed.

Lemma no_Exception_log msg lv : no_Exception (log msg lv).
Proof. intros s e [=]. Qed.

Lemma no_Exception_sleep n : no_Exception (sleep n).
Proof. intros s e [=]. Qed.

Lemma no_Exception_bind {A B} (m : M A) (k : A -> M B) :
  no_Exception m -> (forall a, no_Exception (k a)) -> no_Exception (bind m k).
Proof.
  intros Hm Hk s e. specialize (Hm s). revert Hm. unfold bind, res.
  destruct (m s) as [[[a | e'] s1] d1]; cbn.
  - intros _. specialize (Hk a s1). unfold res in Hk.
    destruct (k a s1) as [[r s2] d2]; cbn in *. apply Hk.
  - intros Hm [= <-]. apply Hm. reflexivity.
Qed.

Lemma no_Exception_try_Exception {A} (body : M A) (handler : exn -> M A) :
  (forall e, no_Exception (handler e)) -> no_Exception (try_Exception body handler).
Proof.
  intros Hh s e. unfold try_Exception, try_catch, res.
  destruct (body s) as [[[a | e'] s1] d1]; cbn; [discriminate |].
  destruct (is_Exception e') eqn:He'; cbn.
  - specialize (Hh e' s1). unfold res in Hh.
    destruct (handler e' s1) as [[r s2] d2]; cbn in *. apply Hh.
  - intros [= <-]. exact He'.
Qed.

Lemma no_Exception_try_bare {A} (body handler : M A) :
  no_Exception handler -> no_Exception (try_bare body handler).
Proof.
  intros Hh s e. unfold try_bare, try_catch, res.
  destruct (body s) as [[[a | e'] s1] d1]; cbn; [discriminate |].
  specialize (Hh s1). unfold res in Hh.
  destruct (handler s1) as [[r s2] d2]; cbn in *. apply Hh.
Qed.

Variable W : World.

Lemma no_Exception_mongodb_service_loop l : no_Exception (mongodb_service_loop W l).
Proof.
  induction l as [| x l IH]; cbn [mongodb_service_loop]; [apply no_Exception_ret |].
  apply no_Exception_bind; [apply no_Exception_try_bare, no_Exception_ret |].
  intros []; [apply no_Exception_ret | exact IH].
Qed.

Ltac absorb :=
  repeat first
    [ apply no_Exception_ret | apply no_Exception_log | apply no_Exception_sleep
    | apply no_Exception_mongodb_service_loop
    | apply no_Exception_try_Exception; intros ?
    | apply no_Exception_bind; [| intros ?]
    | match goal with |- no_Exception (if ?b then _ else _) => destruct b end ].

Lemma no_Exception_verify_mongodb_installation :
  no_Exception (verify_mongodb_installation W).
Proof. unfold verify_mongodb_installation. absorb. Qed.

Lemma no_Exception_install_mongodb : no_Exception (install_mongodb W).
Proof.
  unfold install_mongodb.
  repeat first
    [ apply no_Exception_verify_mongodb_installation
    | apply no_Exception_ret | apply no_Exception_log
    | apply no_Exception_try_Exception; intros ?
    | apply no_Exception_bind; [| intros ?]
    | match goal with |- no_Exception (if ?b then _ else _) => destruct b end ].
Qed.

Lemma no_Exception_finalize_loop (l : list string) :
  no_Exception
    (for_each l (fun service =>
       try_Exception
         (run W ["systemctl"; "enable"; service] ;;
          run W ["systemctl"; "start"; service] ;;
          log ("✓ " +:+ service +:+ " service started") SUCCESS)
         (fun e => log ("✗ Failed to start " +:+ service +:+ ": " +:+ exn_str e) ERROR))).
Proof.
  induction l as [| x l IH]; cbn [for_each]; [apply no_Exception_ret |].
  apply no_Exception_bind; [| intros _; exact IH].
  apply no_Exception_try_Exception. intros e. apply no_Exception_log.
Qed.

End Absorb.


(** ** The backend environment file *)

(** [generate_secret_key] always returns a key, whatever happens to
    [openssl]: on exit status 0 the key is what [openssl] printed,
    stripped and otherwise unchecked (nothing printed gives the empty
    key); on any failure, Ctrl-C included, it is [secrets.token_hex(32)].
    One child process is started. *)
Theorem generate_secret_key_falls_back (W : Installer.World) (s : Installer.installer) :
  let cmd := ["openssl"; "rand"; "-hex"; "32"] in
  let o := Installer.w_subprocess W (Installer.tick s) cmd in
  let a := Installer.generate_secret_key W s in
  Spec.res a =
    Py.Return (match o with
               | Installer.Exited 0 stdout => PyStr.strip stdout
               | _ => Installer.w_token_hex W (S (Installer.tick s))
               end) /\
  Spec.runs (Spec.out a) = [(cmd, o)] /\
  Spec.log_entries (Spec.out a) = [] /\
  Installer.config (Spec.st a) = Installer.config s.
Proof.
  cbv zeta.
  change (Props.wp (Installer.generate_secret_key W)
            (fun r s' d =>
               r = Py.Return
                     (match Installer.w_subprocess W (Installer.tick s)
                              ["openssl"; "rand"; "-hex"; "32"] with
                      | Installer.Exited 0 stdout => PyStr.strip stdout
                      | _ => Installer.w_token_hex W (S (Installer.tick s))
                      end) /\
               Spec.runs d =
                 [(["openssl"; "rand"; "-hex"; "32"],
                   Installer.w_subprocess W (Installer.tick s)
                     ["openssl"; "rand"; "-hex"; "32"])] /\
               Spec.log_entries d = [] /\
               Installer.config s' = Installer.config s) s []).
  unfold Installer.generate_secret_key. wp_go.
  destruct (Installer.w_subprocess W (Installer.tick s) ["openssl"; "rand"; "-hex"; "32"])
    as [rc stdout | | m |]; [destruct (Z.eqb_spec rc 0) as [-> | Hrc] | | |];
    wp_go; wp_state; repeat split.
  destruct rc; try reflexivity. contradiction.
Qed.

Section BackendEnv.

Import PyStr Py Installer Spec Props.

(** The generated file, line by line. *)
Lemma backend_env_lines env cors key :
  backend_env env cors key =
  "# Secret Poll Backend Configuration" +:+ String nl
    ("MONGO_URL=mongodb://localhost:27017/secret_poll" +:+ String nl
       ("PORT=8001" +:+ String nl
          (("ENVIRONMENT=" +:+ env) +:+ String nl
             (("CORS_ORIGINS=" +:+ cors) +:+ String nl
                (("SECRET_KEY=" +:+ key) +:+ String nl
                   ("" +:+ String nl ("# Generated on $(date)" +:+ String nl ""))))))).
Proof.
  unfold backend_env.
  rewrite !append_assoc. reflexivity.
Qed.

Lemma no_char_nl_literal s :
  forallb (fun x => negb (Ascii.eqb x nl)) (String.list_ascii_of_string s) = true ->
  no_char nl s.
Proof. trivial. Qed.

Lemma backend_env_lookup env cors key :
  no_char nl env -> no_char nl cors ->
  let content := backend_env env cors key in
  env_lookup "MONGO_URL" content = Some "mongodb://localhost:27017/secret_poll" /\
  env_lookup "PORT" content = Some "8001" /\
  env_lookup "ENVIRONMENT" content = Some env /\
  env_lookup "CORS_ORIGINS" content = Some cors /\
  (no_char nl key -> env_lookup "SECRET_KEY" content = Some key).
Proof.
  intros Henv Hcors. cbv zeta. rewrite backend_env_lines.
  assert (Hsplit : exists rest,
            split_char nl
              ("# Secret Poll Backend Configuration" +:+ String nl
                 ("MONGO_URL=mongodb://localhost:27017/secret_poll" +:+ String nl
                    ("PORT=8001" +:+ String nl
                       (("ENVIRONMENT=" +:+ env) +:+ String nl
                          (("CORS_ORIGINS=" +:+ cors) +:+ String nl
                             (("SECRET_KEY=" +:+ key) +:+ String nl
                                ("" +:+ String nl ("# Generated on $(date)" +:+ String nl ""))))))))
            = ["# Secret Poll Backend Configuration";
               "MONGO_URL=mongodb://localhost:27017/secret_poll";
               "PORT=8001"; "ENVIRONMENT=" +:+ env; "CORS_ORIGINS=" +:+ cors] ++ rest /\
            (no_char nl key -> exists rest', rest = ("SECRET_KEY=" +:+ key) :: rest')).
  { rewrite split_char_line by (vm_compute; reflexivity).
    rewrite split_char_line by (vm_compute; reflexivity).
    rewrite split_char_line by (vm_compute; reflexivity).
    rewrite split_char_line by (apply no_char_app; [vm_compute; reflexivity | exact Henv]).
    rewrite split_char_line by (apply no_char_app; [vm_compute; reflexivity | exact Hcors]).
    eexists. split; [reflexivity |].
    intros Hkey.
    rewrite split_char_line by (apply no_char_app; [vm_compute; reflexivity | exact Hkey]).
    eexists. reflexivity. }
  unfold env_lookup. destruct Hsplit as (rest & -> & Hrest).
  cbn [app List.find].
  split; [| split; [| split; [| split]]].
  - reflexivity.
  - reflexivity.
  - change ("ENVIRONMENT" +:+ "=") with "ENVIRONMENT=".
    change (String.prefix "ENVIRONMENT=" "# Secret Poll Backend Configuration") with false.
    change (String.prefix "ENVIRONMENT=" "MONGO_URL=mongodb://localhost:27017/secret_poll")
      with false.
    change (String.prefix "ENVIRONMENT=" "PORT=8001") with false.
    cbv iota. rewrite prefix_append. by rewrite (skip_append "ENVIRONMENT=" env).
  - change ("CORS_ORIGINS" +:+ "=") with "CORS_ORIGINS=".
    change (String.prefix "CORS_ORIGINS=" "# Secret Poll Backend Configuration") with false.
    change (String.prefix "CORS_ORIGINS=" "MONGO_URL=mongodb://localhost:27017/secret_poll")
      with false.
    change (String.prefix "CORS_ORIGINS=" "PORT=8001") with false.
    change (String.prefix "CORS_ORIGINS=" ("ENVIRONMENT=" +:+ env)) with false.
    cbv iota. rewrite prefix_append. by rewrite (skip_append "CORS_ORIGINS=" cors).
  - intros Hkey. destruct (Hrest Hkey) as [rest' ->].
    change ("SECRET_KEY" +:+ "=") with "SECRET_KEY=".
    change (String.prefix "SECRET_KEY=" "# Secret Poll Backend Configuration") with false.
    change (String.prefix "SECRET_KEY=" "MONGO_URL=mongodb://localhost:27017/secret_poll")
      with false.
    change (String.prefix "SECRET_KEY=" "PORT=8001") with false.
    change (String.prefix "SECRET_KEY=" ("ENVIRONMENT=" +:+ env)) with false.
    change (String.prefix "SECRET_KEY=" ("CORS_ORIGINS=" +:+ cors)) with false.
    cbv iota. cbn [List.find]. rewrite prefix_append.
    by rewrite (skip_append "SECRET_KEY=" key).
Qed.

End BackendEnv.

(** [create_backend_config] writes one file, [backend/.env] under the
    installation directory.  Read back line by line, it gives
    [CORS_ORIGINS] as the [http] origin of the domain, followed by the
    [https] origin exactly when [enable_ssl] is true, [ENVIRONMENT] as
    configured, port 8001 and the local MongoDB URL; [SECRET_KEY] is the
    key of [generate_secret_key] (provided it holds no newline). *)
Theorem backend_env_file (W : Installer.World) (s : Installer.installer)
    (d env : string) (en : Installer.pyval) :
  Installer.config s !! "domain" = Some (Installer.VStr d) ->
  Installer.config s !! "enable_ssl" = Some en ->
  Installer.config s !! "environment" = Some (Installer.VStr env) ->
  Spec.no_char PyStr.nl d -> Spec.no_char PyStr.nl env ->
  (forall t path content, Installer.w_fs W t (Installer.Write path content) = None) ->
  exists content,
    Spec.writes (Spec.out (Installer.create_backend_config W s)) =
      [(Installer.path_join (Installer.path_join (Installer.install_dir s) "backend") ".env",
        content)] /\
    Spec.env_lookup "CORS_ORIGINS" content = Some (Props.backend_cors d (Installer.truthy en)) /\
    Spec.env_lookup "ENVIRONMENT" content = Some env /\
    Spec.env_lookup "PORT" content = Some "8001" /\
    Spec.env_lookup "MONGO_URL" content = Some "mongodb://localhost:27017/secret_poll" /\
    forall key, Spec.res (Installer.generate_secret_key W s) = Py.Return key ->
      Spec.no_char PyStr.nl key -> Spec.env_lookup "SECRET_KEY" content = Some key.
Proof.
  intros Hd Hen Henv Hnd Hne Hfs.
  assert (Hcors : Spec.no_char PyStr.nl (Props.backend_cors d (Installer.truthy en))).
  { unfold Props.backend_cors. destruct (Installer.truthy en).
    - apply no_char_app; [apply no_char_app; [vm_compute; reflexivity | exact Hnd] |].
      apply no_char_app; [vm_compute; reflexivity | exact Hnd].
    - apply no_char_app; [vm_compute; reflexivity | exact Hnd]. }
  assert (Hgen : exists key s' ev,
            Installer.generate_secret_key W s = (Py.Return key, s', ev) /\
            Spec.writes ev = [] /\ Installer.install_dir s' = Installer.install_dir s).
  { unfold Installer.generate_secret_key, Installer.try_bare, Installer.try_catch,
      Installer.subprocess_run, Installer.bind, Installer.ask, Installer.emit,
      Installer.ret, Installer.raise.
    destruct (Installer.w_subprocess W (Installer.tick s) ["openssl"; "rand"; "-hex"; "32"])
      as [rc stdout | | m |]; [destruct (rc =? 0) |..]; cbn; eauto 10. }
  destruct Hgen as (key & s' & ev & Hgen & Hev & Hdir).
  assert (Hkey : Spec.res (Installer.generate_secret_key W s) = Py.Return key /\
            Props.wp (Installer.create_backend_config W)
              (fun _ _ ev =>
                 Spec.writes ev =
                   [(Installer.path_join
                       (Installer.path_join (Installer.install_dir s) "backend") ".env",
                     Installer.backend_env env
                       (Props.backend_cors d (Installer.truthy en)) key)]) s []).
  { split; [rewrite Hgen; reflexivity |].
    unfold Installer.create_backend_config, Props.backend_cors.
    repeat first
      [ progress wp_go | progress wp_state
      | rewrite Hd | rewrite Hen | rewrite Henv | rewrite Hfs
      | match goal with
        | |- Props.wp (if ?b then _ else _) _ _ _ => destruct b
        | |- Props.wp (Installer.generate_secret_key W) _ _ _ =>
            unfold Props.wp at 1; rewrite Hgen; unfold Spec.res, Spec.st, Spec.out;
            cbn [fst snd]
        end ].
    all: rewrite !writes_app, Hev; reflexivity. }
  destruct Hkey as (Hres & Hw). unfold Props.wp in Hw. cbn [app] in Hw.
  eexists. split; [exact Hw |].
  destruct (backend_env_lookup env (Props.backend_cors d (Installer.truthy en)) key Hne Hcors)
    as (Hm & Hp & He & Hc & Hk).
  split; [exact Hc |]. split; [exact He |]. split; [exact Hp |]. split; [exact Hm |].
  intros key' Hres' Hn. rewrite Hres in Hres'. injection Hres' as <-. exact (Hk Hn).
Qed.

Lemma backend_env_file_witness :
  exists content,
    Spec.writes (Spec.out (Installer.create_backend_config Scenario.happy Scenario.collected)) =
      [("/opt/secret-poll/backend/.env", content)] /\
    Spec.env_lookup "CORS_ORIGINS" content = Some "http://example.com,https://example.com".
Proof.
  destruct (backend_env_file Scenario.happy Scenario.collected "example.com" "production"
              (Installer.VBool true)) as (content & Hw & Hc & _);
    try (vm_compute; reflexivity).
  exists content. split; [exact Hw | exact Hc].
Defined.

(** * Further properties of the validator *)

Section VwpRules.

Import PyStr Py Validator VProps.

Context {A : Type}.
Implicit Types (Q : result A -> validator -> Prop).

Lemma vwp_ret (a : A) Q v : Q (Return a) v -> vwp (ret a) Q v.
Proof. trivial. Qed.

Lemma vwp_raise (e : exn) Q v : Q (Raise e) v -> vwp (raise e) Q v.
Proof. trivial. Qed.

Lemma vwp_bind {B} (m : V B) (k : B -> V A) Q v :
  vwp m (vwp_then k Q) v -> vwp (bind m k) Q v.
Proof.
  unfold vwp, vwp_then, bind. destruct (m v) as [[b | e] v1]; cbn; trivial.
Qed.

Lemma vwp_try_catch (body : V A) (h : exn -> option (V A)) Q v :
  vwp body (vwp_catch h Q) v -> vwp (try_catch body h) Q v.
Proof.
  unfold vwp, vwp_catch, try_catch. destruct (body v) as [[a | e] v1]; cbn; [trivial |].
  destruct (h e); trivial.
Qed.

Lemma vwp_ask (W : World) (q : World -> nat -> A) Q v :
  Q (Return (q W (tick v))) (later 1 v) -> vwp (ask W q) Q v.
Proof. trivial. Qed.

End VwpRules.

Section VwpUnit.

Import PyStr Py Validator VProps.

Implicit Types (Q : result unit -> validator -> Prop).

Lemma vwp_log_issue msg Q v :
  Q (Return tt) {| issues := issues v ++ [msg]; warnings := warnings v;
                   successes := successes v; tick := tick v |} ->
  vwp (log_issue msg) Q v.
Proof. trivial. Qed.

Lemma vwp_log_warning msg Q v :
  Q (Return tt) {| issues := issues v; warnings := warnings v ++ [msg];
                   successes := successes v; tick := tick v |} ->
  vwp (log_warning msg) Q v.
Proof. trivial. Qed.

Lemma vwp_log_success msg Q v :
  Q (Return tt) {| issues := issues v; warnings := warnings v;
                   successes := successes v ++ [msg]; tick := tick v |} ->
  vwp (log_success msg) Q v.
Proof. trivial. Qed.

Lemma vwp_for_each_nil {B} (body : B -> V unit) Q v :
  Q (Return tt) v -> vwp (for_each [] body) Q v.
Proof. trivial. Qed.

Lemma vwp_for_each_cons {B} (x : B) l (body : B -> V unit) Q v :
  vwp (body x) (vwp_then (fun _ => for_each l body) Q) v ->
  vwp (for_each (x :: l) body) Q v.
Proof. cbn [for_each]. apply vwp_bind. Qed.

(** A loop whose body always returns and keeps an invariant indexed by
    the number of rounds. *)
Lemma vwp_for_each_inv {B} (P : nat -> validator -> Prop) (l : list B)
    (body : B -> V unit) n v :
  P n v ->
  (forall x k u, P k u -> vwp (body x) (fun r u' => r = Return tt /\ P (S k) u') u) ->
  vwp (for_each l body) (fun r u' => r = Return tt /\ P (length l + n)%nat u') v.
Proof.
  intros Hv Hbody. revert n v Hv.
  induction l as [| x l IH]; intros n v Hv; cbn [for_each length].
  - split; [reflexivity | exact Hv].
  - apply vwp_bind. specialize (Hbody x n v Hv). unfold vwp in *.
    destruct Hbody as [Hr HP]. rewrite Hr. cbn.
    specialize (IH (S n) _ HP). unfold vwp in IH.
    replace (S (length l + n)) with (length l + S n)%nat by lia. exact IH.
Qed.

Lemma vwp_for_each_after {B} (P : nat -> validator -> Prop) (l : list B)
    (body : B -> V unit) n Q v :
  P n v ->
  (forall x k u, P k u -> vwp (body x) (fun r u' => r = Return tt /\ P (S k) u') u) ->
  (forall u', P (length l + n)%nat u' -> Q (Return tt) u') ->
  vwp (for_each l body) Q v.
Proof.
  intros Hv Hbody HQ. destruct (vwp_for_each_inv P l body n v Hv Hbody) as [Hr HP].
  unfold vwp. rewrite Hr. apply HQ, HP.
Qed.

End VwpUnit.

Section VwpWorld.

Import PyStr Py Validator VProps.

Variable W : World.

Lemma vwp_path_exists path Q v :
  Q (Return (w_exists W (tick v) path)) (later 1 v) -> vwp (path_exists W path) Q v.
Proof. trivial. Qed.

Lemma vwp_read_file path Q v :
  match w_read W (tick v) path with
  | Content text => Q (Return text) (later 1 v)
  | ReadNotFound =>
      Q (Raise (FileNotFoundError
                  ("[Errno 2] No such file or directory: '" +:+ path +:+ "'"))) (later 1 v)
  | ReadError m => Q (Raise (OSError m)) (later 1 v)
  end -> vwp (read_file W path) Q v.
Proof.
  unfold vwp, read_file, bind, ask. cbn. destruct (w_read W (tick v) path); trivial.
Qed.

Lemma vwp_subprocess_run cmd Q v :
  match w_run W (tick v) cmd with
  | Completed rc out err => Q (Return (rc, out, err)) (later 1 v)
  | RunNotFound =>
      Q (Raise (FileNotFoundError
                  ("[Errno 2] No such file or directory: '" +:+ hd "" cmd +:+ "'")))
        (later 1 v)
  | RunOSError m => Q (Raise (OSError m)) (later 1 v)
  | RunInterrupted => Q (Raise KeyboardInterrupt) (later 1 v)
  end -> vwp (subprocess_run W cmd) Q v.
Proof.
  unfold vwp, subprocess_run, bind, ask. cbn. destruct (w_run W (tick v) cmd); trivial.
Qed.

End VwpWorld.

Ltac vwp_reduce :=
  cbv beta iota zeta delta [VProps.vwp_then VProps.vwp_catch Py.is_Exception
                            Validator.try_Exception Validator.try_nf_exc].

Ltac vwp_step :=
  lazymatch goal with
  | |- VProps.vwp (Validator.bind _ _) _ _ => apply vwp_bind
  | |- VProps.vwp (Validator.try_catch _ _) _ _ => apply vwp_try_catch
  | |- VProps.vwp (Validator.ret _) _ _ => apply vwp_ret
  | |- VProps.vwp (Validator.raise _) _ _ => apply vwp_raise
  | |- VProps.vwp (Validator.ask _ _) _ _ => apply vwp_ask
  | |- VProps.vwp (Validator.log_issue _) _ _ => apply vwp_log_issue
  | |- VProps.vwp (Validator.log_warning _) _ _ => apply vwp_log_warning
  | |- VProps.vwp (Validator.log_success _) _ _ => apply vwp_log_success
  | |- VProps.vwp (Validator.for_each [] _) _ _ => apply vwp_for_each_nil
  | |- VProps.vwp (Validator.for_each (_ :: _) _) _ _ => apply vwp_for_each_cons
  | |- VProps.vwp (Validator.path_exists _ _) _ _ => apply vwp_path_exists
  | |- VProps.vwp (Validator.read_file _ _) _ _ => apply vwp_read_file
  | |- VProps.vwp (Validator.subprocess_run _ _) _ _ => apply vwp_subprocess_run
  end.

Ltac vwp_go := repeat (vwp_reduce; vwp_step); vwp_reduce.

Ltac vwp_run :=
  repeat first
    [ progress vwp_go
    | progress cbn [Validator.issues Validator.warnings Validator.successes Validator.tick
                    VProps.later]
    | match goal with
      | |- match ?x with _ => _ end => destruct x eqn:?
      | |- VProps.vwp (match ?x with _ => _ end) _ _ => destruct x eqn:?
      end ].

(** ** Network checks *)

(** Whatever the network answers, [validate_network_requirements]
    returns and records no issue: each of the four sites and each of the
    four ports gives one success or one warning.  A host without network
    access, or with all four ports taken, can still be declared ready. *)
Theorem network_checks_never_block (W : Validator.World) (v : Validator.validator) :
  let a := Validator.validate_network_requirements W v in
  fst a = Py.Return tt /\
  Validator.issues (snd a) = Validator.issues v /\
  (length (Validator.warnings (snd a)) + length (Validator.successes (snd a)) =
   length (Validator.warnings v) + length (Validator.successes v) + 8)%nat.
Proof.
  cbv zeta.
  set (P := fun (n : nat) (u : Validator.validator) =>
              Validator.issues u = Validator.issues v /\
              (length (Validator.warnings u) + length (Validator.successes u) =
               length (Validator.warnings v) + length (Validator.successes v) + n)%nat).
  change (VProps.vwp (Validator.validate_network_requirements W)
            (fun r u => r = Py.Return tt /\ P 8%nat u) v).
  unfold Validator.validate_network_requirements.
  apply vwp_bind.
  apply (vwp_for_each_after P) with (n := 0%nat); [split; [reflexivity | lia] | |].
  { intros url k u [Hi Hn]. unfold P. vwp_run;
      (split; [reflexivity |]); (split; [exact Hi |]); rewrite ?length_app; cbn; lia. }
  intros u HP. unfold VProps.vwp_then.
  apply (vwp_for_each_after P) with (n := 4%nat); [exact HP | |].
  { intros port k u' [Hi Hn]. unfold P. vwp_run;
      (split; [reflexivity |]); (split; [exact Hi |]); rewrite ?length_app; cbn; lia. }
  intros u' HP'. split; [reflexivity | exact HP'].
Qed.

(** ** Application files *)

Section ApplicationFiles.

Import PyStr Py Validator VProps.

Variable W : World.

(** The look into [server.py] records no issue and always returns. *)
Lemma vwp_backend_components Q u :
  (forall u', issues u' = issues u -> Q (Return tt) u') ->
  vwp (try_Exception
         (server_content <- read_file W "/app/backend/server.py" ;;
          for_each ["FastAPI"; "WebSocket"; "MongoDB"; "health"] (fun component =>
            if contains (lower component) (lower server_content)
            then log_success ("Backend has " +:+ component +:+ " support")
            else log_warning ("Backend missing " +:+ component +:+ " support")))
         (fun e => log_warning ("Could not validate backend: " +:+ exn_str e))) Q u.
Proof.
  intros HQ. vwp_go.
  destruct (w_read W (tick u) "/app/backend/server.py") as [text | | m];
    [| vwp_go; apply HQ; reflexivity | vwp_go; apply HQ; reflexivity].
  vwp_reduce.
  apply (vwp_for_each_after (fun _ u' => issues u' = issues u)) with (n := 0%nat);
    [reflexivity | | intros u' Hu'; apply HQ, Hu'].
  intros x k u' Hu'. destruct (contains (lower x) (lower text)); vwp_go; auto.
Qed.

End ApplicationFiles.


(** ** What can stop the validator *)

Section Raises.

Import PyStr Py Validator VProps.

Variable W : World.

Lemma raises_ret U {A} (a : A) : raises W U (ret a).
Proof. intros v e [=]. Qed.

Lemma raises_log_issue U msg : raises W U (log_issue msg).
Proof. intros v e [=]. Qed.

Lemma raises_log_warning U msg : raises W U (log_warning msg).
Proof. intros v e [=]. Qed.

Lemma raises_log_success U msg : raises W U (log_success msg).
Proof. intros v e [=]. Qed.

Lemma raises_ask U {A} (q : World -> nat -> A) : raises W U (ask W q).
Proof. intros v e [=]. Qed.

Lemma raises_path_exists U p : raises W U (path_exists W p).
Proof. intros v e [=]. Qed.

Lemma raises_guarded {A} (e : exn) : is_Exception e = true -> raises W any_Exception (@raise A e).
Proof. intros He v e' [= <-]. right. exact He. Qed.

Lemma raises_int s : raises W any_Exception (int s).
Proof. unfold int. destruct (parse_int s); [apply raises_ret | apply raises_guarded; reflexivity]. Qed.

Lemma raises_index l i : raises W any_Exception (index l i).
Proof. unfold index. destruct (l !! i); [apply raises_ret | apply raises_guarded; reflexivity]. Qed.

Lemma raises_bind U {A B} (m : V A) (k : A -> V B) :
  raises W U m -> (forall a, raises W U (k a)) -> raises W U (bind m k).
Proof.
  intros Hm Hk v e. specialize (Hm v). unfold bind.
  destruct (m v) as [[a | e'] v1]; cbn in *.
  - apply Hk.
  - intros [= <-]. apply Hm. reflexivity.
Qed.

Lemma raises_for_each U {A} (l : list A) (body : A -> V unit) :
  (forall x, raises W U (body x)) -> raises W U (for_each l body).
Proof.
  intros Hb. induction l as [| x l IH]; cbn [for_each]; [apply raises_ret |].
  apply raises_bind; [apply Hb | intros _; exact IH].
Qed.

Lemma raises_try_Exception U {A} (body : V A) (handler : exn -> V A) :
  raises W any_Exception body -> (forall e, raises W U (handler e)) ->
  raises W U (try_Exception body handler).
Proof.
  intros Hb Hh v e. specialize (Hb v). unfold try_Exception, try_catch.
  destruct (body v) as [[a | e'] v1]; cbn in *; [discriminate |].
  destruct (is_Exception e') eqn:He'; cbn.
  - apply Hh.
  - intros [= <-]. destruct (Hb e' eq_refl) as [H | H]; [left; exact H |].
    unfold any_Exception in H. congruence.
Qed.

Lemma raises_try_nf_exc U {A} (body nf : V A) (other : exn -> V A) :
  raises W any_Exception body -> raises W U nf -> (forall e, raises W U (other e)) ->
  raises W U (try_nf_exc body nf other).
Proof.
  intros Hb Hn Ho v e. specialize (Hb v). unfold try_nf_exc, try_catch.
  destruct (body v) as [[a | e'] v1]; cbn in *; [discriminate |].
  destruct e'; cbn; try apply Hn; try apply Ho.
  all: intros [= <-]; destruct (Hb _ eq_refl) as [H | H]; [left; exact H | discriminate].
Qed.

Lemma raises_subprocess_run cmd : raises W any_Exception (subprocess_run W cmd).
Proof.
  intros v e. unfold subprocess_run, bind, ask. cbn.
  destruct (w_run W (tick v) cmd) eqn:Hrun; cbn; intros [= <-];
    try (right; reflexivity).
  left. split; [reflexivity | eauto].
Qed.

Lemma raises_read_file_guarded p : raises W any_Exception (read_file W p).
Proof.
  intros v e. unfold read_file, bind, ask. cbn.
  destruct (w_read W (tick v) p); cbn; intros [= <-]; right; reflexivity.
Qed.

Lemma raises_read_file p :
  In p ["/app/install.py"; "/app/backend/requirements.txt"] ->
  raises W (unreadable W) (read_file W p).
Proof.
  intros Hp v e. unfold read_file, bind, ask. cbn.
  destruct (w_read W (tick v) p) eqn:Hread; cbn; intros [= <-]; right;
    (split; [reflexivity |]); exists (tick v), p; (split; [exact Hp |]);
    intros text; rewrite Hread; discriminate.
Qed.

Ltac raises_go :=
  cbv zeta;
  repeat first
    [ apply raises_ret | apply raises_log_issue | apply raises_log_warning
    | apply raises_log_success | apply raises_ask | apply raises_path_exists
    | apply raises_int | apply raises_index | apply raises_subprocess_run
    | apply raises_read_file_guarded
    | apply raises_read_file; cbn; tauto
    | apply raises_guarded; reflexivity
    | apply raises_bind; [| intros ?]
    | apply raises_for_each; intros ?
    | apply raises_try_Exception; [| intros ?]
    | apply raises_try_nf_exc; [| | intros ?]
    | match goal with |- raises _ _ (match ?x with _ => _ end) => destruct x end ].

Lemma raises_validate_install_script : raises W (unreadable W) (validate_install_script W).
Proof. unfold validate_install_script. raises_go. Qed.

Lemma raises_validate_system_compatibility : raises W no_exception (validate_system_compatibility W).
Proof. unfold validate_system_compatibility. raises_go. Qed.

Lemma raises_validate_node_compatibility : raises W no_exception (validate_node_compatibility W).
Proof. unfold validate_node_compatibility. raises_go. Qed.

Lemma raises_validate_backend_dependencies : raises W (unreadable W) (validate_backend_dependencies W).
Proof. unfold validate_backend_dependencies. raises_go. Qed.

Lemma raises_validate_frontend_dependencies : raises W no_exception (validate_frontend_dependencies W).
Proof. unfold validate_frontend_dependencies. raises_go. Qed.

Lemma raises_validate_network_requirements : raises W no_exception (validate_network_requirements W).
Proof. unfold validate_network_requirements. raises_go. Qed.

Lemma raises_validate_security_requirements : raises W no_exception (validate_security_requirements W).
Proof. unfold validate_security_requirements. raises_go. Qed.

Lemma raises_validate_application_files : raises W no_exception (validate_application_files W).
Proof. unfold validate_application_files. raises_go. Qed.

Lemma raises_weaken {A} (m : V A) : raises W no_exception m -> raises W (unreadable W) m.
Proof. intros H v e He. destruct (H v e He) as [Hi | []]. left. exact Hi. Qed.

Lemma raises_all_validations : raises W (unreadable W) (all_validations W).
Proof.
  unfold all_validations.
  apply raises_bind; [apply raises_validate_install_script | intros _].
  apply raises_bind; [apply raises_weaken, raises_validate_system_compatibility | intros _].
  apply raises_bind; [apply raises_weaken, raises_validate_node_compatibility | intros _].
  apply raises_bind; [apply raises_validate_backend_dependencies | intros _].
  apply raises_bind; [apply raises_weaken, raises_validate_frontend_dependencies | intros _].
  apply raises_bind; [apply raises_weaken, raises_validate_network_requirements | intros _].
  apply raises_bind; [apply raises_weaken, raises_validate_security_requirements | intros _].
  apply raises_weaken, raises_validate_application_files.
Qed.

End Raises.


(** * Rules for the events of a run *)

Section TraceRules.

Import PyStr Py Installer Spec Trace.

Variable I : installer -> Prop.
Hypothesis HI : stable I.
Variable C : list string -> Prop.
Variable F : fs_op -> Prop.

Lemma emits_ret {A} (a : A) : emits I C F (ret a).
Proof. intros s Hs. split; [exact Hs | constructor]. Qed.

Lemma emits_raise {A} (e : exn) : emits I C F (@raise A e).
Proof. intros s Hs. split; [exact Hs | constructor]. Qed.

Lemma emits_sys_exit {A} (c : Z) : emits I C F (@sys_exit A c).
Proof. apply emits_raise. Qed.

Lemma emits_get {A} (f : installer -> A) : emits I C F (get f).
Proof. intros s Hs. split; [exact Hs | constructor]. Qed.

Lemma emits_pure_method {A} (f : installer -> result A) : emits I C F (pure_method f).
Proof. intros s Hs. split; [exact Hs | constructor]. Qed.

Lemma emits_get_config key : emits I C F (get_config key).
Proof.
  intros s Hs. unfold get_config, st, out.
  destruct (config s !! key); cbn; (split; [exact Hs | constructor]).
Qed.

Lemma emits_set_config key v : emits I C F (set_config key v).
Proof. intros s Hs. split; [apply (st_config I HI), Hs | constructor]. Qed.

Lemma emits_modify f : (forall s, I s -> I (f s)) -> emits I C F (modify f).
Proof. intros Hf s Hs. split; [apply Hf, Hs | constructor]. Qed.

Lemma emits_emit ev : allowed C F ev -> emits I C F (emit ev).
Proof. intros Hev s Hs. split; [exact Hs | repeat constructor; exact Hev]. Qed.

Lemma emits_log msg lv : emits I C F (log msg lv).
Proof. apply emits_emit. exact Logic.I. Qed.

Lemma emits_sleep n : emits I C F (sleep n).
Proof. apply emits_emit. exact Logic.I. Qed.

Lemma emits_bind {A B} (m : M A) (k : A -> M B) :
  emits I C F m -> (forall a, emits I C F (k a)) -> emits I C F (bind m k).
Proof.
  intros Hm Hk s Hs. destruct (Hm s Hs) as [H1 H2]. revert H1 H2.
  unfold bind, st, out. destruct (m s) as [[[a | e] s1] d1]; cbn; [| auto].
  intros H1 H2. destruct (Hk a s1 H1) as [H3 H4]. revert H3 H4.
  unfold st, out. destruct (k a s1) as [[r s2] d2]; cbn.
  intros H3 H4. split; [exact H3 | apply Forall_app; auto].
Qed.

(** Under [I] the field [f] has the value [v]: the method goes on with
    that value. *)
Lemma emits_bind_get {A B} (f : installer -> A) (v : A) (k : A -> M B) :
  (forall s, I s -> f s = v) -> emits I C F (k v) -> emits I C F (bind (get f) k).
Proof.
  intros Hf Hk s Hs. specialize (Hk s Hs). revert Hk.
  unfold bind, get, st, out. rewrite (Hf s Hs).
  destruct (k v s) as [[r s2] d2]; cbn. auto.
Qed.

Lemma emits_try_catch {A} (body : M A) (h : exn -> option (M A)) :
  emits I C F body -> (forall e m, h e = Some m -> emits I C F m) ->
  emits I C F (try_catch body h).
Proof.
  intros Hb Hh s Hs. destruct (Hb s Hs) as [H1 H2]. revert H1 H2.
  unfold try_catch, st, out. destruct (body s) as [[[a | e] s1] d1]; cbn; [auto |].
  intros H1 H2. destruct (h e) as [m |] eqn:He; [| auto].
  destruct (Hh e m He s1 H1) as [H3 H4]. revert H3 H4.
  unfold st, out. destruct (m s1) as [[r s2] d2]; cbn.
  intros H3 H4. split; [exact H3 | apply Forall_app; auto].
Qed.

Lemma emits_try_bare {A} (body handler : M A) :
  emits I C F body -> emits I C F handler -> emits I C F (try_bare body handler).
Proof. intros Hb Hh. apply emits_try_catch; [exact Hb |]. intros e m [= <-]. exact Hh. Qed.

Lemma emits_try_Exception {A} (body : M A) (handler : exn -> M A) :
  emits I C F body -> (forall e, emits I C F (handler e)) ->
  emits I C F (try_Exception body handler).
Proof.
  intros Hb Hh. apply emits_try_catch; [exact Hb |]. intros e m.
  destruct (is_Exception e); [intros [= <-]; apply Hh | discriminate].
Qed.

Lemma emits_for_each {A} (l : list A) (body : A -> M unit) :
  (forall x, In x l -> emits I C F (body x)) -> emits I C F (for_each l body).
Proof.
  induction l as [| x l IH]; intros Hb; cbn [for_each]; [apply emits_ret |].
  apply emits_bind; [apply Hb; left; reflexivity |].
  intros _. apply IH. intros y Hy. apply Hb. right. exact Hy.
Qed.

Lemma emits_when b (m : M unit) : emits I C F m -> emits I C F (when b m).
Proof. intros Hm. destruct b; [exact Hm | apply emits_ret]. Qed.

Lemma emits_progress d : emits I C F (progress d).
Proof.
  unfold progress. apply emits_bind.
  - intros s Hs. split; [apply (st_step I HI), Hs | constructor].
  - intros _. apply emits_bind; [apply emits_get | intros cur].
    apply emits_bind; [apply emits_get | intros tot]. apply emits_log.
Qed.

Lemma emits_input : emits I C F input.
Proof.
  intros s Hs. unfold input, st, out.
  destruct (stdin s) as [| [l |] rest]; cbn;
    (split; [first [exact Hs | apply (st_stdin I HI), Hs] | constructor]).
Qed.

Lemma emits_input_loop {A} (accept : string -> option A) : emits I C F (input_loop accept).
Proof.
  intros s Hs. unfold input_loop, st, out.
  destruct (read_until accept (stdin s)) as [r rest]; cbn.
  split; [apply (st_stdin I HI), Hs | constructor].
Qed.

Variable W : World.

Lemma emits_ask {A} (q : World -> nat -> A) : emits I C F (ask W q).
Proof. intros s Hs. split; [apply (st_bump I HI), Hs | constructor]. Qed.

Lemma emits_path_exists p : emits I C F (path_exists W p).
Proof. apply emits_ask. Qed.

Lemma emits_read_file p : emits I C F (read_file W p).
Proof.
  unfold read_file. apply emits_bind; [apply emits_ask |].
  intros [text | | m]; [apply emits_ret | apply emits_raise | apply emits_raise].
Qed.

Lemma emits_subprocess_run cmd check : C cmd -> emits I C F (subprocess_run W cmd check).
Proof.
  intros Hc. unfold subprocess_run. apply emits_bind; [apply emits_ask | intros o].
  apply emits_bind; [apply emits_emit; exact Hc | intros _].
  destruct o as [rc out | | m |]; try apply emits_raise.
  destruct (check && negb (rc =? 0)); [apply emits_raise | apply emits_ret].
Qed.

Lemma emits_fs op : F op -> emits I C F (fs W op).
Proof.
  intros Hf. unfold fs. apply emits_bind; [apply emits_ask | intros o].
  destruct o; [apply emits_raise | apply emits_emit; exact Hf].
Qed.

Lemma emits_write_file p c : F (Write p c) -> emits I C F (write_file W p c).
Proof. apply emits_fs. Qed.

Lemma emits_show_recent_log : emits I C F (show_recent_log W).
Proof.
  unfold show_recent_log. apply emits_bind; [apply emits_get | intros p].
  apply emits_bind; [apply emits_ask | intros o].
  destruct o; [apply emits_emit; exact Logic.I | apply emits_ret | apply emits_ret].
Qed.

Lemma emits_run_command cmd d c i : C cmd -> emits I C F (run_command W cmd d c i).
Proof.
  intros Hc. unfold run_command. apply emits_try_catch.
  - apply emits_bind; [apply emits_when, emits_log | intros _].
    apply emits_bind; [apply emits_subprocess_run, Hc | intros r]. apply emits_ret.
  - intros e m. destruct e; try discriminate; intros [= <-].
    + apply emits_bind; [apply emits_log | intros _].
      apply emits_bind; [apply emits_log | intros _].
      destruct i.
      * apply emits_bind; [apply emits_log | intros _; apply emits_ret].
      * apply emits_bind; [apply emits_show_recent_log | intros _; apply emits_sys_exit].
    + apply emits_bind; [apply emits_log | intros _].
      destruct i; [apply emits_ret | apply emits_sys_exit].
Qed.

Lemma emits_run cmd : C cmd -> emits I C F (run W cmd).
Proof. apply emits_run_command. Qed.

Lemma emits_run_d cmd d : C cmd -> emits I C F (run_d W cmd d).
Proof. apply emits_run_command. Qed.

Lemma emits_run_ignore cmd : C cmd -> emits I C F (run_ignore W cmd).
Proof. apply emits_run_command. Qed.

End TraceRules.

Section TraceWeaken.

Import PyStr Py Installer Spec Trace.

Lemma allowed_weaken (C C' : list string -> Prop) (F F' : fs_op -> Prop) ev :
  (forall c, C c -> C' c) -> (forall op, F op -> F' op) ->
  allowed C F ev -> allowed C' F' ev.
Proof. intros HC HF. destruct ev; cbn; auto. Qed.

Lemma emits_weaken I (C C' : list string -> Prop) (F F' : fs_op -> Prop) {A} (m : M A) :
  (forall c, C c -> C' c) -> (forall op, F op -> F' op) ->
  emits I C F m -> emits I C' F' m.
Proof.
  intros HC HF Hm s Hs. destruct (Hm s Hs) as [H1 H2]. split; [exact H1 |].
  eapply Forall_impl; [exact H2 |]. intros ev. apply allowed_weaken; assumption.
Qed.

Lemma stable_anywhere : stable anywhere.
Proof. split; intros; exact Logic.I. Qed.

Lemma stable_at_home dir svc : stable (at_home dir svc).
Proof.
  split; intros;
    match goal with H : at_home _ _ _ |- _ => exact H end.
Qed.

Lemma stable_serves svc : stable (serves svc).
Proof.
  split; intros;
    match goal with H : serves _ _ |- _ => exact H end.
Qed.

Lemma at_home_dir dir svc s : at_home dir svc s -> install_dir s = dir.
Proof. intros [H _]. exact H. Qed.

Lemma at_home_svc dir svc s : at_home dir svc s -> service_name s = svc.
Proof. intros [_ H]. exact H. Qed.

End TraceWeaken.

Ltac head_of t :=
  lazymatch t with
  | ?f _ => head_of f
  | _ => t
  end.

Ltac split_scrutinee x :=
  lazymatch x with
  | (if ?b then _ else _) => split_scrutinee b
  | (match ?y with _ => _ end) => split_scrutinee y
  | _ => destruct x
  end.

Ltac emits_step :=
  lazymatch goal with
  | |- Trace.emits (Trace.at_home ?dir _) _ _ (Installer.bind (Installer.get Installer.install_dir) _) =>
      apply (emits_bind_get _ _ _ Installer.install_dir dir);
      [ let s := fresh "s" in let Hs := fresh "Hs" in
        intros s Hs; exact (at_home_dir _ _ s Hs) |]
  | |- Trace.emits (Trace.at_home _ ?svc) _ _ (Installer.bind (Installer.get Installer.service_name) _) =>
      apply (emits_bind_get _ _ _ Installer.service_name svc);
      [ let s := fresh "s" in let Hs := fresh "Hs" in
        intros s Hs; exact (at_home_svc _ _ s Hs) |]
  | |- Trace.emits _ _ _ (Installer.bind _ _) => apply emits_bind
  | |- Trace.emits _ _ _ (Installer.try_catch _ _) => apply emits_try_catch
  | |- Trace.emits _ _ _ (Installer.try_bare _ _) => apply emits_try_bare
  | |- Trace.emits _ _ _ (Installer.try_Exception _ _) => apply emits_try_Exception
  | |- Trace.emits _ _ _ (Installer.ret _) => apply emits_ret
  | |- Trace.emits _ _ _ (Installer.raise _) => apply emits_raise
  | |- Trace.emits _ _ _ (Installer.sys_exit _) => apply emits_sys_exit
  | |- Trace.emits _ _ _ (Installer.get _) => apply emits_get
  | |- Trace.emits _ _ _ (Installer.pure_method _) => apply emits_pure_method
  | |- Trace.emits _ _ _ (Installer.get_config _) => apply emits_get_config
  | |- Trace.emits _ _ _ (Installer.set_config _ _) => apply emits_set_config
  | |- Trace.emits Trace.anywhere _ _ (Installer.modify _) =>
      apply emits_modify; intros ? _; exact Logic.I
  | |- Trace.emits (Trace.serves _) _ _ (Installer.modify _) =>
      let H := fresh "H" in
      apply emits_modify; intros ? H; exact H
  | |- Trace.emits _ _ _ (Installer.log _ _) => apply emits_log
  | |- Trace.emits _ _ _ (Installer.sleep _) => apply emits_sleep
  | |- Trace.emits _ _ _ (Installer.progress _) => apply emits_progress
  | |- Trace.emits _ _ _ Installer.input => apply emits_input
  | |- Trace.emits _ _ _ (Installer.input_loop _) => apply emits_input_loop
  | |- Trace.emits _ _ _ (Installer.ask _ _) => apply emits_ask
  | |- Trace.emits _ _ _ (Installer.path_exists _ _) => apply emits_path_exists
  | |- Trace.emits _ _ _ (Installer.read_file _ _) => apply emits_read_file
  | |- Trace.emits _ _ _ (Installer.when _ _) => apply emits_when
  | |- Trace.emits _ _ _ (Installer.subprocess_run _ _ _) => apply emits_subprocess_run
  | |- Trace.emits _ _ _ (Installer.fs _ _) => apply emits_fs
  | |- Trace.emits _ _ _ (Installer.write_file _ _ _) => apply emits_write_file
  | |- Trace.emits _ _ _ (Installer.run_command _ _ _ _ _) => apply emits_run_command
  | |- Trace.emits _ _ _ (Installer.run _ _) => apply emits_run
  | |- Trace.emits _ _ _ (Installer.run_d _ _ _) => apply emits_run_d
  | |- Trace.emits _ _ _ (Installer.run_ignore _ _) => apply emits_run_ignore
  | |- Trace.emits _ _ _ (Installer.for_each [] _) => apply emits_ret
  | |- Trace.emits _ _ _ (Installer.for_each (_ :: _) _) =>
      cbn [Installer.for_each]
  | |- Trace.emits _ _ _ (Installer.for_each _ _) =>
      apply emits_for_each; intros ? _
  | |- Trace.emits _ _ _ (Installer.gpg_loop _ Installer.gpg_commands) =>
      unfold Installer.gpg_commands; cbn [Installer.gpg_loop]
  | |- Trace.emits _ _ _ (Installer.mongodb_service_loop _ _) =>
      cbn [Installer.mongodb_service_loop]
  | |- Trace.emits _ _ _ (Installer.gpg_loop _ _) =>
      cbn [Installer.gpg_loop]
  | |- Trace.emits _ _ _ (if ?b then _ else _) => split_scrutinee b
  | |- Trace.emits _ _ _ (match ?x with _ => _ end) => split_scrutinee x
  | |- Trace.emits _ _ _ ?m => let h := head_of m in unfold h
  end.

Ltac emits_go leaf :=
  cbv beta zeta;
  lazymatch goal with
  | |- Trace.stable _ => first [apply stable_at_home | apply stable_anywhere | apply stable_serves]
  | |- Trace.emits _ _ _ _ => emits_step; emits_go leaf
  | |- forall e m, _ = Some m -> _ =>
      let e := fresh "e" in
      let m := fresh "m" in
      intros e m; destruct e; cbn [Py.is_Exception]; try discriminate;
      intros [= <-]; emits_go leaf
  | |- forall _, _ => intro; emits_go leaf
  | |- _ => leaf
  end.

(** * What the installer touches *)

Ltac in_list := cbn [In]; solve [repeat first [left; reflexivity | right]].

Ltac own_fs_leaf :=
  unfold Trace.own_fs, Installer.path_join; rewrite ?append_assoc;
  first [ exact Logic.I | reflexivity | in_list
        | split; [reflexivity |]; first [reflexivity | in_list] ].

Section Footprint.

Import PyStr Py Installer Spec Trace.

Variable W : World.

Lemma Forall_allowed_fs C F d : Forall (allowed C F) d -> Forall F (fs_effects d).
Proof.
  induction 1 as [| ev d Hev _ IH]; [constructor |].
  unfold fs_effects in *. destruct ev; cbn in *; auto.
Qed.

Lemma Forall_allowed_runs C F d : Forall (allowed C F) d -> Forall C (runs d).*1.
Proof.
  induction 1 as [| ev d Hev _ IH]; [constructor |].
  unfold runs in *. destruct ev; cbn in *; auto.
Qed.

(** The three parts of the run put together: the directory of the last
    part is the one that the installer object has in the end. *)
Lemma run_installation_allowed (C : string -> list string -> Prop)
    (F : string -> fs_op -> Prop) (s : installer) :
  (forall dir, emits (at_home (install_dir s) (service_name s)) (C dir) (F dir)
                 (pre_collection W)) ->
  (forall dir, emits (serves (service_name s)) (C dir) (F dir) (collect_configuration W)) ->
  (forall dir, emits (at_home dir (service_name s)) (C dir) (F dir) (post_collection W)) ->
  let a := run_installation W s in
  Forall (allowed (C (install_dir (st a))) (F (install_dir (st a)))) (out a).
Proof.
  intros Hpre Hcol Hpost. cbv zeta. rewrite run_installation_eq.
  assert (Hbody : let b := run_installation_body W s in
            Forall (allowed (C (install_dir (st b))) (F (install_dir (st b)))) (out b)).
  { cbv zeta. unfold run_installation_body, bind, st, out.
    assert (Hs : at_home (install_dir s) (service_name s) s) by (split; reflexivity).
    pose proof (fun dir => Hpre dir s Hs) as H1. unfold st, out in H1.
    destruct (pre_collection W s) as [[[[] | e] s1] d1]; cbn [fst snd] in *;
      [| apply H1].
    assert (Hs1 : serves (service_name s) s1) by (destruct (H1 "") as [[_ H] _]; exact H).
    pose proof (fun dir => Hcol dir s1 Hs1) as H2. unfold st, out in H2.
    destruct (collect_configuration W s1) as [[[[] | e] s2] d2]; cbn [fst snd] in *;
      [| apply Forall_app; split; [apply H1 | apply H2]].
    assert (Hs2 : at_home (install_dir s2) (service_name s) s2)
      by (split; [reflexivity | destruct (H2 "") as [H _]; exact H]).
    pose proof (fun dir => Hpost dir s2) as H3. unfold st, out in H3.
    destruct (post_collection W s2) as [[r s3] d3]; cbn [fst snd] in *.
    destruct (H3 _ Hs2) as [[Hdir _] Hd3]. rewrite Hdir.
    apply Forall_app; split; [apply H1 |].
    apply Forall_app; split; [apply H2 | exact Hd3]. }
  cbv zeta in Hbody. unfold st, out in *.
  destruct (run_installation_body W s) as [[[a | e] s1] d1]; cbn [fst snd] in *;
    [exact Hbody |].
  destruct e; cbn [fst snd]; try exact Hbody;
    (apply Forall_app; split; [exact Hbody | repeat constructor]).
Qed.

Lemma pre_collection_fs dir0 svc :
  emits (at_home dir0 svc) any_cmd no_fs (pre_collection W).
Proof. emits_go ltac:(exact Logic.I). Qed.

Lemma collect_configuration_fs svc : emits (serves svc) no_cmd no_fs (collect_configuration W).
Proof. emits_go ltac:(exact Logic.I). Qed.

Lemma post_collection_fs dir svc :
  emits (at_home dir svc) any_cmd (own_fs (w_script_dir W) dir svc) (post_collection W).
Proof. emits_go ltac:(own_fs_leaf). Qed.

End Footprint.

(** In a run of the installer, whatever the host and the operator do,
    every change that the installer itself makes to the file system
    (child processes and the log file apart) is one of a fixed list:
    it writes eleven files, six of them under the installation
    directory that is in force at the end, creates two directories,
    copies [backend] and [frontend] from the directory of the script,
    removes and recreates one symbolic link of Nginx, and makes four
    scripts executable.  Before the operator has answered the prompts
    it changes nothing. *)
Theorem installer_changes_only_its_own_files (W : Installer.World)
    (s : Installer.installer) :
  let a := Installer.run_installation W s in
  Forall (Trace.own_fs (Installer.w_script_dir W)
            (Installer.install_dir (Spec.st a)) (Installer.service_name s))
    (Spec.fs_effects (Spec.out a)) /\
  Spec.fs_effects (Spec.out (Installer.pre_collection W s)) = [] /\
  (forall s', Spec.fs_effects (Spec.out (Installer.collect_configuration W s')) = []).
Proof.
  cbv zeta. split; [| split].
  - apply (Forall_allowed_fs Trace.any_cmd).
    apply (run_installation_allowed W (fun _ => Trace.any_cmd)
             (fun dir => Trace.own_fs (Installer.w_script_dir W) dir (Installer.service_name s))).
    + intros dir. eapply emits_weaken; [| | apply pre_collection_fs]; [auto | intros ? []].
    + intros dir. eapply emits_weaken; [| | apply collect_configuration_fs];
        [intros ? [] | intros ? []].
    + intros dir. apply post_collection_fs.
  - destruct (pre_collection_fs W (Installer.install_dir s) (Installer.service_name s) s)
      as [_ H]; [split; reflexivity |].
    apply (Forall_allowed_fs Trace.any_cmd) in H.
    destruct (Spec.fs_effects _) as [| op l]; [reflexivity |].
    apply Forall_cons in H as [[] _].
  - intros s'.
    destruct (collect_configuration_fs W (Installer.service_name s') s') as [_ H];
      [reflexivity |].
    apply (Forall_allowed_fs Trace.no_cmd) in H.
    destruct (Spec.fs_effects _) as [| op l]; [reflexivity |].
    apply Forall_cons in H as [[] _].
Qed.

Section LongPaths.

Lemma length_append (a b : string) :
  String.length (a +:+ b) = (String.length a + String.length b)%nat.
Proof. induction a as [| x a IH]; [reflexivity |]. rewrite append_cons. cbn. by rewrite IH. Qed.

(** A text that ends with [x] is not a shorter text. *)
Lemma append_long (d x y : string) :
  (String.length y <? String.length x)%nat = true -> d +:+ x <> y.
Proof.
  intros Hlt Heq. apply Nat.ltb_lt in Hlt.
  apply (f_equal String.length) in Heq. rewrite length_append in Heq. lia.
Qed.

End LongPaths.

Ltac own_cmd_leaf :=
  unfold Trace.own_cmd, Installer.path_join; rewrite ?append_assoc;
  split;
  [ first [ left; apply mem_str_In; reflexivity
          | right; left; reflexivity
          | right; right; reflexivity ]
  | repeat split;
    let Hp := fresh "Hp" in
    intros Hp;
    first [ discriminate Hp
          | exfalso; refine (append_long _ _ _ _ Hp); reflexivity
          | reflexivity
          | eexists; reflexivity
          | unfold Trace.bash_arguments; in_list ] ].

Section Commands.

Import PyStr Py Installer Spec Trace.

Variable W : World.

Lemma pre_collection_cmd dir0 svc dir :
  emits (at_home dir0 svc) (own_cmd dir0 dir) no_fs (pre_collection W).
Proof. emits_go ltac:(own_cmd_leaf). Qed.

Lemma post_collection_cmd dir0 svc dir :
  emits (at_home dir svc) (own_cmd dir0 dir) any_fs (post_collection W).
Proof. emits_go ltac:(first [exact Logic.I | own_cmd_leaf]). Qed.

End Commands.

Section Reaches.

Import PyStr Py Installer Spec Trace.

Variable I : installer -> Prop.
Variable P : event -> Prop.

Lemma reaches_bind_l {A B} (m : M A) (k : A -> M B) :
  reaches I P m -> reaches I P (bind m k).
Proof.
  intros Hm s b Hs. specialize (Hm s). revert Hm.
  unfold bind, res, out. destruct (m s) as [[[a | e] s1] d1]; cbn; [| discriminate].
  intros Hm. destruct (k a s1) as [[r s2] d2]; cbn. intros _.
  apply Exists_app. left. exact (Hm a Hs eq_refl).
Qed.

Lemma reaches_bind_r {A B} (m : M A) (k : A -> M B) :
  emits I any_cmd any_fs m -> (forall a, reaches I P (k a)) -> reaches I P (bind m k).
Proof.
  intros Hm Hk s b Hs. destruct (Hm s Hs) as [Hs1 _]. revert Hs1.
  unfold bind, res, st, out. destruct (m s) as [[[a | e] s1] d1]; cbn; [| discriminate].
  intros Hs1. specialize (Hk a s1). revert Hk. unfold res, out.
  destruct (k a s1) as [[r s2] d2]; cbn. intros Hk Hr.
  apply Exists_app. right. exact (Hk b Hs1 Hr).
Qed.

Lemma reaches_bind_get {A B} (f : installer -> A) (v : A) (k : A -> M B) :
  (forall s, I s -> f s = v) -> reaches I P (k v) -> reaches I P (bind (get f) k).
Proof.
  intros Hf Hk s b Hs. specialize (Hk s b Hs). revert Hk.
  unfold bind, get, res, out. rewrite (Hf s Hs).
  destruct (k v s) as [[r s2] d2]; cbn [fst snd]. auto.
Qed.

Lemma reaches_emit ev : P ev -> reaches I P (emit ev).
Proof. intros Hev s a _ _. constructor. exact Hev. Qed.

Lemma reaches_log msg lv : P (EvLog lv msg) -> reaches I P (log msg lv).
Proof. apply reaches_emit. Qed.

Variable W : World.

Lemma reaches_run_command cmd d c i :
  (forall o, P (EvRun cmd o)) -> reaches I P (run_command W cmd d c i).
Proof.
  intros Hc s a _. rewrite run_command_eq. cbv zeta. unfold res, out. intros _.
  destruct (w_subprocess W (tick s) cmd) as [rc stdout | | m |]; cbn [fst snd].
  - destruct (rc =? 0); [| destruct i];
      apply Exists_app; right; constructor; apply Hc.
  - apply Exists_app; right; constructor; apply Hc.
  - apply Exists_app; right; constructor; apply Hc.
  - apply Exists_app; right; constructor; apply Hc.
Qed.

Lemma reaches_fs op : P (EvFs op) -> reaches I P (fs W op).
Proof.
  intros Hop s a _. unfold fs, bind, ask, emit, raise, res, out. cbn.
  destruct (w_fs W (tick s) op); cbn; [discriminate |].
  intros _. constructor. exact Hop.
Qed.

End Reaches.

Ltac reach_r :=
  lazymatch goal with
  | |- Trace.reaches (Trace.at_home ?dir _) _
         (Installer.bind (Installer.get Installer.install_dir) _) =>
      apply (reaches_bind_get _ _ Installer.install_dir dir);
      [ let s := fresh "s" in let Hs := fresh "Hs" in
        intros s Hs; exact (at_home_dir _ _ s Hs) | cbv beta zeta ]
  | |- _ =>
      apply reaches_bind_r; [emits_go ltac:(exact Logic.I) | intros ?; cbv beta zeta]
  end.

Ltac reach_l := apply reaches_bind_l.


Ltac cleanup_leaf :=
  unfold Trace.cleanup_cmd;
  first [ left; eexists; split; cycle 1; [in_list | in_list]
        | right; left; in_list
        | right; right; left; eexists; split; cycle 1; [reflexivity | in_list]
        | right; right; right; eexists; reflexivity ].

Section Declined.

Import PyStr Py Installer Spec Trace.

Variable W : World.

Lemma pre_collection_cleanup dir0 svc :
  emits (at_home dir0 svc) (cleanup_cmd dir0) no_fs (pre_collection W).
Proof. emits_go ltac:(cleanup_leaf). Qed.

Lemma cleanup_vps_autoremove :
  reaches anywhere (runs_cmd ["apt-get"; "autoremove"; "-y"]) (cleanup_vps W).
Proof.
  unfold cleanup_vps. do 4 reach_r. reach_l.
  apply reaches_run_command. intros o. exists o. reflexivity.
Qed.

Lemma cleanup_vps_completed :
  reaches anywhere (eq (EvLog SUCCESS "VPS cleanup completed")) (cleanup_vps W).
Proof.
  unfold cleanup_vps. do 9 reach_r. apply reaches_log. reflexivity.
Qed.

Lemma pre_collection_reaches P :
  reaches anywhere P (cleanup_vps W) -> reaches anywhere P (pre_collection W).
Proof.
  intros H. unfold pre_collection. do 3 reach_r. reach_l. exact H.
Qed.

(** A run that ends with status 0 by an exception was cut short in the
    collection of the configuration, after [pre_collection] returned. *)
Lemma declined_run s :
  res (run_installation W s) = Raise (SystemExit 0) ->
  exists s1 d1 s2 d2,
    pre_collection W s = (Return tt, s1, d1) /\
    collect_configuration W s1 = (Raise (SystemExit 0), s2, d2) /\
    out (run_installation W s) = d1 ++ d2.
Proof.
  rewrite run_installation_eq. unfold run_installation_body, bind, res, out.
  destruct (sound_pre_collection good_exit1_only all_events W s) as (_ & H1 & _).
  unfold res in H1.
  destruct (pre_collection W s) as [[[[] | e] s1] d1] eqn:Hpre; cbn [fst snd] in *.
  2: { destruct e; cbn [fst snd]; try discriminate. intros [= ->].
       specialize (H1 _ eq_refl 0 eq_refl). discriminate. }
  destruct (collect_configuration W s1) as [[[[] | e] s2] d2] eqn:Hcol; cbn [fst snd] in *.
  - destruct (sound_post_collection good_exit1_only all_events W (fun _ => Logic.I) s2)
      as (_ & H3 & _). unfold res in H3.
    destruct (post_collection W s2) as [[[[] | e] s3] d3]; cbn [fst snd] in *;
      [discriminate |].
    destruct e; cbn [fst snd]; try discriminate. intros [= ->].
    specialize (H3 _ eq_refl 0 eq_refl). discriminate.
  - destruct e; cbn [fst snd]; try discriminate. intros [= ->].
    exists s1, d1, s2, d2. split; [reflexivity | split; [exact Hcol | reflexivity]].
Qed.

End Declined.



(** * Rules for runs in two phases *)

Section PhasedRules.

Import PyStr Py Installer Spec Trace.

Variable I : installer -> Prop.
Variables C1 C2 : list string -> Prop.
Variables F1 F2 : fs_op -> Prop.

Lemma phased_emits_1 {A} (m : M A) : emits I C1 F1 m -> phased I C1 F1 C2 F2 m.
Proof.
  intros Hm s Hs. destruct (Hm s Hs) as [H1 H2]. split; [exact H1 |].
  exists (out (m s)), []. rewrite app_nil_r. repeat split; [exact H2 | constructor].
Qed.

Lemma phased_emits_2 {A} (m : M A) : emits I C2 F2 m -> phased I C1 F1 C2 F2 m.
Proof.
  intros Hm s Hs. destruct (Hm s Hs) as [H1 H2]. split; [exact H1 |].
  exists [], (out (m s)). repeat split; [constructor | exact H2].
Qed.

Lemma phased_bind_1 {A B} (m : M A) (k : A -> M B) :
  emits I C1 F1 m -> (forall a, phased I C1 F1 C2 F2 (k a)) ->
  phased I C1 F1 C2 F2 (bind m k).
Proof.
  intros Hm Hk s Hs. destruct (Hm s Hs) as [H1 H2]. revert H1 H2.
  unfold bind, st, out. destruct (m s) as [[[a | e] s1] d1]; cbn [fst snd].
  - intros H1 H2. destruct (Hk a s1 H1) as [H3 (d2 & d3 & Heq & H4 & H5)]. revert H3 Heq.
    unfold st, out. destruct (k a s1) as [[r s2] d]; cbn [fst snd].
    intros H3 ->. split; [exact H3 |].
    exists (d1 ++ d2), d3. rewrite app_assoc. repeat split; [| exact H5].
    apply Forall_app; auto.
  - intros H1 H2. split; [exact H1 |]. exists d1, []. rewrite app_nil_r.
    repeat split; [exact H2 | constructor].
Qed.

Lemma phased_bind_2 {A B} (m : M A) (k : A -> M B) :
  phased I C1 F1 C2 F2 m -> (forall a, emits I C2 F2 (k a)) ->
  phased I C1 F1 C2 F2 (bind m k).
Proof.
  intros Hm Hk s Hs. destruct (Hm s Hs) as [H1 (d2 & d3 & Heq & H4 & H5)]. revert H1 Heq.
  unfold bind, st, out. destruct (m s) as [[[a | e] s1] d1]; cbn [fst snd].
  - intros H1 ->. destruct (Hk a s1 H1) as [H2 H3]. revert H2 H3.
    unfold st, out. destruct (k a s1) as [[r s2] d]; cbn [fst snd].
    intros H2 H3. split; [exact H2 |].
    exists d2, (d3 ++ d). rewrite app_assoc. repeat split; [exact H4 |].
    apply Forall_app; auto.
  - intros H1 ->. split; [exact H1 |]. exists d2, d3. repeat split; assumption.
Qed.

Lemma phased_bind_get {A B} (f : installer -> A) (v : A) (k : A -> M B) :
  (forall s, I s -> f s = v) -> phased I C1 F1 C2 F2 (k v) ->
  phased I C1 F1 C2 F2 (bind (get f) k).
Proof.
  intros Hf Hk s Hs. specialize (Hk s Hs). revert Hk.
  unfold bind, get, st, out. rewrite (Hf s Hs).
  destruct (k v s) as [[r s2] d2]; cbn [fst snd]. auto.
Qed.

End PhasedRules.

Ltac phased_go leaf1 leaf2 :=
  cbv beta zeta;
  lazymatch goal with
  | |- Trace.phased (Trace.at_home ?dir _) _ _ _ _
         (Installer.bind (Installer.get Installer.install_dir) _) =>
      apply (phased_bind_get _ _ _ _ _ Installer.install_dir dir);
      [ let s := fresh "s" in let Hs := fresh "Hs" in
        intros s Hs; exact (at_home_dir _ _ s Hs)
      | phased_go leaf1 leaf2 ]
  | |- Trace.phased _ _ _ _ _ (Installer.bind _ _) =>
      first [ apply phased_bind_1;
              [ solve [emits_go leaf1] | intros ?; phased_go leaf1 leaf2 ]
            | apply phased_bind_2;
              [ phased_go leaf1 leaf2 | intros ?; solve [emits_go leaf2] ] ]
  | |- Trace.phased _ _ _ _ _ (if ?b then _ else _) =>
      destruct b; phased_go leaf1 leaf2
  | |- Trace.phased _ _ _ _ _ ?m =>
      first [ apply phased_emits_1; solve [emits_go leaf1]
            | apply phased_emits_2; solve [emits_go leaf2]
            | let h := head_of m in unfold h; phased_go leaf1 leaf2 ]
  end.

Section Suffix.

Import Trace.

Lemma substring_all (x : string) : String.substring 0 (String.length x) x = x.
Proof. induction x as [| c x IH]; cbn; [reflexivity | by rewrite IH]. Qed.

Lemma substring_append (d x : string) :
  String.substring (String.length d) (String.length x) (d +:+ x) = x.
Proof.
  induction d as [| c d IH]; [apply substring_all |].
  rewrite append_cons. exact IH.
Qed.

Lemma ends_with_append (d x : string) : ends_with x (d +:+ x) = true.
Proof.
  unfold ends_with. rewrite length_append.
  replace (String.length d + String.length x - String.length x)%nat
    with (String.length d) by lia.
  rewrite substring_append. apply String.eqb_refl.
Qed.

(** A text that does not end with [x] is not [d +:+ x]. *)
Lemma not_ends_with (d x y : string) : ends_with x y = false -> y <> d +:+ x.
Proof. intros H ->. rewrite ends_with_append in H. discriminate. Qed.

Lemma append_inj (d x y : string) : d +:+ x = d +:+ y -> x = y.
Proof.
  induction d as [| c d IH]; [auto |]. rewrite !append_cons. intros [= H]. auto.
Qed.

End Suffix.

Ltac not_same_path :=
  let H := fresh "H" in
  intros H;
  first [ discriminate H
        | apply append_inj in H; discriminate H
        | revert H; apply not_ends_with; reflexivity
        | symmetry in H; revert H; apply not_ends_with; reflexivity ].

Ltac early_fs_leaf :=
  first
    [ exact Logic.I
    | unfold Trace.not_frontend_file, Trace.frontend_files, Installer.path_join;
      rewrite ?append_assoc; cbn [In];
      let H := fresh "H" in
      intros [H | [H | []]]; revert H; not_same_path ].

Ltac not_build_leaf :=
  first
    [ exact Logic.I
    | unfold Trace.not_build, Trace.frontend_builds; cbn [In];
      let H := fresh "H" in
      intros [H | [H | []]]; discriminate H ].

Section BuildOrder.

Import PyStr Py Installer Spec Trace.

Variable W : World.

Lemma post_collection_phased dir svc :
  phased (at_home dir svc) any_cmd (not_frontend_file dir) not_build any_fs
    (post_collection W).
Proof. phased_go ltac:(early_fs_leaf) ltac:(not_build_leaf). Qed.

End BuildOrder.

Section BuildOrderRun.

Import PyStr Py Installer Spec Trace.

Variable W : World.

(** In a trace in two phases, an event that the second phase does not
    allow comes before any event that the first phase does not allow. *)
Lemma phased_order C1 F1 C2 F2 (d1 d2 : list event) (i j : nat) ev1 ev2 :
  Forall (allowed C1 F1) d1 -> Forall (allowed C2 F2) d2 ->
  (d1 ++ d2) !! i = Some ev1 -> (d1 ++ d2) !! j = Some ev2 ->
  ~ allowed C2 F2 ev1 -> ~ allowed C1 F1 ev2 -> (i < j)%nat.
Proof.
  intros H1 H2 Hi Hj N1 N2.
  destruct (decide (i < length d1)%nat) as [Hlt | Hge].
  - destruct (decide (j < length d1)%nat) as [Hj1 | Hj1]; [| lia].
    rewrite lookup_app_l in Hj by exact Hj1.
    destruct N2. exact (proj1 (Forall_lookup _ _) H1 j ev2 Hj).
  - rewrite lookup_app_r in Hi by lia.
    destruct N1. exact (proj1 (Forall_lookup _ _) H2 _ ev1 Hi).
Qed.

(** The three parts of the run put together, in two phases. *)
Lemma run_installation_phased (C1 C2 : string -> list string -> Prop)
    (F1 F2 : string -> fs_op -> Prop) (s : installer) :
  (forall dir, emits (at_home (install_dir s) (service_name s)) (C1 dir) (F1 dir)
                 (pre_collection W)) ->
  (forall dir, emits (serves (service_name s)) (C1 dir) (F1 dir) (collect_configuration W)) ->
  (forall dir, phased (at_home dir (service_name s)) (C1 dir) (F1 dir) (C2 dir) (F2 dir)
                 (post_collection W)) ->
  let a := run_installation W s in
  let dir := install_dir (st a) in
  exists d1 d2, out a = d1 ++ d2 /\
    Forall (allowed (C1 dir) (F1 dir)) d1 /\ Forall (allowed (C2 dir) (F2 dir)) d2.
Proof.
  intros Hpre Hcol Hpost. cbv zeta. rewrite run_installation_eq.
  assert (Hbody : let b := run_installation_body W s in
            exists d1 d2, out b = d1 ++ d2 /\
              Forall (allowed (C1 (install_dir (st b))) (F1 (install_dir (st b)))) d1 /\
              Forall (allowed (C2 (install_dir (st b))) (F2 (install_dir (st b)))) d2).
  { cbv zeta. unfold run_installation_body, bind, st, out.
    assert (Hs : at_home (install_dir s) (service_name s) s) by (split; reflexivity).
    pose proof (fun dir => Hpre dir s Hs) as H1. unfold st, out in H1.
    destruct (pre_collection W s) as [[[[] | e] s1] d1]; cbn [fst snd] in *.
    2: { exists d1, []. rewrite app_nil_r. repeat split; [apply H1 | constructor]. }
    assert (Hs1 : serves (service_name s) s1) by (destruct (H1 "") as [[_ H] _]; exact H).
    pose proof (fun dir => Hcol dir s1 Hs1) as H2. unfold st, out in H2.
    destruct (collect_configuration W s1) as [[[[] | e] s2] d2]; cbn [fst snd] in *.
    2: { exists (d1 ++ d2), []. rewrite app_nil_r. repeat split; [| constructor].
         apply Forall_app; split; [apply H1 | apply H2]. }
    assert (Hs2 : at_home (install_dir s2) (service_name s) s2)
      by (split; [reflexivity | destruct (H2 "") as [H _]; exact H]).
    pose proof (fun dir => Hpost dir s2) as H3. unfold st, out in H3.
    destruct (post_collection W s2) as [[r s3] d3]; cbn [fst snd] in *.
    destruct (H3 _ Hs2) as [[Hdir _] (e1 & e2 & -> & He1 & He2)]. rewrite Hdir.
    exists (d1 ++ d2 ++ e1), e2. rewrite <- !app_assoc. repeat split; [| exact He2].
    apply Forall_app; split; [apply H1 |].
    apply Forall_app; split; [apply H2 | exact He1]. }
  cbv zeta in Hbody. unfold st, out in *.
  destruct (run_installation_body W s) as [[[a | e] s1] d]; cbn [fst snd] in *;
    [exact Hbody |].
  destruct Hbody as (d1 & d2 & -> & H1 & H2).
  destruct e; cbn [fst snd];
    try (exists d1, d2; repeat split; assumption);
    (eexists d1, (d2 ++ _); rewrite app_assoc; repeat split; [exact H1 |];
     apply Forall_app; split; [exact H2 | repeat constructor]).
Qed.

Lemma pre_collection_plain dir0 svc dir :
  emits (at_home dir0 svc) any_cmd (not_frontend_file dir) (pre_collection W).
Proof.
  eapply emits_weaken; [| | apply (pre_collection_fs W)]; [auto | intros ? []].
Qed.

Lemma collect_configuration_plain svc dir :
  emits (serves svc) any_cmd (not_frontend_file dir) (collect_configuration W).
Proof.
  eapply emits_weaken; [| | apply (collect_configuration_fs W)];
    [intros; exact Logic.I | intros ? []].
Qed.

(** In every run a build of the frontend comes before the installer
    writes one of the two files of the frontend. *)
Lemma build_comes_first s (i j : nat) cmd o p c :
  In cmd frontend_builds ->
  In p (frontend_files (install_dir (st (run_installation W s)))) ->
  out (run_installation W s) !! i = Some (EvRun cmd o) ->
  out (run_installation W s) !! j = Some (EvFs (Write p c)) ->
  (i < j)%nat.
Proof.
  intros Hcmd Hp Hi Hj.
  destruct (run_installation_phased (fun _ => any_cmd) (fun _ => not_build)
              (fun dir => not_frontend_file dir) (fun _ => any_fs) s)
    as (d1 & d2 & Heq & H1 & H2).
  - intros dir. apply pre_collection_plain.
  - intros dir. apply collect_configuration_plain.
  - intros dir. apply post_collection_phased.
  - rewrite Heq in Hi, Hj.
    apply (phased_order _ _ _ _ d1 d2 i j _ _ H1 H2 Hi Hj).
    + intros Hn. exact (Hn Hcmd).
    + intros Hn. exact (Hn Hp).
Qed.

End BuildOrderRun.

Section ReachesMore.

Import PyStr Py Installer Spec Trace.

Variable I : installer -> Prop.
Variable P : event -> Prop.
Variable W : World.

(** A command run without [ignore_errors] that returns has ended with
    status 0. *)
Lemma reaches_run_ok cmd d c :
  (forall stdout, P (EvRun cmd (Exited 0 stdout))) -> reaches I P (run_command W cmd d c false).
Proof.
  intros Hc s a _. rewrite run_command_eq. cbv zeta. unfold res, out.
  destruct (w_subprocess W (tick s) cmd) as [rc stdout | | m |]; cbn [fst snd];
    try discriminate.
  destruct (rc =? 0) eqn:Hrc; cbn [fst snd]; [| discriminate].
  apply Z.eqb_eq in Hrc. subst rc. intros _.
  apply Exists_app; right; constructor; apply Hc.
Qed.

(** A run that returns has gone through [post_collection]. *)
Lemma run_installation_reaches s :
  (forall dir svc, reaches (at_home dir svc) P (post_collection W)) ->
  res (run_installation W s) = Return tt -> Exists P (out (run_installation W s)).
Proof.
  intros Hpost. rewrite run_installation_eq. unfold run_installation_body, bind, res, out.
  destruct (pre_collection W s) as [[[[] | e] s1] d1]; cbn [fst snd];
    [| destruct e; discriminate].
  destruct (collect_configuration W s1) as [[[[] | e] s2] d2]; cbn [fst snd];
    [| destruct e; discriminate].
  specialize (Hpost (install_dir s2) (service_name s2) s2 tt (conj eq_refl eq_refl)).
  unfold res, out in Hpost.
  destruct (post_collection W s2) as [[[[] | e] s3] d3]; cbn [fst snd] in *;
    [| destruct e; discriminate].
  intros _. apply Exists_app; right. apply Exists_app; right. exact (Hpost eq_refl).
Qed.

End ReachesMore.

Section FrontendReached.

Import PyStr Py Installer Spec Trace.

Variable W : World.

(** The rest of [post_collection] once [setup_frontend] is reached. *)
Lemma post_collection_reaches_frontend dir svc P :
  reaches (at_home dir svc) P (setup_frontend W) ->
  reaches (at_home dir svc) P (post_collection W).
Proof.
  intros H. unfold post_collection. reach_r. reach_l.
  unfold setup_application. do 8 reach_r. reach_l. exact H.
Qed.

Lemma setup_frontend_built dir svc : reaches (at_home dir svc) built (setup_frontend W).
Proof.
  unfold setup_frontend. do 5 reach_r. reach_l.
  match goal with |- reaches _ _ (if ?b then _ else _) => destruct b end;
    [do 2 reach_r | reach_r]; reach_l;
    apply reaches_run_ok; intros stdout; eexists _, stdout;
    (split; [| reflexivity]); unfold frontend_builds; in_list.
Qed.

Lemma setup_frontend_env dir svc :
  reaches (at_home dir svc)
    (fun ev => exists c, ev = EvFs (Write (dir +:+ "/frontend/.env") c))
    (setup_frontend W).
Proof.
  unfold setup_frontend. do 8 reach_r.
  unfold create_frontend_config. do 3 reach_r. reach_l.
  apply reaches_fs. unfold path_join. rewrite !append_assoc. eexists. reflexivity.
Qed.

End FrontendReached.

(** The settings of the frontend come too late for its build: in every
    run, each build of the frontend ([npm run build] or [yarn build])
    comes before the installer writes [frontend/.env], the file that
    holds [REACT_APP_BACKEND_URL], and no build follows that write.  A
    run that returns has built the frontend with status 0 and has
    written the file. *)
Theorem frontend_settings_come_after_build (W : Installer.World) (s : Installer.installer) :
  let a := Installer.run_installation W s in
  let env := Installer.install_dir (Spec.st a) +:+ "/frontend/.env" in
  (forall (i j : nat) cmd o c,
     In cmd Trace.frontend_builds ->
     Spec.out a !! i = Some (Installer.EvRun cmd o) ->
     Spec.out a !! j = Some (Installer.EvFs (Installer.Write env c)) ->
     (i < j)%nat) /\
  (Spec.res a = Py.Return tt ->
   Exists Trace.built (Spec.out a) /\
   exists c, In (Installer.EvFs (Installer.Write env c)) (Spec.out a)).
Proof.
  cbv zeta. split.
  - intros i j cmd o c Hcmd Hi Hj.
    refine (build_comes_first W s i j cmd o _ c Hcmd _ Hi Hj).
    left. reflexivity.
  - intros Hr. split.
    + apply run_installation_reaches; [| exact Hr].
      intros dir svc. apply post_collection_reaches_frontend, setup_frontend_built.
    + assert (Hs : exists d1 s2 d2 d3,
                Installer.post_collection W s2 = (Py.Return tt, Spec.st (Installer.run_installation W s), d3) /\
                Spec.out (Installer.run_installation W s) = d1 ++ d2 ++ d3).
      { revert Hr. rewrite run_installation_eq.
        unfold Installer.run_installation_body, Installer.bind, Spec.res, Spec.st, Spec.out.
        destruct (Installer.pre_collection W s) as [[[[] | e] s1] d1]; cbn [fst snd];
          [| destruct e; discriminate].
        destruct (Installer.collect_configuration W s1) as [[[[] | e] s2] d2]; cbn [fst snd];
          [| destruct e; discriminate].
        destruct (Installer.post_collection W s2) as [[[[] | e] s3] d3] eqn:Hp; cbn [fst snd];
          [| destruct e; discriminate].
        intros _. exists d1, s2, d2, d3. split; [exact Hp | reflexivity]. }
      destruct Hs as (d1 & s2 & d2 & d3 & Hp & ->).
      pose proof (post_collection_reaches_frontend W _ _ _
                    (setup_frontend_env W (Installer.install_dir s2) (Installer.service_name s2))
                    s2 tt (conj eq_refl eq_refl)) as He.
      destruct (post_collection_fs W (Installer.install_dir s2) (Installer.service_name s2) s2)
        as [[Hdir _] _]; [split; reflexivity |].
      unfold Spec.res, Spec.st, Spec.out in He, Hdir. rewrite Hp in He, Hdir.
      cbn [fst snd] in He, Hdir. rewrite Hdir. specialize (He eq_refl).
      apply Exists_exists in He as (ev & Hin & c & ->). apply list_elem_of_In in Hin.
      exists c. apply in_or_app; right. apply in_or_app; right. exact Hin.
Qed.

Ltac root_page_leaf :=
  first
    [ exact Logic.I
    | unfold Trace.root_page_is, Trace.placeholder_page, Installer.path_join;
      rewrite ?append_assoc;
      let H := fresh "H" in
      intros H; first [ reflexivity | exfalso; revert H; not_same_path ] ].

Section RootPage.

Import PyStr Py Installer Spec Trace.

Variable W : World.

Lemma post_collection_root_page dir :
  emits (at_home dir "secret-poll") any_cmd (root_page_is dir placeholder_page)
    (post_collection W).
Proof. emits_go ltac:(root_page_leaf). Qed.

Lemma reaches_bind_get_config I P {B} key v (k : pyval -> M B) :
  (forall s, I s -> config s !! key = Some v) -> reaches I P (k v) ->
  reaches I P (bind (get_config key) k).
Proof.
  intros Hf Hk s b Hs. specialize (Hk s b Hs). revert Hk.
  unfold bind, get_config, res, out. rewrite (Hf s Hs).
  destruct (k v s) as [[r s2] d2]; cbn [fst snd]. auto.
Qed.

Lemma reaches_weaken (I I' : installer -> Prop) P {A} (m : M A) :
  (forall s, I s -> I' s) -> reaches I' P m -> reaches I P m.
Proof. intros HI Hm s a Hs. apply Hm, HI, Hs. Qed.

Lemma setup_ssl_writes_page dir svc :
  reaches (fun s => at_home dir svc s /\ config s !! "enable_ssl" = Some (VBool true))
    (eq (EvFs (Write (dir +:+ "/frontend/build/index.html") placeholder_page)))
    (setup_ssl W).
Proof.
  unfold setup_ssl.
  apply (reaches_bind_get_config _ _ "enable_ssl" (VBool true)); [intros s [_ H]; exact H |].
  cbn [truthy negb].
  apply (reaches_weaken _ (at_home dir svc)); [intros s [H _]; exact H |].
  do 9 reach_r. reach_l. apply reaches_fs.
  rewrite !append_assoc. reflexivity.
Qed.

End RootPage.

(** The SSL step replaces the page that the build has produced: when
    [setup_ssl] is entered with [enable_ssl] true and returns, it has
    written its placeholder page to [frontend/build/index.html].  In a
    run of [main], whatever the installer itself writes to that file is
    this placeholder, every build of the frontend comes before, and
    none follows: the built page is not restored. *)
Theorem ssl_setup_replaces_built_page (W : Installer.World)
    (inp : list Installer.input_line) :
  let a := Installer.main W inp in
  let page := Installer.install_dir (Spec.st a) +:+ "/frontend/build/index.html" in
  (forall (j : nat) c,
     Spec.out a !! j = Some (Installer.EvFs (Installer.Write page c)) ->
     c = Trace.placeholder_page /\
     forall (i : nat) cmd o,
       In cmd Trace.frontend_builds ->
       Spec.out a !! i = Some (Installer.EvRun cmd o) -> (i < j)%nat) /\
  (forall s,
     Installer.config s !! "enable_ssl" = Some (Installer.VBool true) ->
     Spec.res (Installer.setup_ssl W s) = Py.Return tt ->
     In (Installer.EvFs
           (Installer.Write (Installer.install_dir s +:+ "/frontend/build/index.html")
              Trace.placeholder_page))
        (Spec.out (Installer.setup_ssl W s))).
Proof.
  cbv zeta. unfold Installer.main. split.
  - intros j c Hj. split.
    + pose proof (run_installation_allowed W (fun _ => Trace.any_cmd)
                    (fun dir => Trace.root_page_is dir Trace.placeholder_page)
                    (Installer.init inp)) as H.
      cbv zeta in H.
      assert (Hall : Forall (Trace.root_page_is
                       (Installer.install_dir
                          (Spec.st (Installer.run_installation W (Installer.init inp))))
                       Trace.placeholder_page)
                (Spec.fs_effects
                   (Spec.out (Installer.run_installation W (Installer.init inp))))).
      { apply (Forall_allowed_fs Trace.any_cmd). apply H.
        - intros dir. eapply emits_weaken; [| | apply pre_collection_fs];
            [auto | intros ? []].
        - intros dir. eapply emits_weaken; [| | apply collect_configuration_fs];
            [intros; exact Logic.I | intros ? []].
        - intros dir. apply post_collection_root_page. }
      apply list_elem_of_lookup_2 in Hj. apply list_elem_of_In in Hj.
      assert (Hin : In (Installer.Write
                          (Installer.install_dir
                             (Spec.st (Installer.run_installation W (Installer.init inp))) +:+
                           "/frontend/build/index.html") c)
                      (Spec.fs_effects
                         (Spec.out (Installer.run_installation W (Installer.init inp))))).
      { unfold Spec.fs_effects. apply list_elem_of_In, list_elem_of_omap.
        eexists. split; [apply list_elem_of_In, Hj | reflexivity]. }
      apply list_elem_of_In in Hin.
      exact (proj1 (Forall_forall _ _) Hall _ Hin eq_refl).
    + intros i cmd o Hcmd Hi.
      refine (build_comes_first W _ i j cmd o _ c Hcmd _ Hi Hj).
      right. left. reflexivity.
  - intros s Hen Hr.
    pose proof (setup_ssl_writes_page W (Installer.install_dir s) (Installer.service_name s)
                  s tt (conj (conj eq_refl eq_refl) Hen) Hr) as H.
    apply Exists_exists in H as (ev & Hin & <-). apply list_elem_of_In. exact Hin.
Qed.

(** * The certificate *)

Section Certificate.

Import PyStr Py Installer Spec Props Trace Steps.

Variable W : World.

Lemma certbot_runs_app d1 d2 : certbot_runs (d1 ++ d2) = certbot_runs d1 ++ certbot_runs d2.
Proof. unfold certbot_runs. rewrite runs_app. apply List.filter_app. Qed.

Lemma certbot_runs_none d : Forall (allowed not_certbot any_fs) d -> certbot_runs d = [].
Proof.
  induction 1 as [| ev d Hev _ IH]; [reflexivity |].
  change (ev :: d) with ([ev] ++ d). rewrite certbot_runs_app, IH, app_nil_r.
  destruct ev; try reflexivity. unfold certbot_runs. cbn in *.
  unfold not_certbot in Hev. rewrite Hev. reflexivity.
Qed.

(** A step that leaves the settings alone and does not start
    [certbot]. *)
Lemma wp_aside {A} (m : M A) (Q : result A -> installer -> list event -> Prop) s d0 :
  sound same_settings any_exn any_events m ->
  emits anywhere not_certbot any_fs m ->
  (forall r s' d, same_settings s s' -> certbot_runs d = [] -> Q r s' (d0 ++ d)) ->
  wp m Q s d0.
Proof.
  intros Hs He HQ. unfold wp.
  destruct (Hs s) as (HR & _ & _). destruct (He s Logic.I) as [_ Hd].
  apply HQ; [exact HR | apply certbot_runs_none, Hd].
Qed.

End Certificate.

Ltac aside_sound :=
  let G := fresh "G" in
  let Hev := fresh "Hev" in
  pose proof good_same_settings as G; pose proof any_ev as Hev;
  first [ apply (sound_verify_domain_dns G Hev)
        | apply (sound_setup_ssl_renewal G Hev)
        | apply (sound_verify_ssl_certificate G Hev)
        | solve [sound_go G] ].

Ltac aside_emits := solve [emits_go ltac:(first [exact Logic.I | reflexivity])].

(** One step that is not about [certbot]: the settings are carried
    over, and the step adds nothing to the [certbot] runs. *)
Ltac aside_core :=
  lazymatch goal with
  | HS : Spec.same_settings ?s0 ?s1 |- Props.wp _ _ ?s1 _ =>
      let r := fresh "r" in
      let s2 := fresh "s" in
      let d := fresh "d" in
      let HR := fresh "HR" in
      let Hd := fresh "Hd" in
      let HS' := fresh "HS" in
      apply (wp_aside _);
      [ aside_sound | aside_emits
      | intros r s2 d HR Hd;
        assert (HS' : Spec.same_settings s0 s2)
          by (destruct HS, HR; split; congruence);
        clear HS HR;
        destruct r as [? | ?]; cbv beta iota delta [Props.wp_then] ]
  end.

Ltac aside := apply wp_bind; aside_core.

(** The settings at the point that symbolic execution has reached. *)
Ltac rebase :=
  lazymatch goal with
  | HS : Spec.same_settings ?s0 ?s1 |- Props.wp _ _ ?s2 _ =>
      let HS' := fresh "HS" in
      assert (HS' : Spec.same_settings s0 s2) by (destruct HS; split; assumption);
      clear HS
  end.

Ltac ssl_runs :=
  unfold Steps.ssl_post; rewrite !certbot_runs_app;
  repeat match goal with
         | H : Steps.certbot_runs _ = [] |- _ => rewrite H
         end.

(** What [setup_ssl] does with SSL enabled is decided by [certbot]: it
    is started at most once, with the domain and the address of the
    operator as separate arguments; if it is not started the method does
    not return; a status other than 0 and a missing [certbot] end the
    installer with status 1, with [enable_ssl] still true, and not with
    the fallback to HTTP that the messages of the method announce; that
    fallback (return with [enable_ssl] set to false) is taken exactly
    when starting [certbot] fails with another [OSError]; after status 0
    the settings are unchanged. *)
Theorem setup_ssl_outcome_by_certbot (W : Installer.World) (s : Installer.installer)
    (domain email : string) :
  Installer.config s !! "enable_ssl" = Some (Installer.VBool true) ->
  Installer.config s !! "domain" = Some (Installer.VStr domain) ->
  Installer.config s !! "ssl_email" = Some (Installer.VStr email) ->
  let a := Installer.setup_ssl W s in
  Steps.ssl_post s (Steps.certbot_command (Installer.install_dir s) domain email)
    (Spec.res a) (Spec.st a) (Spec.out a).
Proof.
  intros Hen Hdom Hem. cbv zeta.
  change (Props.wp (Installer.setup_ssl W)
            (Steps.ssl_post s (Steps.certbot_command (Installer.install_dir s) domain email))
            s []).
  unfold Installer.setup_ssl.
  assert (HS : Spec.same_settings s s) by (split; reflexivity).
  apply wp_bind, wp_get_config. rewrite Hen.
  cbv beta iota delta [Props.wp_then Installer.truthy negb].
  do 5 (aside; [| shelve]).
  match goal with H : Spec.same_settings _ _ |- _ => pose proof H as [Hc Hdir] end.
  apply wp_bind, wp_get_config. rewrite Hc, Hdom. cbv beta iota delta [Props.wp_then].
  apply wp_bind, wp_get_config. rewrite Hc, Hem. cbv beta iota delta [Props.wp_then].
  apply wp_bind, wp_get. rewrite Hdir.
  cbv beta iota zeta delta [Props.wp_then Installer.py_str].
  clear Hc Hdir.
  do 2 (aside; [| shelve]).
  apply wp_bind. wp_go.
  destruct (Installer.w_subprocess W (Installer.tick _) _) as [rc stdout | | m |] eqn:Ho;
    [destruct (Z.eqb_spec rc 0) as [-> | Hrc] | | |].
  - wp_go. wp_state. rebase. aside_core; [| shelve].
    aside; [| shelve]. wp_go. shelve.
  - wp_go. shelve.
  - wp_go. shelve.
  - wp_go. wp_state. shelve.
  - wp_go. shelve.
  Unshelve.
  all: ssl_runs.
  all: match goal with H : Spec.same_settings _ _ |- _ => destruct H as [Hc Hdir] end.
  all: try match goal with
           | |- context [match Installer.w_read ?a ?b ?c with _ => _ end] =>
               destruct (Installer.w_read a b c)
           end.
  all: try match goal with
           | H : ?rc <> 0 |- _ => apply Z.eqb_neq in H
           end.
  all: cbn.
  all: try match goal with
           | H : (?rc =? 0) = false |- _ => rewrite H
           end.
  all: repeat split; first [assumption | discriminate | reflexivity | congruence].
Qed.

Lemma setup_ssl_outcome_by_certbot_witness :
  let a := Installer.setup_ssl Scenario.cert_denied Scenario.collected in
  Spec.res a = Py.Return tt /\
  Installer.config (Spec.st a) !! "enable_ssl" = Some (Installer.VBool false) /\
  Steps.ssl_post Scenario.collected
    (Steps.certbot_command "/opt/secret-poll" "example.com" "admin@example.com")
    (Spec.res a) (Spec.st a) (Spec.out a).
Proof.
  cbv zeta. split; [vm_compute; reflexivity |]. split; [vm_compute; reflexivity |].
  apply (setup_ssl_outcome_by_certbot Scenario.cert_denied Scenario.collected
           "example.com" "admin@example.com"); vm_compute; reflexivity.
Defined.

(** * The web server *)

(** Symbolic execution that remembers which commands ended with
    status 0. *)
Ltac run_split :=
  match goal with
  | |- match ?x with _ => _ end =>
      lazymatch x with
      | Installer.w_subprocess _ _ _ =>
          let rc := fresh "rc" in
          destruct x as [rc ? | | ? | ];
          [destruct (Z.eqb_spec rc 0) as [-> | ?] | | |]
      | _ => destruct x eqn:?
      end
  | |- Props.wp (match ?x with _ => _ end) _ _ _ => destruct x eqn:?
  end.

Ltac wp_paths :=
  repeat first [progress wp_go | progress wp_state | run_split].

Ltac eq_str_go :=
  match goal with
  | |- context [Installer.eq_str (Installer.VStr ?a) ?b] =>
      let v := eval vm_compute in (Installer.eq_str (Installer.VStr a) b) in
      change (Installer.eq_str (Installer.VStr a) b) with v
  end.

Ltac ran_well_go :=
  repeat (apply Forall_cons_2; [eexists; reflexivity |]); apply Forall_nil_2.

Ltac web_server_fin :=
  split; [eexists; reflexivity |];
  split; [ran_well_go |];
  first
    [ discriminate
    | intros _; split; [reflexivity |]; split; [ran_well_go |];
      first [ intros Hn; exfalso; apply Hn; reflexivity
            | intros _; eexists; split; [eassumption | reflexivity] ] ].

Ltac web_server_done :=
  unfold Steps.web_server_post;
  try match goal with
      | |- context [match Installer.w_read ?a ?b ?c with _ => _ end] =>
          destruct (Installer.w_read a b c)
      end;
  cbn; web_server_fin.



(** * Settings that depend on the certificate *)

Ltac not_same_path' :=
  let H := fresh "H" in
  intros H;
  first [ discriminate H
        | apply append_inj in H; discriminate H
        | revert H; apply not_ends_with; reflexivity
        | symmetry in H; revert H; apply not_ends_with; reflexivity
        | vm_compute in H; discriminate H ].

Ltac not_ssl_dependent_leaf :=
  first
    [ exact Logic.I
    | unfold Steps.not_ssl_dependent, Steps.ssl_dependent_files, Installer.path_join;
      rewrite ?append_assoc; cbn [In];
      let H := fresh "H" in
      intros [H | [H | [H | [H | []]]]]; revert H; not_same_path' ].

Section SslDependent.

Import PyStr Py Installer Spec Trace Steps.

Variable W : World.

Lemma not_certbot_long (d x : string) (args : list string) :
  (String.length "certbot" <? String.length x)%nat = true ->
  not_certbot ((d +:+ x) :: args).
Proof.
  intros H. unfold not_certbot, is_certbot. cbn [hd].
  apply String.eqb_neq. apply append_long. exact H.
Qed.

Lemma post_collection_certbot dir :
  phased (at_home dir "secret-poll") not_certbot any_fs
    any_cmd (not_ssl_dependent dir "secret-poll") (post_collection W).
Proof.
  phased_go
    ltac:(first [ exact Logic.I | reflexivity
                | unfold path_join; rewrite ?append_assoc;
                  apply not_certbot_long; reflexivity ])
    ltac:(not_ssl_dependent_leaf).
Qed.

Lemma pre_collection_certbot dir0 svc :
  emits (at_home dir0 svc) not_certbot any_fs (pre_collection W).
Proof. emits_go ltac:(first [exact Logic.I | reflexivity]). Qed.

End SslDependent.

(** The files whose text depends on [enable_ssl] (the site of the web
    server, [backend/.env] with [CORS_ORIGINS] and [frontend/.env] with
    the address of the backend) are written before [certbot] is started,
    and nothing writes them again afterwards.  So when starting
    [certbot] fails and [setup_ssl] switches [enable_ssl] off, these
    files keep the text that was generated for HTTPS. *)
Theorem ssl_settings_are_written_before_certbot (W : Installer.World)
    (inp : list Installer.input_line) (i j : nat) (p c : string) (cmd : list string)
    (o : Installer.proc_outcome) :
  let a := Installer.main W inp in
  In p (Steps.ssl_dependent_files (Installer.install_dir (Spec.st a)) "secret-poll") ->
  Steps.is_certbot cmd = true ->
  Spec.out a !! i = Some (Installer.EvFs (Installer.Write p c)) ->
  Spec.out a !! j = Some (Installer.EvRun cmd o) ->
  (i < j)%nat.
Proof.
  cbv zeta. unfold Installer.main. intros Hp Hcmd Hi Hj.
  destruct (run_installation_phased W (fun _ => Steps.not_certbot) (fun _ => Trace.any_cmd)
              (fun _ => Trace.any_fs) (fun dir => Steps.not_ssl_dependent dir "secret-poll")
              (Installer.init inp))
    as (d1 & d2 & Heq & H1 & H2).
  - intros dir. apply pre_collection_certbot.
  - intros dir. eapply emits_weaken; [| | apply collect_configuration_fs];
      [intros ? [] | intros ? []].
  - intros dir. apply post_collection_certbot.
  - rewrite Heq in Hi, Hj.
    apply (phased_order _ _ _ _ d1 d2 i j _ _ H1 H2 Hi Hj).
    + intros Hn. exact (Hn Hp).
    + cbn. unfold Steps.not_certbot. rewrite Hcmd. discriminate.
Qed.


Lemma ssl_settings_are_written_before_certbot_witness :
  let a := Installer.main Scenario.happy (Scenario.answers "y") in
  let c := match Installer.generate_nginx_config Scenario.collected with
           | Py.Return c => c
           | Py.Raise _ => ""
           end in
  let cmd := Steps.certbot_command "/opt/secret-poll" "example.com" "admin@example.com" in
  Spec.out a !! 82%nat =
    Some (Installer.EvFs (Installer.Write "/etc/nginx/sites-available/secret-poll" c)) /\
  Spec.out a !! 99%nat = Some (Installer.EvRun cmd (Installer.Exited 0 "")) /\
  (82 < 99)%nat.
Proof.
  cbv zeta. split; [vm_compute; reflexivity |]. split; [vm_compute; reflexivity |].
  refine (ssl_settings_are_written_before_certbot Scenario.happy (Scenario.answers "y")
            82 99 "/etc/nginx/sites-available/secret-poll"
            (match Installer.generate_nginx_config Scenario.collected with
             | Py.Return c => c
             | Py.Raise _ => ""
             end)
            (Steps.certbot_command "/opt/secret-poll" "example.com" "admin@example.com")
            (Installer.Exited 0 "") _ _ _ _).
  - vm_compute. left. reflexivity.
  - vm_compute. reflexivity.
  - vm_compute. reflexivity.
  - vm_compute. reflexivity.
Defined.

(** * Free space, as the installer and as the validator see it *)

Ltac vwp_paths :=
  repeat first
    [ progress vwp_go
    | progress cbn [Validator.issues Validator.warnings Validator.successes Validator.tick
                    VProps.later]
    | progress unfold Validator.index, Validator.int
    | match goal with
      | |- match ?x with _ => _ end => destruct x eqn:?
      | |- VProps.vwp (match ?x with _ => _ end) _ _ => destruct x eqn:?
      end ].

Section Disk.

Import PyStr Py.

(** A step of which [P] is known, then the rest. *)
Lemma vwp_bind_post {A B} (m : Validator.V A) (k : A -> Validator.V B)
    (P : result A -> Validator.validator -> Prop) Q v :
  VProps.vwp m P v ->
  (forall a u, P (Return a) u -> VProps.vwp (k a) Q u) ->
  (forall e u, P (Raise e) u -> Q (Raise e) u) ->
  VProps.vwp (Validator.bind m k) Q v.
Proof.
  unfold VProps.vwp, Validator.bind. intros Hm Hk He.
  destruct (m v) as [[a | e] u]; cbn in *; auto.
Qed.

Lemma validate_system_compatibility_disk (W : Validator.World) (v : Validator.validator)
    (bavail frsize : Z) :
  (forall t, Validator.w_statvfs W t = inl (bavail, frsize)) ->
  bavail * frsize < 5 * 1024 ^ 3 ->
  In ("Disk space insufficient: " +:+
      Validator.w_format_1f W (bavail * frsize) (1024 ^ 3) +:+ "GB")
     (Validator.issues (snd (Validator.validate_system_compatibility W v))).
Proof.
  intros Hstat Hlt.
  assert (H10 : (10 * 1024 ^ 3 <=? bavail * frsize) = false) by (apply Z.leb_gt; lia).
  assert (H5 : (5 * 1024 ^ 3 <=? bavail * frsize) = false) by (apply Z.leb_gt; lia).
  change (VProps.vwp (Validator.validate_system_compatibility W)
            (fun _ u => In ("Disk space insufficient: " +:+
                            Validator.w_format_1f W (bavail * frsize) (1024 ^ 3) +:+ "GB")
                           (Validator.issues u)) v).
  unfold Validator.validate_system_compatibility.
  apply (vwp_bind_post _ _ (fun r _ => r = Return tt));
    [vwp_paths; reflexivity | intros _ u1 _ | intros e u1 [=]].
  apply (vwp_bind_post _ _ (fun r _ => r = Return tt));
    [vwp_paths; reflexivity | intros _ u2 _ | intros e u2 [=]].
  apply vwp_bind. vwp_go. rewrite Hstat. vwp_go. rewrite H10, H5. vwp_go.
  vwp_paths; cbn [Validator.issues]; rewrite ?in_app_iff; cbn [In]; auto.
Qed.

Lemma check_system_requirements_enough (W : Installer.World) (s : Installer.installer)
    (bavail frsize : Z) :
  (forall t, Installer.w_statvfs W t = (bavail, frsize)) ->
  2 * 1024 ^ 3 <= bavail * frsize ->
  (forall m, Installer.w_read W (Installer.tick s) "/etc/os-release" <> Installer.ReadError m) ->
  Spec.res (Installer.check_system_requirements W s) = Return tt.
Proof.
  intros Hstat Hge Hread.
  assert (H2 : (bavail * frsize <? 2 * 1024 ^ 3) = false) by (apply Z.ltb_ge; lia).
  change (Props.wp (Installer.check_system_requirements W) (fun r _ _ => r = Return tt) s []).
  unfold Installer.check_system_requirements.
  repeat first
    [ progress wp_go | progress wp_state | rewrite Hstat | rewrite H2
    | progress cbn [fst snd]
    | match goal with
      | |- match ?x with _ => _ end => destruct x eqn:?
      | |- Props.wp (match ?x with _ => _ end) _ _ _ => destruct x eqn:?
      end ].
  all: try reflexivity.
  all: exfalso; eapply Hread; reflexivity.
Qed.

End Disk.

(** The installer and the validator disagree on the room that is
    needed.  With at least 2 GiB and less than 5 GiB free on the root
    file system, [check_system_requirements] of the installer returns
    (it asks for 2 GiB), while [validate_system_compatibility] records
    the issue [Disk space insufficient] (it asks for 5 GiB), so that a
    validation that runs to its end gives the verdict false. *)
Theorem disk_thresholds_disagree (WI : Installer.World) (WV : Validator.World)
    (s : Installer.installer) (v : Validator.validator) (bavail frsize : Z) :
  (forall t, Installer.w_statvfs WI t = (bavail, frsize)) ->
  (forall t, Validator.w_statvfs WV t = inl (bavail, frsize)) ->
  2 * 1024 ^ 3 <= bavail * frsize < 5 * 1024 ^ 3 ->
  (forall m, Installer.w_read WI (Installer.tick s) "/etc/os-release" <>
             Installer.ReadError m) ->
  Spec.res (Installer.check_system_requirements WI s) = Py.Return tt /\
  In ("Disk space insufficient: " +:+
      Validator.w_format_1f WV (bavail * frsize) (1024 ^ 3) +:+ "GB")
     (Validator.issues (snd (Validator.validate_system_compatibility WV v))) /\
  (forall ready,
     fst (Validator.run_comprehensive_validation WV v) = Py.Return ready -> ready = false).
Proof.
  intros HI HV [Hge Hlt] Hread.
  split; [exact (check_system_requirements_enough WI s bavail frsize HI Hge Hread) |].
  split; [exact (validate_system_compatibility_disk WV v bavail frsize HV Hlt) |].
  intros ready. unfold Validator.run_comprehensive_validation, Validator.all_validations.
  unfold Validator.bind at 1 2 3.
  destruct (Validator.validate_install_script WV v) as [[[] | e] v1]; [| discriminate].
  pose proof (validate_system_compatibility_disk WV v1 bavail frsize HV Hlt) as Hin.
  destruct (Validator.validate_system_compatibility WV v1) as [[[] | e] v2];
    [| discriminate].
  cbn [snd] in Hin.
  assert (Hk : Validator.keeps_issues
                 (Validator.bind (Validator.validate_node_compatibility WV) (fun _ =>
                  Validator.bind (Validator.validate_backend_dependencies WV) (fun _ =>
                  Validator.bind (Validator.validate_frontend_dependencies WV) (fun _ =>
                  Validator.bind (Validator.validate_network_requirements WV) (fun _ =>
                  Validator.bind (Validator.validate_security_requirements WV) (fun _ =>
                  Validator.validate_application_files WV))))))).
  { apply fine_bind; [apply fine_validate_node_compatibility | intros _].
    apply fine_bind; [apply fine_validate_backend_dependencies | intros _].
    apply fine_bind; [apply fine_validate_frontend_dependencies | intros _].
    apply fine_bind; [apply fine_validate_network_requirements | intros _].
    apply fine_bind; [apply fine_validate_security_requirements | intros _].
    apply fine_validate_application_files. }
  specialize (Hk v2).
  match type of Hk with
  | _ `prefix_of` Validator.issues (snd ?x) => destruct x as [[[] | e] v3]
  end; cbn [fst snd] in *; [| discriminate].
  intros [= <-]. destruct Hk as [k Hk]. rewrite Hk.
  destruct (Validator.issues v2) as [| x l]; [destruct Hin | reflexivity].
Qed.

Lemma disk_thresholds_disagree_witness :
  Spec.res (Installer.check_system_requirements Tight.installer_host (Installer.init [])) =
    Py.Return tt /\
  (forall ready,
     fst (Validator.run_comprehensive_validation Tight.validator_host Validator.init) =
       Py.Return ready -> ready = false).
Proof.
  assert (H3 : 2 * 1024 ^ 3 <= 786432 * 4096 < 5 * 1024 ^ 3) by (split; [apply Z.leb_le | apply Z.ltb_lt]; vm_compute; reflexivity).
  assert (H4 : forall m,
             Installer.w_read Tight.installer_host (Installer.tick (Installer.init []))
               "/etc/os-release" <> Installer.ReadError m)
    by (intros m; vm_compute; discriminate).
  destruct (disk_thresholds_disagree Tight.installer_host Tight.validator_host
              (Installer.init []) Validator.init 786432 4096
              (fun _ => eq_refl) (fun _ => eq_refl) H3 H4) as (Ha & _ & Hc).
  split; [exact Ha | exact Hc].
Defined.

(** * Failing commands *)

Section FailStop.

Import PyStr Py Installer Spec Trace Fatal.

Lemma failstop_tolerant {A} (m : M A) :
  emits anywhere tolerated any_fs m -> failstop m.
Proof.
  intros Hm s i cmd o Hi Hn _. destruct (Hm s Logic.I) as [_ Hd].
  apply (Forall_allowed_runs _ any_fs) in Hd.
  exfalso. apply Hn.
  assert (Hin : cmd ∈ (runs (out (m s))).*1).
  { apply list_elem_of_fmap. exists (cmd, o). split; [reflexivity |].
    eapply list_elem_of_lookup_2, Hi. }
  exact (proj1 (Forall_forall _ _) Hd cmd Hin).
Qed.

Lemma failstop_bind {A B} (m : M A) (k : A -> M B) :
  failstop m -> (forall a, failstop (k a)) -> failstop (bind m k).
Proof.
  intros Hm Hk s i cmd o. specialize (Hm s i cmd o). revert Hm.
  unfold bind, res, out. destruct (m s) as [[[a | e] s1] d1]; cbn [fst snd];
    [| intros H Hi Hn Hf; destruct (H Hi Hn Hf) as [[= ->] Hl];
       split; [reflexivity | exact Hl]].
  intros Hm. specialize (Hk a s1). revert Hk. unfold res, out.
  destruct (k a s1) as [[r s2] d2]; cbn [fst snd]. intros Hk.
  rewrite runs_app, length_app. intros Hi Hn Hf.
  destruct (decide (i < length (runs d1))%nat) as [Hlt | Hge].
  - rewrite lookup_app_l in Hi by exact Hlt.
    destruct (Hm Hi Hn Hf) as [[=] _].
  - rewrite lookup_app_r in Hi by lia.
    destruct (Hk _ cmd o Hi Hn Hf) as [Hr Hl]. split; [exact Hr | lia].
Qed.

Lemma failstop_try_catch {A} (body : M A) (h : exn -> option (M A)) :
  failstop body -> h (SystemExit 1) = None ->
  (forall e m, h e = Some m -> failstop m) ->
  failstop (try_catch body h).
Proof.
  intros Hb Hx Hh s i cmd o. specialize (Hb s i cmd o). revert Hb.
  unfold try_catch, res, out. destruct (body s) as [[[a | e] s1] d1]; cbn [fst snd];
    [intros H; exact H |].
  intros Hb. destruct (h e) as [m |] eqn:He; cbn [fst snd]; [| exact Hb].
  specialize (Hh e m He s1). revert Hh. unfold res, out.
  destruct (m s1) as [[r s2] d2]; cbn [fst snd]. intros Hh.
  rewrite runs_app, length_app. intros Hi Hn Hf.
  destruct (decide (i < length (runs d1))%nat) as [Hlt | Hge].
  - rewrite lookup_app_l in Hi by exact Hlt.
    destruct (Hb Hi Hn Hf) as [[= ->] _]. rewrite Hx in He. discriminate.
  - rewrite lookup_app_r in Hi by lia.
    destruct (Hh _ cmd o Hi Hn Hf) as [Hr Hl]. split; [exact Hr | lia].
Qed.

Lemma failstop_try_Exception {A} (body : M A) (handler : exn -> M A) :
  failstop body -> (forall e, failstop (handler e)) ->
  failstop (try_Exception body handler).
Proof.
  intros Hb Hh. apply failstop_try_catch; [exact Hb | reflexivity |].
  intros e m. destruct (is_Exception e); [intros [= <-]; apply Hh | discriminate].
Qed.

Lemma failstop_for_each {A} (l : list A) (body : A -> M unit) :
  (forall x, failstop (body x)) -> failstop (for_each l body).
Proof.
  intros Hb. induction l as [| x l IH]; cbn [for_each].
  - intros s i cmd o Hi. destruct i; discriminate Hi.
  - apply failstop_bind; [apply Hb | intros _; exact IH].
Qed.

Variable W : World.

(** A command run without [ignore_errors]. *)
Lemma failstop_run_command cmd d c : failstop (run_command W cmd d c false).
Proof.
  intros s i cmd' o'. rewrite run_command_eq. cbv zeta. unfold res, out.
  destruct (w_subprocess W (tick s) cmd) as [rc stdout | | m |] eqn:Ho; cbn [fst snd].
  - destruct (Z.eqb_spec rc 0) as [-> | Hrc]; cbn [fst snd]; rewrite !runs_app;
      destruct (nonempty d); cbn.
    1,2: destruct i; [| discriminate]; intros [= <- <-] _ [[=] | (rc & so & [= <- _] & Hne)];
         destruct (Hne eq_refl).
    all: destruct (w_read W (S (tick s)) (log_file s)); cbn;
         (destruct i; [| discriminate]); intros _ _ _; split; reflexivity.
  - rewrite !runs_app; destruct (nonempty d); cbn;
      (destruct i; [| discriminate]); intros _ _ _; split; reflexivity.
  - rewrite !runs_app; destruct (nonempty d); cbn;
      (destruct i; [| discriminate]); intros [= <- <-] _ [[=] | (rc & so & [=] & _)].
  - rewrite !runs_app; destruct (nonempty d); cbn;
      (destruct i; [| discriminate]); intros [= <- <-] _ [[=] | (rc & so & [=] & _)].
Qed.

End FailStop.

Ltac tolerated_leaf :=
  first
    [ exact Logic.I
    | unfold Fatal.tolerated, Installer.gpg_commands, Installer.path_join;
      first [ left; in_list
            | right; left; in_list
            | right; right; left; eexists; in_list
            | right; right; right; left; eexists; in_list
            | right; right; right; right; eexists; eexists; reflexivity ] ].

Ltac failstop_go :=
  cbv beta zeta;
  lazymatch goal with
  | |- Fatal.failstop (Installer.bind _ _) =>
      apply failstop_bind; [failstop_go | intros ?; failstop_go]
  | |- Fatal.failstop (Installer.try_Exception _ _) =>
      apply failstop_try_Exception; [failstop_go | intros ?; failstop_go]
  | |- Fatal.failstop (Installer.try_catch _ _) =>
      apply failstop_try_catch;
      [ failstop_go | reflexivity
      | let e := fresh "e" in
        let m := fresh "m" in
        intros e m; destruct e; cbn [Py.is_Exception]; try discriminate;
        intros [= <-]; failstop_go ]
  | |- Fatal.failstop (Installer.try_bare _ _) =>
      apply failstop_tolerant; solve [emits_go ltac:(tolerated_leaf)]
  | |- Fatal.failstop (Installer.run_command _ _ _ _ false) => apply failstop_run_command
  | |- Fatal.failstop (Installer.run _ _) => apply failstop_run_command
  | |- Fatal.failstop (Installer.run_d _ _ _) => apply failstop_run_command
  | |- Fatal.failstop (Installer.for_each (_ :: _) _) =>
      cbn [Installer.for_each]; failstop_go
  | |- Fatal.failstop (Installer.for_each _ _) =>
      apply failstop_for_each; intros ?; failstop_go
  | |- Fatal.failstop (if ?b then _ else _) => split_scrutinee b; failstop_go
  | |- Fatal.failstop (match ?x with _ => _ end) => split_scrutinee x; failstop_go
  | |- Fatal.failstop ?m =>
      first [ apply failstop_tolerant; solve [emits_go ltac:(tolerated_leaf)]
            | let h := head_of m in unfold h; failstop_go ]
  end.

Section FailStopRun.

Import PyStr Py Installer Spec Trace Fatal.

Variable W : World.

Lemma failstop_pre_collection : failstop (pre_collection W).
Proof. failstop_go. Qed.

Lemma failstop_collect_configuration : failstop (collect_configuration W).
Proof. failstop_go. Qed.

Lemma failstop_post_collection : failstop (post_collection W).
Proof. failstop_go. Qed.

End FailStopRun.



(** * The step counter *)

Section Still.

Import PyStr Py Installer Spec Progress.

Lemma shown_app d1 d2 : shown (d1 ++ d2) = shown d1 ++ shown d2.
Proof. apply omap_app. Qed.

Lemma still_ret {A} (a : A) : still (ret a).
Proof. intros s. repeat split. Qed.

Lemma still_raise {A} (e : exn) : still (@raise A e).
Proof. intros s. repeat split. Qed.

Lemma still_get {A} (f : installer -> A) : still (get f).
Proof. intros s. repeat split. Qed.

Lemma still_pure_method {A} (f : installer -> result A) : still (pure_method f).
Proof. intros s. repeat split. Qed.

Lemma still_get_config key : still (get_config key).
Proof. intros s. unfold get_config, st, out. destruct (config s !! key); repeat split. Qed.

Lemma still_modify f :
  (forall s, total_steps (f s) = total_steps s /\ current_step (f s) = current_step s) ->
  still (modify f).
Proof. intros Hf s. destruct (Hf s) as [H1 H2]. repeat split; assumption. Qed.

Lemma still_emit ev : shown [ev] = [] -> still (emit ev).
Proof. intros Hev s. repeat split. exact Hev. Qed.

Lemma still_input : still input.
Proof. intros s. unfold input, st, out. destruct (stdin s) as [| [l |] rest]; repeat split. Qed.

Lemma still_input_loop {A} (accept : string -> option A) : still (input_loop accept).
Proof.
  intros s. unfold input_loop, st, out.
  destruct (read_until accept (stdin s)) as [r rest]; repeat split.
Qed.

Lemma still_ask (W : World) {A} (q : World -> nat -> A) : still (ask W q).
Proof. intros s. repeat split. Qed.

Lemma still_bind {A B} (m : M A) (k : A -> M B) :
  still m -> (forall a, still (k a)) -> still (bind m k).
Proof.
  intros Hm Hk s. destruct (Hm s) as (H1 & H2 & H3). revert H1 H2 H3.
  unfold bind, st, out. destruct (m s) as [[[a | e] s1] d1]; cbn [fst snd]; [| auto].
  intros H1 H2 H3. destruct (Hk a s1) as (H4 & H5 & H6). revert H4 H5 H6.
  unfold st, out. destruct (k a s1) as [[r s2] d2]; cbn [fst snd].
  intros H4 H5 H6. rewrite shown_app, H3, H6. repeat split; congruence.
Qed.

Lemma still_try_catch {A} (body : M A) (h : exn -> option (M A)) :
  still body -> (forall e m, h e = Some m -> still m) -> still (try_catch body h).
Proof.
  intros Hb Hh s. destruct (Hb s) as (H1 & H2 & H3). revert H1 H2 H3.
  unfold try_catch, st, out. destruct (body s) as [[[a | e] s1] d1]; cbn [fst snd]; [auto |].
  intros H1 H2 H3. destruct (h e) as [m |] eqn:He; cbn [fst snd]; [| auto].
  destruct (Hh e m He s1) as (H4 & H5 & H6). revert H4 H5 H6.
  unfold st, out. destruct (m s1) as [[r s2] d2]; cbn [fst snd].
  intros H4 H5 H6. rewrite shown_app, H3, H6. repeat split; congruence.
Qed.

Lemma still_try_bare {A} (body handler : M A) :
  still body -> still handler -> still (try_bare body handler).
Proof. intros Hb Hh. apply still_try_catch; [exact Hb |]. intros e m [= <-]. exact Hh. Qed.

Lemma still_try_Exception {A} (body : M A) (handler : exn -> M A) :
  still body -> (forall e, still (handler e)) -> still (try_Exception body handler).
Proof.
  intros Hb Hh. apply still_try_catch; [exact Hb |]. intros e m.
  destruct (is_Exception e); [intros [= <-]; apply Hh | discriminate].
Qed.

Lemma still_for_each {A} (l : list A) (body : A -> M unit) :
  (forall x, still (body x)) -> still (for_each l body).
Proof.
  intros Hb. induction l as [| x l IH]; cbn [for_each]; [apply still_ret |].
  apply still_bind; [apply Hb | intros _; exact IH].
Qed.

End Still.

(** Shortcuts for methods of which [still] is known. *)
Ltac still_known := fail.

Ltac still_go :=
  cbv beta zeta;
  first [ still_known | still_unknown ]
with still_unknown :=
  lazymatch goal with
  | |- Progress.still (Installer.bind _ _) =>
      apply still_bind; [still_go | intros ?; still_go]
  | |- Progress.still (Installer.try_bare _ _) =>
      apply still_try_bare; still_go
  | |- Progress.still (Installer.try_Exception _ _) =>
      apply still_try_Exception; [still_go | intros ?; still_go]
  | |- Progress.still (Installer.try_catch _ _) =>
      apply still_try_catch;
      [ still_go
      | let e := fresh "e" in
        let m := fresh "m" in
        intros e m; destruct e; cbn [Py.is_Exception]; try discriminate;
        intros [= <-]; still_go ]
  | |- Progress.still (Installer.ret _) => apply still_ret
  | |- Progress.still (Installer.raise _) => apply still_raise
  | |- Progress.still (Installer.get _) => apply still_get
  | |- Progress.still (Installer.pure_method _) => apply still_pure_method
  | |- Progress.still (Installer.get_config _) => apply still_get_config
  | |- Progress.still (Installer.modify _) =>
      apply still_modify; intros ?; split; reflexivity
  | |- Progress.still (Installer.emit _) => apply still_emit; reflexivity
  | |- Progress.still Installer.input => apply still_input
  | |- Progress.still (Installer.input_loop _) => apply still_input_loop
  | |- Progress.still (Installer.ask _ _) => apply still_ask
  | |- Progress.still (Installer.for_each (_ :: _) _) =>
      cbn [Installer.for_each]; still_go
  | |- Progress.still (Installer.for_each _ _) =>
      apply still_for_each; intros ?; still_go
  | |- Progress.still (Installer.gpg_loop _ Installer.gpg_commands) =>
      unfold Installer.gpg_commands; cbn [Installer.gpg_loop]; still_go
  | |- Progress.still (Installer.gpg_loop _ _) => cbn [Installer.gpg_loop]; still_go
  | |- Progress.still (Installer.mongodb_service_loop _ _) =>
      cbn [Installer.mongodb_service_loop]; still_go
  | |- Progress.still (if ?b then _ else _) => split_scrutinee b; still_go
  | |- Progress.still (Installer.log _ (if ?b then _ else _)) => destruct b; still_go
  | |- Progress.still (match ?x with _ => _ end) => split_scrutinee x; still_go
  | |- Progress.still ?m => let h := head_of m in unfold h; still_go
  end.

Section StillMethods.

Import PyStr Py Installer Spec Progress.

Variable W : World.

Lemma still_log msg lv : lv <> PROGRESS -> still (log msg lv).
Proof. intros Hlv. apply still_emit. destruct lv; try reflexivity. destruct (Hlv eq_refl). Qed.

Lemma still_run_command cmd d c i : still (run_command W cmd d c i).
Proof. still_go. Qed.

Lemma still_subprocess_run cmd check : still (subprocess_run W cmd check).
Proof. still_go. Qed.

Lemma still_fs op : still (fs W op).
Proof. still_go. Qed.

End StillMethods.

Ltac still_known ::=
  lazymatch goal with
  | |- Progress.still (Installer.run_command _ _ _ _ _) => apply still_run_command
  | |- Progress.still (Installer.run _ _) => apply still_run_command
  | |- Progress.still (Installer.run_d _ _ _) => apply still_run_command
  | |- Progress.still (Installer.run_ignore _ _) => apply still_run_command
  | |- Progress.still (Installer.subprocess_run _ _ _) => apply still_subprocess_run
  | |- Progress.still (Installer.fs _ _) => apply still_fs
  | |- Progress.still (Installer.write_file _ _ _) => apply still_fs
  | |- Progress.still (Installer.log _ Installer.INFO) => apply still_log; discriminate
  | |- Progress.still (Installer.log _ Installer.SUCCESS) => apply still_log; discriminate
  | |- Progress.still (Installer.log _ Installer.WARNING) => apply still_log; discriminate
  | |- Progress.still (Installer.log _ Installer.ERROR) => apply still_log; discriminate
  | |- Progress.still (Installer.log _ Installer.STEP) => apply still_log; discriminate
  end.

Section StillCollect.

Import PyStr Py Installer Spec Progress.

Variable W : World.

Lemma still_collect_configuration : still (collect_configuration W).
Proof. still_go. Qed.

End StillCollect.

Section Counts.

Import PyStr Py Installer Spec Progress.

Lemma counts_still {A} (m : M A) : still m -> counts 0 m.
Proof.
  intros Hm s. destruct (Hm s) as (H1 & H2 & H3). split; [exact H1 |].
  exists 0%nat. rewrite H3, H2, Nat.add_0_r. repeat split; [constructor | constructor].
Qed.

Lemma counts_progress d : counts 1 (progress d).
Proof.
  intros s. split; [reflexivity |]. exists 1%nat.
  split; [lia |]. split; [cbn; lia |]. split; [| reflexivity].
  cbn. repeat constructor. eexists. reflexivity.
Qed.

Lemma counts_at_bind {A B} (n1 n2 : nat) (m : M A) (k : A -> M B) s :
  counts_at n1 m s -> (forall a, counts n2 (k a)) -> counts_at (n1 + n2) (bind m k) s.
Proof.
  intros Hm Hk. destruct Hm as (H1 & k1 & Hle1 & Hc1 & Hs1 & Hr1). revert H1 Hc1 Hs1 Hr1.
  unfold counts_at, bind, res, st, out. destruct (m s) as [[[a | e] s1] d1]; cbn [fst snd].
  - intros H1 Hc1 Hs1 Hr1. specialize (Hr1 a eq_refl). subst k1.
    destruct (Hk a s1) as (H2 & k2 & Hle2 & Hc2 & Hs2 & Hr2). revert H2 Hc2 Hs2 Hr2.
    unfold counts_at, res, st, out. destruct (k a s1) as [[r s2] d2]; cbn [fst snd].
    intros H2 Hc2 Hs2 Hr2. split; [congruence |].
    exists (n1 + k2)%nat. split; [lia |]. split; [lia |]. split.
    + rewrite shown_app, seq_app. apply Forall2_app; [exact Hs1 |].
      rewrite H1, Hc1 in Hs2. replace (S (current_step s) + n1)%nat
        with (S (current_step s + n1)) by lia. exact Hs2.
    + intros x Hx. rewrite (Hr2 x Hx). reflexivity.
  - intros H1 Hc1 Hs1 _. split; [exact H1 |].
    exists k1. split; [lia |]. split; [exact Hc1 |]. split; [exact Hs1 | discriminate].
Qed.

Lemma counts_bind {A B} (n1 n2 : nat) (m : M A) (k : A -> M B) :
  counts n1 m -> (forall a, counts n2 (k a)) -> counts (n1 + n2) (bind m k).
Proof. intros Hm Hk s. apply counts_at_bind; [apply Hm | exact Hk]. Qed.

Lemma counts_after {A B} (n : nat) (m : M A) (k : A -> M B) :
  still m -> (forall a, counts n (k a)) -> counts n (bind m k).
Proof. intros Hm Hk. apply (counts_bind 0 n); [apply counts_still, Hm | exact Hk]. Qed.

Lemma counts_next {A B} (n : nat) (m : M A) (k : A -> M B) :
  counts 1 m -> (forall a, counts n (k a)) -> counts (S n) (bind m k).
Proof. intros Hm Hk. apply (counts_bind 1 n); assumption. Qed.

Lemma counts_first {A} (d : string) (k : unit -> M A) :
  (forall a, still (k a)) -> counts 1 (bind (progress d) k).
Proof.
  intros Hk. apply (counts_bind 1 0); [apply counts_progress |].
  intros a. apply counts_still, Hk.
Qed.

End Counts.

Section CountsMethods.

Import PyStr Py Installer Spec Progress.

Variable W : World.

Lemma counts_cleanup_vps : counts 1 (cleanup_vps W).
Proof. unfold cleanup_vps. apply counts_first. intros _. still_go. Qed.

Lemma counts_install_system_dependencies : counts 1 (install_system_dependencies W).
Proof. unfold install_system_dependencies. apply counts_first. intros _. still_go. Qed.

Lemma counts_setup_application : counts 1 (setup_application W).
Proof. unfold setup_application. apply counts_first. intros _. still_go. Qed.

Lemma counts_at_get_config (n : nat) key {B} (k : pyval -> M B) s :
  match config s !! key with
  | Some v => counts_at n (k v) s
  | None => True
  end -> counts_at n (bind (get_config key) k) s.
Proof.
  unfold counts_at, bind, get_config, res, st, out.
  destruct (config s !! key) as [v |]; cbn [fst snd].
  - destruct (k v s) as [[r s2] d2]; cbn [fst snd]. auto.
  - intros _. split; [reflexivity |]. exists 0%nat.
    rewrite Nat.add_0_r. repeat split; [lia | constructor | discriminate].
Qed.

(** Step 7: [setup_ssl] is entered only with [enable_ssl] true, and then
    it shows its step. *)
Lemma counts_ssl_step (n : nat) {B} (k : unit -> M B) :
  (forall a, counts n (k a)) ->
  counts (S n)
    (en <- get_config "enable_ssl" ;;
     bind (if truthy en then setup_ssl W else progress "Skipping SSL setup (HTTP only)") k).
Proof.
  intros Hk s. apply counts_at_get_config.
  destruct (config s !! "enable_ssl") as [en |] eqn:Hen; [| exact Logic.I].
  apply (counts_at_bind 1 n); [| exact Hk].
  destruct (truthy en) eqn:Ht; [| apply counts_progress].
  unfold setup_ssl. apply counts_at_get_config. rewrite Hen, Ht. cbn [negb].
  apply counts_first. intros _. still_go.
Qed.

End CountsMethods.

Ltac counts_one :=
  first [ apply counts_progress | apply counts_cleanup_vps
        | apply counts_install_system_dependencies | apply counts_setup_application ].

Ltac counts_go :=
  cbv beta zeta;
  lazymatch goal with
  | |- Progress.counts _ (Installer.bind _ _) =>
      first [ apply counts_ssl_step; intros ?; counts_go
            | apply counts_after; [solve [still_go] | intros ?; counts_go]
            | apply counts_next; [solve [counts_one] | intros ?; counts_go] ]
  | |- Progress.counts 0 _ => apply counts_still; still_go
  | |- Progress.counts 1 _ => counts_one
  end.

Section CountsRun.

Import PyStr Py Installer Spec Progress.

Variable W : World.

Lemma counts_pre_collection : counts 3 (pre_collection W).
Proof. unfold pre_collection. counts_go. Qed.

Lemma counts_post_collection : counts 9 (post_collection W).
Proof. unfold post_collection. counts_go. Qed.

Lemma counts_run_installation_body : counts 12 (run_installation_body W).
Proof.
  unfold run_installation_body.
  apply (counts_bind 3 9); [apply counts_pre_collection | intros _].
  apply (counts_bind 0 9); [apply counts_still, still_collect_configuration | intros _].
  apply counts_post_collection.
Qed.

End CountsRun.

(** ** The step counter of a whole run *)

Lemma shown_app_logs (d : list Installer.event) (l : list Installer.event) :
  Forall (fun ev => match ev with Installer.EvLog Installer.PROGRESS _ => False | _ => True end) l ->
  Progress.shown (d ++ l) = Progress.shown d.
Proof.
  intros Hl. rewrite shown_app.
  assert (Progress.shown l = []) as ->; [| apply app_nil_r].
  induction Hl as [| ev l Hev _ IH]; [reflexivity |].
  unfold Progress.shown in *. cbn [omap list_omap]. 
  destruct ev as [lv msg | | | |]; try exact IH.
  destruct lv; try exact IH. destruct Hev.
Qed.

(** The progress lines of a run of the installer are
    [Step 1/12: ...], [Step 2/12: ...], ... in order and without a gap;
    there are at most twelve of them, the counter ends at their number,
    and a run that comes to its end has shown all twelve. *)
Theorem progress_steps_are_counted (W : Installer.World) (inp : list Installer.input_line) :
  let a := Installer.main W inp in
  exists k : nat,
    (k <= 12)%nat /\
    Forall2 (Progress.step_line 12) (seq 1 k) (Progress.shown (Spec.out a)) /\
    Installer.current_step (Spec.st a) = k /\
    Installer.total_steps (Spec.st a) = 12%nat /\
    (Spec.res a = Py.Return tt -> k = 12%nat).
Proof.
  cbv zeta. unfold Installer.main. rewrite run_installation_eq.
  destruct (counts_run_installation_body W (Installer.init inp)) as (Ht & k & Hle & Hc & Hs & Hr).
  revert Ht Hc Hs Hr. unfold Spec.res, Spec.st, Spec.out.
  destruct (Installer.run_installation_body W (Installer.init inp)) as [[[[] | e] s1] d1];
    cbn [fst snd]; intros Ht Hc Hs Hr; exists k.
  - repeat split; [exact Hle | exact Hs | exact Hc | exact Ht |].
    intros _. exact (Hr tt eq_refl).
  - destruct e; cbn [fst snd];
      rewrite ?shown_app_logs by (repeat constructor);
      (repeat split; [exact Hle | exact Hs | exact Hc | exact Ht | discriminate]).
Qed.
